(** * HPF pansharpening: a shallow embedding of [functions.py] and [pansharpen.py]

    The pipeline reads a panchromatic (PAN) and a multispectral (MUL) raster,
    high-pass filters the PAN stack, adds the remaining PAN component to every
    MUL band and writes the bands to a new raster.

    Modelling choices.
    - Floating-point values are kept abstract behind the interface
      [FloatOps]: a carrier with a not-a-number value, the arithmetic used by
      the code, numpy's [==] and [np.isnan].  The structural results hold for
      every carrier.  Results that depend on arithmetic identities are stated
      on [xQ], exact rationals extended with NaN, where rounding is not
      modelled; [b64], IEEE double precision, is the second carrier, on which
      the sample runs are evaluated again and on which the effects of
      rounding are shown.
    - The carrier-generic reader starts from cells that are float32 values
      already.  [read_raster_float32] is the reader with its two formats
      written out: cells as stored in the raster, converted to float32, and
      compared with the sentinel as numpy compares them.
    - numpy and dask arrays are nested lists in (band, row, column) order.
    - Python exceptions are the [Raise] branch of [result].
    - The GDAL output dataset is the log of the calls made on it; a path that
      cannot be opened is a file system lookup that fails.
    - The [print] calls and the dask thread-pool setting are left out.        *)

From Stdlib Require Import Ascii String.
From Stdlib Require Import List ZArith QArith Bool Lia Lqa.
From Stdlib Require Import Floats.SpecFloat.
Import ListNotations.
Local Open Scope nat_scope.

(** ** Python exceptions *)

Inductive PyErr : Type :=
| AttributeError   (* attribute access on [None], e.g. a failed [gdal.Open] *)
| TypeError        (* bad call arity, subscripting [None] *)
| IndexError       (* index past the end of an array axis *)
| ValueError.      (* numpy / dask / GDAL shape errors *)

Inductive result (A : Type) : Type :=
| Ok (a : A)
| Raise (e : PyErr).
Arguments Ok {A} a.
Arguments Raise {A} e.

Definition bind {A B} (m : result A) (k : A -> result B) : result B :=
  match m with
  | Ok a => k a
  | Raise e => Raise e
  end.

Notation "x <- m ;; k" := (bind m (fun x => k))
  (at level 61, m at next level, right associativity).
Notation "' pat <- m ;; k" := (bind m (fun x => match x with pat => k end))
  (at level 61, pat pattern, m at next level, right associativity).

(** [for x in xs: body] over a state that the body updates or aborts. *)
Fixpoint for_each {A S} (xs : list A) (body : A -> S -> result S) (s : S)
  : result S :=
  match xs with
  | [] => Ok s
  | x :: rest => s' <- body x s ;; for_each rest body s'
  end.

(** Python's [range(lo, hi)]. *)
Definition range (lo hi : nat) : list nat := seq lo (hi - lo).

(** ** Floating-point interface *)

Class FloatOps (F : Type) : Type := {
  nan : F;                    (* np.nan *)
  of_int : Z -> F;            (* a Python int used in float arithmetic *)
  fadd : F -> F -> F;
  fsub : F -> F -> F;
  fmul : F -> F -> F;
  fdiv : F -> F -> F;
  feqb : F -> F -> bool;      (* == *)
  isnan : F -> bool           (* np.isnan *)
}.

(** What the proofs use of IEEE 754: NaN is a NaN, compares unequal to
    everything and is absorbing for the arithmetic. *)
Class FloatLaws (F : Type) `{FloatOps F} : Prop := {
  isnan_nan : isnan nan = true;
  feqb_nan_l : forall x y, isnan x = true -> feqb x y = false;
  feqb_nan_r : forall x y, isnan y = true -> feqb x y = false;
  fadd_nan_l : forall x y, isnan x = true -> isnan (fadd x y) = true;
  fadd_nan_r : forall x y, isnan y = true -> isnan (fadd x y) = true;
  fsub_nan_l : forall x y, isnan x = true -> isnan (fsub x y) = true;
  fsub_nan_r : forall x y, isnan y = true -> isnan (fsub x y) = true;
  fmul_nan_r : forall x y, isnan y = true -> isnan (fmul x y) = true
}.

(** ** Arrays *)

Definition Array2 (F : Type) : Type := list (list F).
Definition Array3 (F : Type) : Type := list (Array2 F).

Definition tabulate {A} (n : nat) (f : nat -> A) : list A := map f (seq 0 n).

Definition shape2 {F} (a : Array2 F) : nat * nat :=
  (length a, length (hd [] a)).

Definition shape3 {F} (a : Array3 F) : nat * nat * nat :=
  (length a, length (hd [] a), length (hd [] (hd [] a))).

(** [a[r, c]] and [a[b, r, c]] for indices inside the array; [d] elsewhere. *)
Definition at2 {F} (a : Array2 F) (d : F) (r c : nat) : F :=
  nth c (nth r a []) d.

Definition at3 {F} (a : Array3 F) (d : F) (b r c : nat) : F :=
  at2 (nth b a []) d r c.

(** The same with signed indices: anything off the array is [d].  This is
    how a filter with [mode='constant', cval=d] sees its input. *)
Definition at3z {F} (a : Array3 F) (d : F) (b r c : Z) : F :=
  if ((b <? 0) || (r <? 0) || (c <? 0))%Z then d
  else at3 a d (Z.to_nat b) (Z.to_nat r) (Z.to_nat c).

(** Every band has [nr] rows of [nc] cells. *)
Definition has_shape2 {F} (nr nc : nat) (a : Array2 F) : Prop :=
  length a = nr /\ Forall (fun row => length row = nc) a.

Definition has_shape3 {F} (nb nr nc : nat) (a : Array3 F) : Prop :=
  length a = nb /\ Forall (has_shape2 nr nc) a.

Definition shape2_eqb (s t : nat * nat) : bool :=
  (fst s =? fst t) && (snd s =? snd t).

(** [np.stack] / [da.stack] of 2-D arrays: needs at least one array, all of
    one shape. *)
Definition stack {F} (arrays : list (Array2 F)) : result (Array3 F) :=
  match arrays with
  | [] => Raise ValueError
  | a :: _ =>
      if forallb (fun x => shape2_eqb (shape2 x) (shape2 a)) arrays
      then Ok arrays else Raise ValueError
  end.

(** numpy broadcasting of two 2-D operands. *)
Definition broadcast_dim (m n : nat) : result nat :=
  if m =? n then Ok m
  else if m =? 1 then Ok n
  else if n =? 1 then Ok m
  else Raise ValueError.

Definition pick (dim i : nat) : nat := if dim =? 1 then 0 else i.

Definition elementwise {F} (d : F) (op : F -> F -> F) (x y : Array2 F)
  : result (Array2 F) :=
  let '(rx, cx) := shape2 x in
  let '(ry, cy) := shape2 y in
  nr <- broadcast_dim rx ry ;;
  nc <- broadcast_dim cx cy ;;
  Ok (tabulate nr (fun r => tabulate nc (fun c =>
        op (at2 x d (pick rx r) (pick cx c))
           (at2 y d (pick ry r) (pick cy c))))).

(** ** GDAL datasets *)

Record GeoTransform (F : Type) : Type := mkGeo {
  gt0 : F;   (* origin x *)
  gt1 : F;   (* pixel width *)
  gt2 : F;
  gt3 : F;   (* origin y *)
  gt4 : F;
  gt5 : F    (* pixel height, negative for north-up *)
}.
Arguments mkGeo {F}.
Arguments gt0 {F}.
Arguments gt1 {F}.
Arguments gt2 {F}.
Arguments gt3 {F}.
Arguments gt4 {F}.
Arguments gt5 {F}.

(** An opened raster.  A band is its pixel function (row, column), already
    converted by [.astype(np.float32)].  GDAL has no raster with a zero
    dimension. *)
Record Dataset (F : Type) : Type := mkDataset {
  RasterXSize : nat;
  RasterYSize : nat;
  RasterBands : list (nat -> nat -> F);
  GetProjection : option string;
  GetGeoTransform : option (GeoTransform F)
}.
Arguments mkDataset {F}.
Arguments RasterXSize {F}.
Arguments RasterYSize {F}.
Arguments RasterBands {F}.
Arguments GetProjection {F}.
Arguments GetGeoTransform {F}.

Definition RasterCount {F} (ds : Dataset F) : nat := length (RasterBands ds).

(** The files [gdal.Open] can open. *)
Definition FileSystem (F : Type) : Type := string -> option (Dataset F).

(** Calls made on the output dataset, in order. *)
Inductive GdalOp (F : Type) : Type :=
| Create (path : string) (xsize ysize bands : nat) (dtype : string)
         (options : list string)
| SetNoDataValue (band : nat) (v : F)
| WriteArray (band : nat) (a : Array2 F)
| SetGeoTransform (g : GeoTransform F)
| SetProjection (p : string)
| FlushCache.
Arguments Create {F}.
Arguments SetNoDataValue {F}.
Arguments WriteArray {F}.
Arguments SetGeoTransform {F}.
Arguments SetProjection {F}.
Arguments FlushCache {F}.

(** A Python value passed at a call site. *)
Inductive pyval (F : Type) : Type :=
| PyStr (s : string)
| PyNum (x : F)
| PyNone.
Arguments PyStr {F}.
Arguments PyNum {F}.
Arguments PyNone {F}.

Section Pipeline.

Context {F : Type} `{FloatOps F}.

(** *** [read_raster] *)

(** [gdal.Open] returns [None] for a path it cannot open; the first
    attribute access on it raises. *)
Definition gdal_Open (fs : FileSystem F) (path : string)
  : result (Dataset F) :=
  match fs path with
  | Some ds => Ok ds
  | None => Raise AttributeError
  end.

(** [src_ds.GetRasterBand(band).ReadAsArray().astype(np.float32)], bands
    counted from 1. *)
Definition ReadAsArray (src_ds : Dataset F) (band : nat)
  : result (Array2 F) :=
  match band with
  | 0 => Raise AttributeError
  | S k =>
      match nth_error (RasterBands src_ds) k with
      | Some px =>
          Ok (tabulate (RasterYSize src_ds) (fun r =>
                tabulate (RasterXSize src_ds) (fun c => px r c)))
      | None => Raise AttributeError
      end
  end.

(** [ds == nodata]: with [nodata = None] no cell compares equal. *)
Definition eq_nodata (v : F) (nodata : option F) : bool :=
  match nodata with
  | Some s => feqb v s
  | None => false
  end.

(** [ds[ds == nodata] = np.nan] *)
Definition fill_nan (ds : Array2 F) (nodata : option F) : Array2 F :=
  map (map (fun v => if eq_nodata v nodata then nan else v)) ds.

Definition read_raster (fs : FileSystem F) (path : string)
  (nodata : option F)
  : result (Array3 F * option string * option (GeoTransform F)) :=
  src_ds <- gdal_Open fs path ;;
  let n_bands := RasterCount src_ds in
  let projection := GetProjection src_ds in
  let geoTrans := GetGeoTransform src_ds in
  raw_image <- for_each (range 1 (n_bands + 1))
                 (fun band raw_image =>
                    ds <- ReadAsArray src_ds band ;;
                    let ds := fill_nan ds nodata in
                    Ok (raw_image ++ [ds]))
                 [] ;;
  raw_image_np <- stack raw_image ;;
  Ok (raw_image_np, projection, geoTrans).

(** The array [read_raster] builds for the band with pixel function [px]. *)
Definition band_array (ds : Dataset F) (nodata : option F)
  (px : nat -> nat -> F) : Array2 F :=
  fill_nan (tabulate (RasterYSize ds) (fun r =>
              tabulate (RasterXSize ds) (fun c => px r c))) nodata.

(** *** [get_bbox] *)

(** [geoTrans[i]] on a missing geotransform raises. *)
Definition subscript {A} (o : option A) : result A :=
  match o with
  | Some a => Ok a
  | None => Raise TypeError
  end.

Definition get_bbox (fs : FileSystem F) (path : string) : result (list F) :=
  src_ds <- gdal_Open fs path ;;
  geoTrans <- subscript (GetGeoTransform src_ds) ;;
  let resX := gt1 geoTrans in
  let resY := gt5 geoTrans in
  let ulx := gt0 geoTrans in
  let uly := gt3 geoTrans in
  let lrx := fadd ulx (fmul (of_int (Z.of_nat (RasterXSize src_ds))) resX) in
  let lry := fadd uly (fmul (of_int (Z.of_nat (RasterYSize src_ds))) resY) in
  let bbox := [ulx; lry; lrx; uly; resX; resY] in
  Ok bbox.

(** *** [high_pass_filter] *)

Definition highPassMatrix : Array2 F :=
  map (map (fun z => fdiv (of_int z) (of_int 25)))
    [ [-1; -1; -1; -1; -1];
      [-1; -1; -1; -1; -1];
      [-1; -1; 24; -1; -1];
      [-1; -1; -1; -1; -1];
      [-1; -1; -1; -1; -1] ]%Z.

(** The sum of the kernel weights, taken in row-major order. *)
Definition kernel_sum : F :=
  fold_left fadd (concat highPassMatrix) (of_int 0).

(** [scipy.ndimage.convolve(input, weights, mode='constant', cval)] for a
    3-D input and a 3-D weights array (scipy is a library the code calls;
    this is its documented behaviour).  [convolve] reverses the weights along
    every axis and correlates.  Along an axis of length [len] the filter is
    centred on index [len // 2], moved one to the left when [len] is even. *)
Definition flip3 (w : Array3 F) : Array3 F :=
  rev (map (fun m => rev (map (@rev F) m)) w).

Definition filter_centre (len : nat) : Z :=
  (Z.of_nat len / 2 + (if Nat.even len then -1 else 0))%Z.

(** Python's [enumerate]. *)
Definition enumerate {A} (l : list A) : list (nat * A) :=
  combine (seq 0 (length l)) l.

(** The filter elements in row-major order, each with its offset from the
    output cell. *)
Definition taps (w : Array3 F) : list (Z * Z * Z * F) :=
  let '(nk, ni, nj) := shape3 w in
  flat_map (fun '(k, m) =>
    flat_map (fun '(i, row) =>
      map (fun '(j, x) =>
             ((Z.of_nat k - filter_centre nk)%Z,
              (Z.of_nat i - filter_centre ni)%Z,
              (Z.of_nat j - filter_centre nj)%Z, x))
          (enumerate row))
      (enumerate m))
    (enumerate w).

(** One output cell: the running sum starts at 0 and adds weight * value
    for every filter element; cells off the input read as [cval].  (scipy
    leaves out the elements whose weight is 0; the kernel here has none.) *)
Definition correlate_cell (input : Array3 F) (tp : list (Z * Z * Z * F))
  (cval : F) (b r c : nat) : F :=
  fold_left
    (fun res '(db, dr, dc, w) =>
       fadd res (fmul w (at3z input cval (Z.of_nat b + db)
                                         (Z.of_nat r + dr)
                                         (Z.of_nat c + dc))))
    tp (of_int 0).

Definition ndimage_convolve (input weights : Array3 F) (cval : F)
  : Array3 F :=
  let '(nb, nr, nc) := shape3 input in
  let tp := taps (flip3 weights) in
  tabulate nb (fun b => tabulate nr (fun r => tabulate nc (fun c =>
    correlate_cell input tp cval b r c))).

Definition high_pass_filter (array : Array3 F) : result (Array3 F) :=
  k <- for_each (range 0 (fst (fst (shape3 array))))
         (fun b k => Ok (k ++ [highPassMatrix])) [] ;;
  k <- stack k ;;
  let convolve_image := ndimage_convolve array k nan in
  Ok convolve_image.

(** *** [pansharpening] *)

(** [a[i, :, :]] *)
Definition getitem (a : Array3 F) (i : nat) : result (Array2 F) :=
  match nth_error a i with
  | Some x => Ok x
  | None => Raise IndexError
  end.

(** [os.path.normpath] *)
Variable normpath : string -> string.

(** What the array library does with [a[mask] = None].  numpy stores NaN in
    a float array ([Ok nan]); dask, whose arrays the pipeline computes with,
    turns the assignment into [where(mask, None, a)], which it refuses with a
    [ValueError].  The library is not part of the repository, so the outcome
    is a parameter. *)
Variable store_None : result F.

(** The value that takes the place of NaN. *)
Definition replacement (nodata : option F) : result F :=
  match nodata with
  | Some s => Ok s
  | None => store_None
  end.

Definition nan_to (v : F) (a : Array2 F) : Array2 F :=
  map (map (fun x => if isnan x then v else x)) a.

(** [pansharpen[np.isnan(pansharpen)] = nodata] *)
Definition setitem_isnan (a : Array2 F) (nodata : option F)
  : result (Array2 F) :=
  v <- replacement nodata ;;
  Ok (nan_to v a).

(** [GetRasterBand(band).WriteArray(array)] on a raster of [xsize] columns
    and [ysize] rows: GDAL refuses an array larger than the band. *)
Definition BandWriteArray (xsize ysize band : nat) (array : Array2 F)
  (out_img : list (GdalOp F)) : result (list (GdalOp F)) :=
  let '(ys, xs) := shape2 array in
  if (xs <=? xsize) && (ys <=? ysize)
  then Ok (out_img ++ [WriteArray band array])
  else Raise ValueError.

(** [band + (pan_arr2d - pan_spatial2d)] *)
Definition hpf (band pan_arr2d pan_spatial2d : Array2 F)
  : result (Array2 F) :=
  detail <- elementwise nan fsub pan_arr2d pan_spatial2d ;;
  elementwise nan fadd band detail.

Definition pansharpening (fs : FileSystem F)
  (mul_resize pan outPath : string) (nodata : option F)
  : result (list (GdalOp F)) :=
  '(pan_arr, projection, geoTrans) <- read_raster fs pan nodata ;;
  pan_spatial <- high_pass_filter pan_arr ;;
  '(mul_arr, _, _) <- read_raster fs mul_resize None ;;
  bbox_pan <- get_bbox fs pan ;;
  let '(n_bands, rows, columns) := shape3 mul_arr in
  let creation_options := ["COMPRESS=DEFLATE"; "PREDICTOR=3"]%string in
  let tmp_file := normpath outPath in
  let out_img :=
    [Create tmp_file columns rows n_bands "GDT_Float32" creation_options] in
  pan_arr2d <- getitem pan_arr 0 ;;
  pan_spatial2d <- getitem pan_spatial 0 ;;
  out_img <- for_each (range 0 n_bands)
    (fun i out_img =>
       band <- getitem mul_arr i ;;
       pansharpen <- hpf band pan_arr2d pan_spatial2d ;;
       pansharpen <- setitem_isnan pansharpen nodata ;;
       let out_img :=
         match nodata with
         | Some v => out_img ++ [SetNoDataValue (i + 1) v]
         | None => out_img
         end in
       BandWriteArray columns rows (i + 1) pansharpen out_img)
    out_img ;;
  let out_img :=
    match geoTrans with
    | Some g => out_img ++ [SetGeoTransform g]
    | None => out_img
    end in
  let out_img :=
    match projection with
    | Some p => out_img ++ [SetProjection p]
    | None => out_img
    end in
  Ok (out_img ++ [FlushCache]).

(** The calls the loop makes on the output for band number [k], given the
    array it computed: the nodata tag when a sentinel was passed, then the
    pixels. *)
Definition nodata_tag (nodata : option F) (k : nat) : list (GdalOp F) :=
  match nodata with
  | Some v => [SetNoDataValue k v]
  | None => []
  end.

Definition attach_georef (geoTrans : option (GeoTransform F))
  (projection : option string) : list (GdalOp F) :=
  match geoTrans with Some g => [SetGeoTransform g] | None => [] end
  ++ match projection with Some p => [SetProjection p] | None => [] end.

(** *** The script [pansharpen.py] *)

(** Binding of a call's positional arguments to the parameters
    [(mul_resize, pan, outPath, nodata)]: none has a default value, so any
    other number of arguments is a [TypeError]. *)
Definition as_path (v : pyval F) : result string :=
  match v with
  | PyStr s => Ok s
  | _ => Raise TypeError
  end.

Definition as_nodata (v : pyval F) : result (option F) :=
  match v with
  | PyNum x => Ok (Some x)
  | PyNone => Ok None
  | PyStr _ => Raise TypeError
  end.

Definition call_pansharpening (fs : FileSystem F) (args : list (pyval F))
  : result (list (GdalOp F)) :=
  match args with
  | [mul_resize; pan; outPath; nodata] =>
      mul_resize <- as_path mul_resize ;;
      pan <- as_path pan ;;
      outPath <- as_path outPath ;;
      nodata <- as_nodata nodata ;;
      pansharpening fs mul_resize pan outPath nodata
  | _ => Raise TypeError
  end.

Definition mul_img : string := "../test/mul.tif".
Definition pan_img : string := "../test/pan.tif".
Definition out_img : string := "../test/pansharp_py.tif".
Definition mul_img_resized : string := "../test/mul_resizePython.tif".

(** [gdalwarp], run through [os.system]: an external program that may
    change the files; it gets the bounding box and the two paths. *)
Variable gdalwarp : FileSystem F -> list F -> string -> string -> FileSystem F.

Definition main_script (fs : FileSystem F) : result (list (GdalOp F)) :=
  bbox <- get_bbox fs pan_img ;;
  let fs :=
    match fs mul_img_resized with
    | None => gdalwarp fs bbox mul_img mul_img_resized
    | Some _ => fs
    end in
  call_pansharpening fs [PyStr mul_img_resized; PyStr pan_img; PyStr out_img].

End Pipeline.

(** ** IEEE 754 double precision *)

(** Python's floats, as the [binary64] format of [SpecFloat]. *)
Definition b64 : Type := spec_float.

Definition b64_isnan (x : b64) : bool :=
  match x with
  | S754_nan => true
  | _ => false
  end.

#[export] Instance b64_ops : FloatOps b64 := {
  nan := S754_nan;
  of_int := fun z => binary_normalize 53 1024 z 0 false;
  fadd := SFadd 53 1024;
  fsub := SFsub 53 1024;
  fmul := SFmul 53 1024;
  fdiv := SFdiv 53 1024;
  feqb := SFeqb;
  isnan := b64_isnan
}.

(** ** Exact arithmetic with NaN *)

Inductive xQ : Type :=
| XNaN
| XFin (q : Q).

Definition xlift2 (op : Q -> Q -> Q) (x y : xQ) : xQ :=
  match x, y with
  | XFin a, XFin b => XFin (op a b)
  | _, _ => XNaN
  end.

Definition xdiv (x y : xQ) : xQ :=
  match x, y with
  | XFin a, XFin b => if Qeq_bool b 0 then XNaN else XFin (a / b)
  | _, _ => XNaN
  end.

Definition xeqb (x y : xQ) : bool :=
  match x, y with
  | XFin a, XFin b => Qeq_bool a b
  | _, _ => false
  end.

Definition xisnan (x : xQ) : bool :=
  match x with XNaN => true | XFin _ => false end.

#[export] Instance xQ_ops : FloatOps xQ := {
  nan := XNaN;
  of_int := fun z => XFin (inject_Z z);
  fadd := xlift2 Qplus;
  fsub := xlift2 Qminus;
  fmul := xlift2 Qmult;
  fdiv := xdiv;
  feqb := xeqb;
  isnan := xisnan
}.

(** Two values denote the same number (or are both NaN). *)
Definition xeq (x y : xQ) : Prop :=
  match x, y with
  | XNaN, XNaN => True
  | XFin a, XFin b => a == b
  | _, _ => False
  end.

(** The rational weight of a filter element, and the total over a filter. *)
Definition tap_weight (t : Z * Z * Z * xQ) : Q :=
  match snd t with
  | XFin q => q
  | XNaN => 0%Q
  end.

Definition total_weight (tp : list (Z * Z * Z * xQ)) : Q :=
  fold_right (fun t acc => (tap_weight t + acc)%Q) 0%Q tp.

(** A filter element of a one-band 5 x 5 filter: it stays in the band, reaches
    at most two cells away and has a finite weight. *)
Definition tap_in_window (t : Z * Z * Z * xQ) : bool :=
  let '(db, dr, dc, w) := t in
  ((db =? 0) && (-2 <=? dr) && (dr <=? 2) && (-2 <=? dc) && (dc <=? 2))%Z
  && negb (xisnan w).

(** ** Sample rasters *)

Section Samples.

Context {F : Type} `{FloatOps F}.

Definition north_up : GeoTransform F :=
  mkGeo (of_int 0) (of_int 1) (of_int 0) (of_int 10) (of_int 0) (of_int (-1)).

Definition south_up : GeoTransform F :=
  mkGeo (of_int 0) (of_int 1) (of_int 0) (of_int 10) (of_int 0) (of_int 1).

(** One band of 10 x 10 cells, all 1. *)
Definition raster10 (g : GeoTransform F) : Dataset F :=
  mkDataset 10 10 [fun _ _ => of_int 1] (Some "EPSG:32642"%string) (Some g).

(** A 5 x 5 PAN raster, all 1, and a 5 x 5 MUL raster, all 3 except the
    centre cell, which holds -9999. *)
Definition pan5 : Dataset F :=
  mkDataset 5 5 [fun _ _ => of_int 1] (Some "EPSG:32642"%string)
    (Some north_up).

Definition mul5 : Dataset F :=
  mkDataset 5 5
    [fun r c => if (r =? 2) && (c =? 2) then of_int (-9999) else of_int 3]
    (Some "EPSG:32642"%string) (Some north_up).

Definition sample_fs : FileSystem F :=
  fun path =>
    if String.eqb path "pan.tif" then Some pan5
    else if String.eqb path "mul_resize.tif" then Some mul5
    else if String.eqb path "raster10.tif" then Some (raster10 north_up)
    else if String.eqb path "south10.tif" then Some (raster10 south_up)
    else None.

(** Two MUL bands, one PAN band and a filtered PAN band of 2 x 2 cells. *)
Definition mul_2x2 : Array3 F :=
  [ [ [of_int 10; of_int 20]; [of_int 30; of_int 40] ];
    [ [of_int 50; of_int 60]; [of_int 70; of_int 80] ] ].

Definition pan_2x2 : Array3 F :=
  [ [ [of_int 5; of_int 6]; [of_int 7; of_int 8] ] ].

Definition pan_spatial_2x2 : Array3 F :=
  [ [ [of_int 1; nan]; [of_int 2; of_int 3] ] ].

(** One band of 5 x 5 cells, all 7. *)
Definition flat7 : Array3 F := [repeat (repeat (of_int 7) 5) 5].

(** Two bands of 5 x 5 cells: the first all 0, the second 0 except for 25 in
    the centre cell. *)
Definition zeros5 : Array2 F := repeat (repeat (of_int 0) 5) 5.

Definition spike5 : Array2 F :=
  [ repeat (of_int 0) 5; repeat (of_int 0) 5;
    [of_int 0; of_int 0; of_int 25; of_int 0; of_int 0];
    repeat (of_int 0) 5; repeat (of_int 0) 5 ].

Definition two_bands : Array3 F := [zeros5; spike5].

End Samples.

(** ** The name of the resized file *)

(** [name.split('.')[0]]: the part of a name before its first dot. *)
Fixpoint before_dot (name : string) : string :=
  match name with
  | EmptyString => EmptyString
  | String ch rest =>
      if Ascii.eqb ch "."%char then EmptyString
      else String ch (before_dot rest)
  end.

(** [mulname.split('.')[0] + '_resizePython.tif'] *)
Definition resized_name (mulname : string) : string :=
  (before_dot mulname ++ "_resizePython.tif")%string.

(** ** Further samples and notions *)

(** The offsets a 5 x 5 window reaches, and the sum of a quantity over the
    window. *)
Definition offsets5 : list Z := [-2; -1; 0; 1; 2]%Z.

Definition window_sum (g : Z -> Z -> Q) : Q :=
  fold_right Qplus 0%Q (flat_map (fun dr => map (g dr) offsets5) offsets5).

(** The sum, over the elements of a filter, of weight times the quantity at
    the element's row and column offset. *)
Definition weighted_sum (g : Z -> Z -> Q) (tp : list (Z * Z * Z * xQ)) : Q :=
  fold_right
    (fun '(db, dr, dc, w) acc => (tap_weight (db, dr, dc, w) * g dr dc + acc)%Q)
    0%Q tp.

Section MoreSamples.

Context {F : Type} `{FloatOps F}.

(** One band of 6 x 7 cells (6 rows, 7 columns) holding row + 10 * column,
    except for NaN at row 3, column 4. *)
Definition ramp_px (r c : nat) : F :=
  if (r =? 3) && (c =? 4) then nan
  else of_int (Z.of_nat r + 10 * Z.of_nat c).

Definition ramp : Array3 F :=
  [tabulate 6 (fun r => tabulate 7 (fun c => ramp_px r c))].

(** One band of 5 x 5 cells holding row + 10 * column. *)
Definition slope : Array3 F :=
  [tabulate 5 (fun r => tabulate 5 (fun c =>
     of_int (Z.of_nat r + 10 * Z.of_nat c)))].

(** Three bands of 5 x 5 cells, all 1. *)
Definition three_bands : Array3 F :=
  repeat (repeat (repeat (of_int 1) 5) 5) 3.

(** A PAN raster of 6 x 6 cells holding row + column, with -9999 at row 0,
    column 0; a MUL raster of two bands of the same size; a PAN raster of
    three bands; a MUL raster of 4 x 6 cells. *)
Definition pan6 : Dataset F :=
  mkDataset 6 6
    [fun r c => if (r =? 0) && (c =? 0) then of_int (-9999)
                else of_int (Z.of_nat r + Z.of_nat c)]
    (Some "EPSG:32642"%string) (Some north_up).

Definition mul6 : Dataset F :=
  mkDataset 6 6
    [fun r c => of_int 100; fun r c => of_int (200 + Z.of_nat r)]
    (Some "EPSG:4326"%string) (Some south_up).

Definition pan6x3 : Dataset F :=
  mkDataset 6 6
    [fun r c => of_int 1; fun r c => of_int 2; fun r c => of_int 3]
    (Some "EPSG:32642"%string) (Some north_up).

Definition mul4x6 : Dataset F :=
  mkDataset 4 6 [fun r c => of_int 100]
    (Some "EPSG:32642"%string) (Some north_up).

Definition fs6 : FileSystem F :=
  fun path =>
    if String.eqb path "pan.tif" then Some pan6
    else if String.eqb path "mul_resize.tif" then Some mul6
    else if String.eqb path "pan3.tif" then Some pan6x3
    else if String.eqb path "mul4.tif" then Some mul4x6
    else None.

(** A MUL raster with the first band of [mul6], another second band, a
    third band, another projection and another geotransform. *)
Definition mul6b : Dataset F :=
  mkDataset 6 6
    [fun r c => of_int 100; fun r c => of_int 7; fun r c => of_int 8]
    (Some "EPSG:32642"%string) (Some north_up).

Definition fs6b : FileSystem F :=
  fun path =>
    if String.eqb path "pan.tif" then Some pan6
    else if String.eqb path "mul_resize.tif" then Some mul6b
    else None.

(** A geotransform with rotation terms. *)
Definition rotated : GeoTransform F :=
  mkGeo (of_int 0) (of_int 1) (of_int 3) (of_int 10) (of_int 4) (of_int (-1)).

End MoreSamples.

(** ** The reader in float32 *)

(** [read_raster] works on two number formats.  What
    [GetRasterBand(band).ReadAsArray()] returns has the type of the band
    (Byte, Int16, UInt16, Int32, UInt32, Float32 or Float64); every value of
    these types is a double, so the raster as stored is a [Dataset b64].
    [.astype(np.float32)] converts each cell to numpy's [float32], the
    [binary32] format.  The sentinel is a Python number, a double (a Python
    int stands for the double of the same value). *)
Definition b32 : Type := spec_float.

(** The conversion of a double to float32: rounding to the nearest float32,
    ties to even; a double past the float32 range becomes an infinity. *)
Definition astype_float32 (x : b64) : b32 :=
  match x with
  | S754_finite s m e => binary_round 24 128 s m e
  | _ => x
  end.

(** A float32 value as a double; every float32 value is one. *)
Definition float64_of_float32 (x : b32) : b64 :=
  match x with
  | S754_finite s m e => binary_round 53 1024 s m e
  | _ => x
  end.

(** The double [x] is the value of a float32: the conversion loses
    nothing. *)
Definition float32_exact (x : b64) : bool :=
  SFeqb (float64_of_float32 (astype_float32 x)) x.

(** [ds == nodata] for a float32 array [ds] and a Python number: numpy
    converts the number to the type of the array and compares float32 values.
    This is the promotion rule of NumPy 2; NumPy 1 does the same unless the
    sentinel is an integer past 16 bits or a float outside the float32 range,
    which it compares as doubles.  With [nodata = None] no cell compares
    equal. *)
Definition eq_nodata_float32 (v : b32) (nodata : option b64) : bool :=
  match nodata with
  | Some s => SFeqb v (astype_float32 s)
  | None => false
  end.

(** [ds[ds == nodata] = np.nan] *)
Definition fill_nan_float32 (ds : Array2 b32) (nodata : option b64)
  : Array2 b32 :=
  map (map (fun v => if eq_nodata_float32 v nodata then S754_nan else v)) ds.

(** [read_raster] with both formats: [ReadAsArray] gives the cells as
    stored, [.astype(np.float32)] is the step after it, and the comparison
    with the sentinel is the one on float32 arrays. *)
Definition read_raster_float32 (fs : FileSystem b64) (path : string)
  (nodata : option b64)
  : result (Array3 b32 * option string * option (GeoTransform b64)) :=
  src_ds <- gdal_Open fs path ;;
  let n_bands := RasterCount src_ds in
  let projection := GetProjection src_ds in
  let geoTrans := GetGeoTransform src_ds in
  raw_image <- for_each (range 1 (n_bands + 1))
                 (fun band raw_image =>
                    ds <- ReadAsArray src_ds band ;;
                    let ds := map (map astype_float32) ds in
                    let ds := fill_nan_float32 ds nodata in
                    Ok (raw_image ++ [ds]))
                 [] ;;
  raw_image_np <- stack raw_image ;;
  Ok (raw_image_np, projection, geoTrans).

(** The raster whose cells are the float32 conversions of the cells of
    [ds]: the [Dataset] of the carrier-generic [read_raster]. *)
Definition astype_dataset (ds : Dataset b64) : Dataset b32 :=
  mkDataset (RasterXSize ds) (RasterYSize ds)
    (map (fun px r c => astype_float32 (px r c)) (RasterBands ds))
    (GetProjection ds) (GetGeoTransform ds).

(** Doubles used in the samples: 0.1, and the float32 nearest to 0.1. *)
Definition tenth : b64 := fdiv (of_int 1) (of_int 10).

Definition tenth_float32 : b64 := float64_of_float32 (astype_float32 tenth).

(** An Int32 raster of one row: 16777217 (2^24 + 1), 16777216, 3, -9999. *)
Definition int32_raster : Dataset b64 :=
  mkDataset 4 1
    [fun r c => match c with
                | 0 => of_int 16777217
                | 1 => of_int 16777216
                | 2 => of_int 3
                | _ => of_int (-9999)
                end]
    (Some "EPSG:32642"%string) (Some north_up).

(** A Float64 raster of one row: 0.1, the float32 nearest to 0.1, 0.5. *)
Definition float64_raster : Dataset b64 :=
  mkDataset 3 1
    [fun r c => match c with
                | 0 => tenth
                | 1 => tenth_float32
                | _ => fdiv (of_int 1) (of_int 2)
                end]
    (Some "EPSG:32642"%string) (Some north_up).

Definition typed_fs : FileSystem b64 :=
  fun path =>
    if String.eqb path "int32.tif" then Some int32_raster
    else if String.eqb path "float64.tif" then Some float64_raster
    else None.

(** ** Rasters for the bounding box in doubles *)

(** A south-up raster of 10 x 10 cells whose origin is at y = 2^60. *)
Definition far_south_up : GeoTransform b64 :=
  mkGeo (of_int 0) (of_int 1) (of_int 0) (of_int (2 ^ 60)) (of_int 0)
    (of_int 1).

(** The geotransform GDAL reports for a raster without georeferencing. *)
Definition default_geo : GeoTransform b64 :=
  mkGeo (of_int 0) (of_int 1) (of_int 0) (of_int 0) (of_int 0) (of_int 1).

Definition box_fs : FileSystem b64 :=
  fun path =>
    if String.eqb path "far.tif" then Some (raster10 far_south_up)
    else if String.eqb path "plain.tif" then Some (raster10 default_geo)
    else None.

(** * Properties *)

(** ** Lists, loops and arrays *)

Lemma length_tabulate {A} (n : nat) (f : nat -> A) :
  length (tabulate n f) = n.
Proof. unfold tabulate. now rewrite length_map, length_seq. Qed.

Lemma nth_tabulate {A} (n i : nat) (f : nat -> A) (d : A) :
  i < n -> nth i (tabulate n f) d = f i.
Proof.
  intros Hi. unfold tabulate.
  rewrite (nth_indep _ d (f 0)) by now rewrite length_map, length_seq.
  rewrite (map_nth f (seq 0 n) 0 i), seq_nth; auto.
Qed.

Lemma hd_tabulate {A} (n : nat) (f : nat -> A) (d : A) :
  0 < n -> hd d (tabulate n f) = f 0.
Proof. destruct n; [lia | reflexivity]. Qed.

Lemma tabulate_nth {A} (l : list A) (d : A) :
  tabulate (length l) (fun i => nth i l d) = l.
Proof.
  apply (nth_ext _ _ d d).
  - apply length_tabulate.
  - intros i Hi. rewrite length_tabulate in Hi.
    now rewrite nth_tabulate.
Qed.

(** A loop whose body only appends to its state appends, in order, what
    each iteration appends. *)
Lemma for_each_append {A B} (xs : list A) (body : A -> list B -> result (list B))
  (g : A -> list B) :
  (forall x s, In x xs -> body x s = Ok (s ++ g x)) ->
  forall s, for_each xs body s = Ok (s ++ flat_map g xs).
Proof.
  induction xs as [|x xs IH]; intros Hbody s; simpl.
  - now rewrite app_nil_r.
  - rewrite Hbody by now left. simpl.
    rewrite IH by (intros; apply Hbody; now right).
    now rewrite <- app_assoc.
Qed.

(** Conversely, when every iteration that succeeds has appended something,
    a loop that succeeds has appended these things in order. *)
Lemma for_each_append_inv {A B C} (xs : list A)
  (body : A -> list B -> result (list B)) (g : A -> C -> list B) :
  (forall x s s1, body x s = Ok s1 -> exists y, s1 = s ++ g x y) ->
  forall s s', for_each xs body s = Ok s' ->
  exists ys, length ys = length xs
    /\ s' = s ++ flat_map (fun '(x, y) => g x y) (combine xs ys).
Proof.
  intros Hbody. induction xs as [|x xs IH]; intros s s' Hrun; simpl in Hrun.
  - exists []. split; [reflexivity|]. inversion Hrun. simpl.
    now rewrite app_nil_r.
  - destruct (body x s) as [s1|e] eqn:Hx; [|discriminate]. simpl in Hrun.
    destruct (Hbody _ _ _ Hx) as [y ->].
    destruct (IH _ _ Hrun) as [ys [Hlen ->]].
    exists (y :: ys). split; [simpl; congruence|].
    simpl. now rewrite <- app_assoc.
Qed.

Lemma flat_map_single {A B} (g : A -> B) (xs : list A) :
  flat_map (fun x => [g x]) xs = map g xs.
Proof. induction xs; simpl; congruence. Qed.

Lemma map_seq_nth {A B} (h : A -> B) (l : list A) (d : A) (s : nat) :
  map (fun i => h (nth (i - s) l d)) (seq s (length l)) = map h l.
Proof.
  revert s. induction l as [|a l IH]; intros s; simpl; [reflexivity|].
  rewrite Nat.sub_diag. f_equal.
  rewrite <- (IH (S s)). apply map_ext_in. intros i Hi.
  apply in_seq in Hi. replace (i - s) with (S (i - S s)) by lia. reflexivity.
Qed.

Section PipelineFacts.

Context {F : Type} `{FloatOps F}.

Lemma has_shape2_tabulate (nr nc : nat) (f : nat -> nat -> F) :
  has_shape2 nr nc (tabulate nr (fun r => tabulate nc (f r))).
Proof.
  split; [apply length_tabulate|].
  apply Forall_forall. intros row Hin. unfold tabulate in Hin.
  apply in_map_iff in Hin. destruct Hin as [r [<- _]]. apply length_tabulate.
Qed.

Lemma has_shape2_map (nr nc : nat) (g : F -> F) (a : Array2 F) :
  has_shape2 nr nc a -> has_shape2 nr nc (map (map g) a).
Proof.
  intros [Hl Hr]. split; [now rewrite length_map|].
  apply Forall_forall. intros row Hin. apply in_map_iff in Hin.
  destruct Hin as [row' [<- Hin']]. rewrite length_map.
  rewrite Forall_forall in Hr. now apply Hr.
Qed.

Lemma shape2_of_has_shape2 (nr nc : nat) (a : Array2 F) :
  has_shape2 nr nc a -> 0 < nr -> shape2 a = (nr, nc).
Proof.
  intros [Hl Hr] Hpos. unfold shape2. rewrite Hl. f_equal.
  destruct a as [|row a]; simpl in *; [lia|]. now inversion Hr.
Qed.

Lemma has_shape2_row (nr nc : nat) (a : Array2 F) (r : nat) :
  has_shape2 nr nc a -> r < nr -> length (nth r a []) = nc.
Proof.
  intros [Hl Hr] Hlt. rewrite Forall_forall in Hr. apply Hr.
  apply nth_In. lia.
Qed.

Lemma at2_map (g : F -> F) (a : Array2 F) (d : F) (nr nc r c : nat) :
  has_shape2 nr nc a -> r < nr -> c < nc ->
  at2 (map (map g) a) d r c = g (at2 a d r c).
Proof.
  intros Hs Hr Hc. unfold at2.
  assert (Hlen : length (nth r a []) = nc) by now apply (has_shape2_row nr).
  destruct Hs as [Hl _].
  rewrite (nth_indep _ [] (map g [])) by (rewrite length_map; lia).
  rewrite (map_nth (map g) a [] r).
  rewrite (nth_indep _ d (g d)) by (rewrite length_map; lia).
  now rewrite (map_nth g).
Qed.

Lemma at2_tabulate (nr nc r c : nat) (f : nat -> nat -> F) (d : F) :
  r < nr -> c < nc ->
  at2 (tabulate nr (fun r => tabulate nc (f r))) d r c = f r c.
Proof.
  intros Hr Hc. unfold at2.
  rewrite (nth_tabulate nr r _ []) by assumption.
  now apply nth_tabulate.
Qed.

(** *** Reading *)

Lemma shape2_band_array (ds : Dataset F) (nodata : option F)
  (px : nat -> nat -> F) :
  shape2 (band_array ds nodata px)
  = (RasterYSize ds, match RasterYSize ds with 0 => 0 | _ => RasterXSize ds end).
Proof.
  unfold shape2, band_array, fill_nan.
  rewrite length_map, length_tabulate. f_equal.
  destruct (RasterYSize ds); [reflexivity|].
  cbn [tabulate seq map hd]. now rewrite length_map, length_tabulate.
Qed.

Lemma has_shape2_band_array (ds : Dataset F) (nodata : option F)
  (px : nat -> nat -> F) :
  has_shape2 (RasterYSize ds) (RasterXSize ds) (band_array ds nodata px).
Proof. apply has_shape2_map, has_shape2_tabulate. Qed.

Lemma stack_band_arrays (ds : Dataset F) (nodata : option F)
  (pxs : list (nat -> nat -> F)) :
  pxs <> [] ->
  stack (map (band_array ds nodata) pxs)
  = Ok (map (band_array ds nodata) pxs).
Proof.
  intros Hne. destruct pxs as [|px pxs]; [congruence|].
  unfold stack. cbn [map].
  replace (forallb _ _) with true; [reflexivity|].
  symmetry. apply forallb_forall. intros a Hin.
  change (band_array ds nodata px :: map (band_array ds nodata) pxs)
    with (map (band_array ds nodata) (px :: pxs)) in Hin.
  apply in_map_iff in Hin. destruct Hin as [px' [<- _]].
  rewrite !shape2_band_array. unfold shape2_eqb. cbn [fst snd].
  now rewrite !Nat.eqb_refl.
Qed.

Lemma read_raster_ok (fs : FileSystem F) (path : string) (ds : Dataset F)
  (nodata : option F) :
  fs path = Some ds -> RasterBands ds <> [] ->
  read_raster fs path nodata
  = Ok (map (band_array ds nodata) (RasterBands ds),
        GetProjection ds, GetGeoTransform ds).
Proof.
  intros Hopen Hne. unfold read_raster, gdal_Open. rewrite Hopen. cbn [bind].
  set (d := fun (_ _ : nat) => @nan F _).
  rewrite (for_each_append _ _
             (fun band => [band_array ds nodata
                             (nth (band - 1) (RasterBands ds) d)])).
  - cbn [bind app]. rewrite flat_map_single.
    unfold range, RasterCount.
    replace (length (RasterBands ds) + 1 - 1) with (length (RasterBands ds))
      by lia.
    rewrite (map_seq_nth (band_array ds nodata)).
    rewrite stack_band_arrays by assumption. reflexivity.
  - intros band s Hin. unfold range, RasterCount in Hin.
    apply in_seq in Hin. destruct band as [|k]; [lia|].
    unfold ReadAsArray.
    rewrite (nth_error_nth' _ d) by lia.
    cbn [bind]. do 3 f_equal. unfold band_array.
    now replace (S k - 1) with k by lia.
Qed.

(** *** Element-wise arithmetic *)

Lemma pick_lt (dim i : nat) : i < dim -> pick dim i = i.
Proof.
  intros Hi. unfold pick. destruct (Nat.eqb_spec dim 1); [lia | reflexivity].
Qed.

Lemma broadcast_dim_same (n : nat) : broadcast_dim n n = Ok n.
Proof. unfold broadcast_dim. now rewrite Nat.eqb_refl. Qed.

Lemma tabulate_ext {A} (n : nat) (f g : nat -> A) :
  (forall i, i < n -> f i = g i) -> tabulate n f = tabulate n g.
Proof.
  intros Hfg. apply map_ext_in. intros i Hi. apply in_seq in Hi.
  apply Hfg. lia.
Qed.

Lemma elementwise_same_shape (d : F) (op : F -> F -> F) (x y : Array2 F)
  (nr nc : nat) :
  has_shape2 nr nc x -> has_shape2 nr nc y -> 0 < nr ->
  elementwise d op x y
  = Ok (tabulate nr (fun r => tabulate nc (fun c =>
          op (at2 x d r c) (at2 y d r c)))).
Proof.
  intros Hx Hy Hpos. unfold elementwise.
  rewrite (shape2_of_has_shape2 nr nc x), (shape2_of_has_shape2 nr nc y)
    by assumption.
  rewrite !broadcast_dim_same. cbn [bind]. f_equal.
  apply tabulate_ext. intros r Hr. apply tabulate_ext. intros c Hc.
  now rewrite !pick_lt.
Qed.

Lemma hpf_ok (band pan_arr2d pan_spatial2d : Array2 F) (nr nc : nat) :
  has_shape2 nr nc band -> has_shape2 nr nc pan_arr2d ->
  has_shape2 nr nc pan_spatial2d -> 0 < nr ->
  hpf band pan_arr2d pan_spatial2d
  = Ok (tabulate nr (fun r => tabulate nc (fun c =>
          fadd (at2 band nan r c)
               (fsub (at2 pan_arr2d nan r c) (at2 pan_spatial2d nan r c))))).
Proof.
  intros Hb Hp Hs Hpos. unfold hpf.
  rewrite (elementwise_same_shape _ _ _ _ nr nc) by assumption. cbn [bind].
  rewrite (elementwise_same_shape _ _ _ _ nr nc);
    [| assumption | apply has_shape2_tabulate | assumption].
  f_equal. apply tabulate_ext. intros r Hr. apply tabulate_ext. intros c Hc.
  now rewrite at2_tabulate.
Qed.

(** *** The filter *)

Lemma map_const_seq {A} (x : A) (s n : nat) :
  map (fun _ => x) (seq s n) = repeat x n.
Proof. revert s. induction n; intros s; simpl; [|rewrite IHn]; reflexivity. Qed.

Lemma stack_repeat (m : Array2 F) (n : nat) :
  0 < n -> stack (repeat m n) = Ok (repeat m n).
Proof.
  intros Hn. destruct n as [|n]; [lia|]. unfold stack. cbn [repeat].
  replace (forallb _ _) with true; [reflexivity|].
  symmetry. apply forallb_forall. intros a Hin.
  change (m :: repeat m n) with (repeat m (S n)) in Hin.
  apply repeat_spec in Hin. subst a. unfold shape2_eqb.
  now rewrite !Nat.eqb_refl.
Qed.

Lemma high_pass_filter_ok (array : Array3 F) :
  array <> [] ->
  high_pass_filter array
  = Ok (ndimage_convolve array (repeat highPassMatrix (length array)) nan).
Proof.
  intros Hne. unfold high_pass_filter.
  rewrite (for_each_append _ _ (fun _ => [highPassMatrix])) by reflexivity.
  cbn [bind app fst shape3]. rewrite flat_map_single.
  unfold range. rewrite Nat.sub_0_r, map_const_seq.
  rewrite stack_repeat; [reflexivity|].
  destruct array; [congruence | simpl; lia].
Qed.

Lemma shape3_of_has_shape3 (nb nr nc : nat) (a : Array3 F) :
  has_shape3 nb nr nc a -> 0 < nb -> 0 < nr -> shape3 a = (nb, nr, nc).
Proof.
  intros [Hl Hb] Hnb Hnr. unfold shape3.
  destruct a as [|m a]; simpl in *; [lia|].
  inversion Hb as [|? ? Hm _]; subst.
  pose proof (shape2_of_has_shape2 nr nc m Hm Hnr) as Hs.
  unfold shape2 in Hs. now inversion Hs.
Qed.

Lemma ndimage_convolve_shape (input weights : Array3 F) (cval : F)
  (nb nr nc : nat) :
  has_shape3 nb nr nc input -> 0 < nb -> 0 < nr ->
  has_shape3 nb nr nc (ndimage_convolve input weights cval).
Proof.
  intros Hs Hnb Hnr. unfold ndimage_convolve.
  rewrite (shape3_of_has_shape3 nb nr nc) by assumption.
  split; [apply length_tabulate|].
  apply Forall_forall. intros m Hin. unfold tabulate in Hin at 1.
  apply in_map_iff in Hin. destruct Hin as [b [<- _]].
  apply has_shape2_tabulate.
Qed.

Lemma has_shape3_band_arrays (ds : Dataset F) (nodata : option F) :
  has_shape3 (RasterCount ds) (RasterYSize ds) (RasterXSize ds)
    (map (band_array ds nodata) (RasterBands ds)).
Proof.
  split; [now rewrite length_map|].
  apply Forall_forall. intros m Hin. apply in_map_iff in Hin.
  destruct Hin as [px [<- _]]. apply has_shape2_band_array.
Qed.

Lemma has_shape3_nth (nb nr nc b : nat) (a : Array3 F) :
  has_shape3 nb nr nc a -> b < nb -> has_shape2 nr nc (nth b a []).
Proof.
  intros [Hl Hb] Hlt. rewrite Forall_forall in Hb. apply Hb, nth_In. lia.
Qed.

Lemma getitem_ok (nb nr nc i : nat) (a : Array3 F) :
  has_shape3 nb nr nc a -> i < nb -> getitem a i = Ok (nth i a []).
Proof.
  intros [Hl _] Hi. unfold getitem.
  rewrite (nth_error_nth' a []) by lia. reflexivity.
Qed.

End PipelineFacts.

(** ** The whole run *)

Section Run.

Context {F : Type} `{FloatOps F}.
Variable normpath : string -> string.
Variable store_None : result F.

Lemma shape2_nan_to (a : Array2 F) (v : F) (nr nc : nat) :
  has_shape2 nr nc a -> 0 < nr -> shape2 (nan_to v a) = (nr, nc).
Proof.
  intros Hs Hpos. apply shape2_of_has_shape2; [|assumption].
  now apply has_shape2_map.
Qed.

(** On two rasters of one size, and with a value [v] to put in place of NaN,
    the run succeeds, and the calls it makes on the output are these. *)
Lemma pansharpening_ok (fs : FileSystem F) (mul_resize pan outPath : string)
  (nodata : option F) (v : F) (pds mds : Dataset F) (g : GeoTransform F) :
  replacement store_None nodata = Ok v ->
  fs pan = Some pds -> fs mul_resize = Some mds ->
  RasterBands pds <> [] -> RasterBands mds <> [] ->
  GetGeoTransform pds = Some g ->
  RasterXSize mds = RasterXSize pds -> RasterYSize mds = RasterYSize pds ->
  0 < RasterYSize pds ->
  let pan_arr := map (band_array pds nodata) (RasterBands pds) in
  let pan_spatial :=
    ndimage_convolve pan_arr (repeat highPassMatrix (length pan_arr)) nan in
  let mul_arr := map (band_array mds None) (RasterBands mds) in
  let fused i :=
    tabulate (RasterYSize mds) (fun r => tabulate (RasterXSize mds) (fun c =>
      fadd (at3 mul_arr nan i r c)
           (fsub (at3 pan_arr nan 0 r c) (at3 pan_spatial nan 0 r c)))) in
  pansharpening normpath store_None fs mul_resize pan outPath nodata
  = Ok (Create (normpath outPath) (RasterXSize mds) (RasterYSize mds)
          (RasterCount mds) "GDT_Float32"
          ["COMPRESS=DEFLATE"; "PREDICTOR=3"]%string
        :: flat_map (fun i =>
             nodata_tag nodata (i + 1)
             ++ [WriteArray (i + 1) (nan_to v (fused i))])
             (seq 0 (RasterCount mds))
        ++ attach_georef (Some g) (GetProjection pds)
        ++ [FlushCache]).
Proof.
  intros Hv Hpan Hmul Hpb Hmb Hg HX HY Hpos pan_arr pan_spatial mul_arr fused.
  assert (Hnp : 0 < RasterCount pds)
    by (unfold RasterCount; destruct (RasterBands pds); [congruence|simpl; lia]).
  assert (Hnm : 0 < RasterCount mds)
    by (unfold RasterCount; destruct (RasterBands mds); [congruence|simpl; lia]).
  assert (Hsp : has_shape3 (RasterCount pds) (RasterYSize mds) (RasterXSize mds)
                  pan_arr)
    by (rewrite HX, HY; apply has_shape3_band_arrays).
  assert (Hsm : has_shape3 (RasterCount mds) (RasterYSize mds) (RasterXSize mds)
                  mul_arr)
    by apply has_shape3_band_arrays.
  assert (Hss : has_shape3 (RasterCount pds) (RasterYSize mds) (RasterXSize mds)
                  pan_spatial)
    by (apply ndimage_convolve_shape; [assumption | assumption | lia]).
  unfold pansharpening.
  rewrite (read_raster_ok fs pan pds nodata Hpan Hpb). cbn [bind].
  fold pan_arr.
  rewrite high_pass_filter_ok
    by (subst pan_arr; destruct (RasterBands pds); [congruence | discriminate]).
  cbn [bind]. fold pan_spatial.
  rewrite (read_raster_ok fs mul_resize mds None Hmul Hmb). cbn [bind].
  fold mul_arr.
  unfold get_bbox, gdal_Open. rewrite Hpan. cbn [bind]. rewrite Hg.
  cbn [bind subscript].
  rewrite (shape3_of_has_shape3 _ _ _ mul_arr Hsm) by lia.
  rewrite (getitem_ok _ _ _ 0 pan_arr Hsp Hnp). cbn [bind].
  rewrite (getitem_ok _ _ _ 0 pan_spatial Hss Hnp). cbn [bind].
  rewrite (for_each_append _ _
             (fun i => nodata_tag nodata (i + 1)
                       ++ [WriteArray (i + 1) (nan_to v (fused i))])).
  - cbn [bind]. unfold range. rewrite Nat.sub_0_r.
    unfold attach_georef. cbn [app].
    destruct (GetProjection pds); cbn [app];
      rewrite <- ?app_assoc; reflexivity.
  - intros i s Hin. unfold range in Hin. apply in_seq in Hin.
    rewrite (getitem_ok _ _ _ i mul_arr Hsm) by lia. cbn [bind].
    rewrite (hpf_ok _ _ _ (RasterYSize mds) (RasterXSize mds));
      [ | apply (has_shape3_nth (RasterCount mds)); [assumption | lia]
        | apply (has_shape3_nth (RasterCount pds)); assumption
        | apply (has_shape3_nth (RasterCount pds)); assumption
        | lia ].
    cbn [bind]. unfold setitem_isnan. rewrite Hv. cbn [bind].
    unfold BandWriteArray.
    change (tabulate (RasterYSize mds) _) with (fused i).
    rewrite (shape2_nan_to _ _ (RasterYSize mds) (RasterXSize mds))
      by (try apply has_shape2_tabulate; lia).
    rewrite !Nat.leb_refl. cbn [andb].
    unfold nodata_tag. destruct nodata; rewrite <- ?app_assoc; reflexivity.
Qed.

(** Whatever the inputs, a run that returns has made its calls on the output
    in this order. *)
Lemma pansharpening_log_shape (fs : FileSystem F)
  (mul_resize pan outPath : string) (nodata : option F)
  (log : list (GdalOp F)) :
  pansharpening normpath store_None fs mul_resize pan outPath nodata = Ok log ->
  exists xsize ysize arrays g projection,
    log = [Create (normpath outPath) xsize ysize (length arrays) "GDT_Float32"
             ["COMPRESS=DEFLATE"; "PREDICTOR=3"]%string]
          ++ flat_map (fun '(i, a) =>
               nodata_tag nodata (i + 1) ++ [WriteArray (i + 1) a])
               (combine (seq 0 (length arrays)) arrays)
          ++ [SetGeoTransform g]
          ++ match projection with Some p => [SetProjection p] | None => [] end
          ++ [FlushCache].
Proof.
  unfold pansharpening. intros Hrun.
  destruct (read_raster fs pan nodata)
    as [[[pan_arr projection] geoTrans]|e] eqn:Hpan; [|discriminate].
  cbn [bind] in Hrun.
  destruct (high_pass_filter pan_arr) as [pan_spatial|e]; [|discriminate].
  cbn [bind] in Hrun.
  destruct (read_raster fs mul_resize None) as [[[mul_arr ?] ?]|e];
    [|discriminate].
  cbn [bind] in Hrun.
  destruct (get_bbox fs pan) as [bbox|e] eqn:Hbbox; [|discriminate].
  cbn [bind] in Hrun.
  destruct (shape3 mul_arr) as [[n_bands rows] columns].
  destruct (getitem pan_arr 0) as [pan_arr2d|e]; [|discriminate].
  cbn [bind] in Hrun.
  destruct (getitem pan_spatial 0) as [pan_spatial2d|e]; [|discriminate].
  cbn [bind] in Hrun.
  match type of Hrun with
  | bind (for_each ?xs ?body ?s) _ = _ =>
      destruct (for_each xs body s) as [out|e] eqn:Hloop; [|discriminate]
  end.
  cbn [bind] in Hrun.
  apply (for_each_append_inv _ _
           (fun i a => nodata_tag nodata (i + 1) ++ [WriteArray (i + 1) a]))
    in Hloop.
  - destruct Hloop as [arrays [Hlen ->]].
    unfold range in Hlen. rewrite length_seq, Nat.sub_0_r in Hlen.
    assert (Hg : exists g, geoTrans = Some g).
    { unfold read_raster, get_bbox in Hpan, Hbbox.
      destruct (gdal_Open fs pan) as [ds|]; [|discriminate].
      cbn [bind] in Hpan, Hbbox.
      destruct (GetGeoTransform ds) as [g|] eqn:Hgeo; [|discriminate].
      destruct (for_each _ _ _); [|discriminate]. cbn [bind] in Hpan.
      destruct (stack _); [|discriminate]. cbn [bind] in Hpan.
      inversion Hpan. now exists g. }
    destruct Hg as [g ->].
    exists columns, rows, arrays, g, projection.
    inversion Hrun. unfold range. rewrite Hlen, Nat.sub_0_r.
    destruct projection; cbn [app]; rewrite <- ?app_assoc; reflexivity.
  - intros i s s1 Hbody.
    destruct (getitem mul_arr i); [|discriminate]. cbn [bind] in Hbody.
    destruct (hpf _ _ _); [|discriminate]. cbn [bind] in Hbody.
    destruct (setitem_isnan _ _ _) as [a'|]; [|discriminate].
    cbn [bind] in Hbody.
    unfold BandWriteArray in Hbody. destruct (shape2 a') as [ys xs].
    destruct ((xs <=? columns) && (ys <=? rows)); [|discriminate].
    inversion Hbody. exists a'. unfold nodata_tag.
    destruct nodata; rewrite <- ?app_assoc; reflexivity.
Qed.

End Run.

(** ** The bounding box *)

(** [get_bbox] returns (origin-x, origin-y + rows * pixel-height,
    origin-x + columns * pixel-width, origin-y, pixel-width, pixel-height),
    the pixel height with its sign.  In exact arithmetic, on a raster with
    finite origin and pixel size, these are (min-x, min-y, max-x, max-y,
    res-x, res-y) exactly when the pixel width is positive and the pixel
    height is negative (north-up).  For the geotransform (0,1,0,10,0,-1) and
    a 10 x 10 raster the result is (0, 0, 10, 10, 1, -1). *)
Lemma get_bbox_north_up_iff (fs : FileSystem xQ) (path : string)
  (ds : Dataset xQ) (g : GeoTransform xQ) (ulx uly resX resY : Q) :
  fs path = Some ds -> GetGeoTransform ds = Some g ->
  gt0 g = XFin ulx -> gt1 g = XFin resX ->
  gt3 g = XFin uly -> gt5 g = XFin resY ->
  0 < RasterXSize ds -> 0 < RasterYSize ds ->
  (exists x1 y1 x2 y2 : Q,
     get_bbox fs path
     = Ok [XFin x1; XFin y1; XFin x2; XFin y2; XFin resX; XFin resY]
     /\ x1 == ulx
     /\ y1 == uly + inject_Z (Z.of_nat (RasterYSize ds)) * resY
     /\ x2 == ulx + inject_Z (Z.of_nat (RasterXSize ds)) * resX
     /\ y2 == uly
     /\ ((x1 < x2 /\ y1 < y2) <-> (0 < resX /\ resY < 0))%Q)
  /\ (g = north_up -> RasterXSize ds = 10 -> RasterYSize ds = 10 ->
      get_bbox fs path
      = Ok [XFin 0; XFin 0; XFin 10; XFin 10; XFin 1; XFin (-1)]).
Proof.
  intros Hopen Hg H0 H1 H3 H5 Hcols Hrows.
  assert (Hform : get_bbox fs path
    = Ok [ XFin ulx;
           XFin (uly + inject_Z (Z.of_nat (RasterYSize ds)) * resY);
           XFin (ulx + inject_Z (Z.of_nat (RasterXSize ds)) * resX);
           XFin uly; XFin resX; XFin resY ]).
  { unfold get_bbox, gdal_Open. rewrite Hopen. cbn [bind]. rewrite Hg.
    cbn [bind subscript]. rewrite H0, H1, H3, H5. reflexivity. }
  assert (Hnx : (0 < inject_Z (Z.of_nat (RasterXSize ds)))%Q).
  { change 0%Q with (inject_Z 0). rewrite <- Zlt_Qlt. lia. }
  assert (Hny : (0 < inject_Z (Z.of_nat (RasterYSize ds)))%Q).
  { change 0%Q with (inject_Z 0). rewrite <- Zlt_Qlt. lia. }
  split.
  - exists ulx, (uly + inject_Z (Z.of_nat (RasterYSize ds)) * resY)%Q,
           (ulx + inject_Z (Z.of_nat (RasterXSize ds)) * resX)%Q, uly.
    split; [exact Hform|].
    repeat (split; [reflexivity|]).
    split; intros [Hx Hy]; split; nra.
  - intros -> HX HY. rewrite Hform, HX, HY.
    cbn in H0, H1, H3, H5.
    injection H0 as <-. injection H1 as <-.
    injection H3 as <-. injection H5 as <-.
    reflexivity.
Qed.

Lemma get_bbox_north_up_example :
  (exists x1 y1 x2 y2 : Q,
     get_bbox (F := xQ) sample_fs "raster10.tif"
     = Ok [XFin x1; XFin y1; XFin x2; XFin y2; XFin 1; XFin (-1)]
     /\ x1 == 0
     /\ y1 == 10 + inject_Z 10 * -1
     /\ x2 == 0 + inject_Z 10 * 1
     /\ y2 == 10
     /\ ((x1 < x2 /\ y1 < y2) <-> (0 < 1 /\ -1 < 0))%Q)
  /\ (north_up = north_up -> 10 = 10 -> 10 = 10 ->
      get_bbox (F := xQ) sample_fs "raster10.tif"
      = Ok [XFin 0; XFin 0; XFin 10; XFin 10; XFin 1; XFin (-1)]).
Proof.
  assert (Hcols : 0 < RasterXSize (@raster10 xQ _ north_up)) by (simpl; lia).
  assert (Hrows : 0 < RasterYSize (@raster10 xQ _ north_up)) by (simpl; lia).
  exact (get_bbox_north_up_iff sample_fs "raster10.tif" (raster10 north_up)
           north_up 0 10 1 (-1)
           eq_refl eq_refl eq_refl eq_refl eq_refl eq_refl Hcols Hrows).
Defined.

(** C5 at a south-up raster and at a raster without georeferencing.  The
    docstring of [get_bbox] names its result [minx, miny, maxx, maxy, resx,
    resy].  On the south-up raster of 10 x 10 cells with geotransform
    (0,1,0,10,0,1) the result is (0, 20, 10, 10, 1, 1): the value in the
    min-y position, 20, is greater than the value in the max-y position, 10.
    On a raster of the same size without georeferencing, for which GDAL
    reports the geotransform (0,1,0,0,0,1), the result is (0, 10, 10, 0, 1,
    1).  Both in doubles, the first also in exact arithmetic.  On the
    north-up raster with geotransform (0,1,0,10,0,-1) the result is
    (0, 0, 10, 10, 1, -1). *)
Theorem get_bbox_order_south_up :
  (exists miny maxy : b64,
     get_bbox sample_fs "south10.tif"
     = Ok [of_int 0; miny; of_int 10; maxy; of_int 1; of_int 1]
     /\ miny = of_int 20 /\ maxy = of_int 10
     /\ SFltb maxy miny = true)
  /\ (exists miny maxy : b64,
        get_bbox box_fs "plain.tif"
        = Ok [of_int 0; miny; of_int 10; maxy; of_int 1; of_int 1]
        /\ miny = of_int 10 /\ maxy = of_int 0
        /\ SFltb maxy miny = true)
  /\ get_bbox (F := xQ) sample_fs "south10.tif"
     = Ok [XFin 0; XFin 20; XFin 10; XFin 10; XFin 1; XFin 1]
  /\ get_bbox (F := b64) sample_fs "raster10.tif"
     = Ok [of_int 0; of_int 0; of_int 10; of_int 10; of_int 1; of_int (-1)].
Proof.
  split; [|split; [|split]];
    try (do 2 eexists; repeat split); vm_compute; reflexivity.
Qed.

(** C10: the formula is applied without looking at the sign of the pixel
    height.  In exact arithmetic, with finite origin and pixel height: with
    a positive pixel height and at least one row, the value in the min-y
    position is strictly greater than the value in the max-y position; the
    two are in (min, max) order exactly when the pixel height is negative.
    (In doubles the sum can round back to the origin, and the two values are
    then equal.) *)
Theorem get_bbox_no_sign_normalisation (fs : FileSystem xQ) (path : string)
  (ds : Dataset xQ) (g : GeoTransform xQ) (uly resY : Q) :
  fs path = Some ds -> GetGeoTransform ds = Some g ->
  gt3 g = XFin uly -> gt5 g = XFin resY ->
  0 < RasterYSize ds ->
  exists miny : Q,
    get_bbox fs path
    = Ok [ gt0 g; XFin miny;
           fadd (gt0 g) (fmul (of_int (Z.of_nat (RasterXSize ds))) (gt1 g));
           XFin uly; gt1 g; XFin resY ]
    /\ miny == uly + inject_Z (Z.of_nat (RasterYSize ds)) * resY
    /\ (0 < resY -> uly < miny)%Q
    /\ (miny < uly <-> resY < 0)%Q.
Proof.
  intros Hopen Hg Huly HresY Hrows.
  exists (uly + inject_Z (Z.of_nat (RasterYSize ds)) * resY)%Q.
  assert (Hn : (0 < inject_Z (Z.of_nat (RasterYSize ds)))%Q).
  { change 0%Q with (inject_Z 0). rewrite <- Zlt_Qlt. lia. }
  split; [|split; [reflexivity|split]].
  - unfold get_bbox, gdal_Open. rewrite Hopen. cbn [bind]. rewrite Hg.
    cbn [bind subscript]. rewrite Huly, HresY. reflexivity.
  - intros Hpos. nra.
  - split; intros Hlt; nra.
Qed.

Lemma get_bbox_no_sign_normalisation_witness :
  exists miny : Q,
    get_bbox sample_fs "south10.tif"
    = Ok [ XFin 0; XFin miny; XFin (0 + 10 * 1); XFin 10; XFin 1; XFin 1 ]
    /\ miny == 10 + inject_Z 10 * 1
    /\ (0 < 1 -> 10 < miny)%Q
    /\ (miny < 10 <-> 1 < 0)%Q.
Proof.
  assert (Hrows : 0 < RasterYSize (@raster10 xQ _ south_up)) by (simpl; lia).
  exact (get_bbox_no_sign_normalisation sample_fs "south10.tif"
           (raster10 south_up) south_up 10 1
           eq_refl eq_refl eq_refl eq_refl Hrows).
Defined.

(** C10 as the specification words it fails in the arithmetic of the code:
    with the origin at y = 2^60, a pixel height of 1 and 10 rows, the sum
    2^60 + 10 rounds to 2^60, and the value in the min-y position equals the
    value in the max-y position instead of being greater. *)
Lemma get_bbox_height_absorbed :
  exists miny maxy : b64,
    get_bbox box_fs "far.tif"
    = Ok [of_int 0; miny; of_int 10; maxy; of_int 1; of_int 1]
    /\ SFltb (of_int 0) (of_int 1) = true
    /\ SFltb maxy miny = false
    /\ SFeqb miny maxy = true.
Proof. do 2 eexists. repeat split; vm_compute; reflexivity. Qed.

(** ** The reader *)

Section Reader.

Context {F : Type} `{FloatOps F}.

(** The carrier-generic reader returns, for every band in order, the cells
    of its raster, except that a cell that compares equal to the sentinel
    becomes NaN; with no sentinel every cell is returned. *)
Lemma read_raster_nodata (fs : FileSystem F) (path : string)
  (ds : Dataset F) (nodata : option F) :
  fs path = Some ds -> RasterBands ds <> [] ->
  exists arr : Array3 F,
    read_raster fs path nodata
    = Ok (arr, GetProjection ds, GetGeoTransform ds)
    /\ has_shape3 (RasterCount ds) (RasterYSize ds) (RasterXSize ds) arr
    /\ forall b px r c,
         nth_error (RasterBands ds) b = Some px ->
         r < RasterYSize ds -> c < RasterXSize ds ->
         at3 arr nan b r c
         = match nodata with
           | Some s => if feqb (px r c) s then nan else px r c
           | None => px r c
           end.
Proof.
  intros Hopen Hne.
  exists (map (band_array ds nodata) (RasterBands ds)).
  split; [now apply read_raster_ok|].
  split; [apply has_shape3_band_arrays|].
  intros b px r c Hb Hr Hc. unfold at3.
  rewrite (nth_error_nth _ _ [] (map_nth_error (band_array ds nodata) _ _ Hb)).
  unfold band_array, fill_nan.
  rewrite (at2_map _ _ _ (RasterYSize ds) (RasterXSize ds))
    by (try apply has_shape2_tabulate; assumption).
  rewrite at2_tabulate by assumption.
  destruct nodata; reflexivity.
Qed.

End Reader.

Lemma read_raster_nodata_example :
  exists arr : Array3 xQ,
    read_raster sample_fs "mul_resize.tif" (Some (XFin (-9999)))
    = Ok (arr, GetProjection mul5, GetGeoTransform mul5)
    /\ has_shape3 1 5 5 arr
    /\ forall b px r c,
         nth_error (RasterBands mul5) b = Some px ->
         r < 5 -> c < 5 ->
         at3 arr XNaN b r c
         = if xeqb (px r c) (XFin (-9999)) then XNaN else px r c.
Proof.
  assert (Hne : RasterBands (mul5 (F:=xQ)) <> []) by discriminate.
  exact (read_raster_nodata sample_fs "mul_resize.tif" mul5
           (Some (XFin (-9999))) eq_refl Hne).
Defined.

(** ** Fusion *)

Section Fusion.

Context {F : Type} `{FloatOps F}.

(** On three stacks of one row and column size, the fusion formula gives
    for MUL band [i] and pixel [(r, c)] the value
    [mul[i,r,c] + (pan[0,r,c] - pan_highpass[0,r,c])]. *)
Lemma hpf_per_pixel (mul_arr pan_arr pan_spatial : Array3 F)
  (n m nr nc i r c : nat) :
  has_shape3 n nr nc mul_arr ->
  has_shape3 m nr nc pan_arr ->
  has_shape3 m nr nc pan_spatial ->
  0 < m -> i < n -> r < nr -> c < nc ->
  exists band pan_arr2d pan_spatial2d pansharpen,
    getitem mul_arr i = Ok band
    /\ getitem pan_arr 0 = Ok pan_arr2d
    /\ getitem pan_spatial 0 = Ok pan_spatial2d
    /\ hpf band pan_arr2d pan_spatial2d = Ok pansharpen
    /\ has_shape2 nr nc pansharpen
    /\ at2 pansharpen nan r c
       = fadd (at3 mul_arr nan i r c)
              (fsub (at3 pan_arr nan 0 r c) (at3 pan_spatial nan 0 r c)).
Proof.
  intros Hmul Hpan Hsp Hm Hi Hr Hc.
  exists (nth i mul_arr []), (nth 0 pan_arr []), (nth 0 pan_spatial []).
  eexists.
  split; [now apply (getitem_ok n nr nc)|].
  split; [now apply (getitem_ok m nr nc)|].
  split; [now apply (getitem_ok m nr nc)|].
  split.
  - apply (hpf_ok _ _ _ nr nc);
      [ now apply (has_shape3_nth n) | now apply (has_shape3_nth m)
      | now apply (has_shape3_nth m) | lia ].
  - split; [apply has_shape2_tabulate|].
    now rewrite at2_tabulate.
Qed.

End Fusion.

Lemma hpf_per_pixel_example :
  exists band pan_arr2d pan_spatial2d pansharpen,
    getitem mul_2x2 1 = Ok band
    /\ getitem pan_2x2 0 = Ok pan_arr2d
    /\ getitem pan_spatial_2x2 0 = Ok pan_spatial2d
    /\ hpf band pan_arr2d pan_spatial2d = Ok pansharpen
    /\ has_shape2 2 2 pansharpen
    /\ at2 pansharpen XNaN 1 0 = XFin (70 + (7 - 2)).
Proof.
  assert (Hmul : has_shape3 2 2 2 mul_2x2)
    by (repeat (split || constructor)).
  assert (Hpan : has_shape3 1 2 2 pan_2x2)
    by (repeat (split || constructor)).
  assert (Hsp : has_shape3 1 2 2 pan_spatial_2x2)
    by (repeat (split || constructor)).
  exact (hpf_per_pixel mul_2x2 pan_2x2 pan_spatial_2x2 2 1 2 2 1 1 0
           Hmul Hpan Hsp Nat.lt_0_1 (le_n 2) (le_n 2) Nat.lt_0_2).
Defined.

(** ** The fused bands of a run *)

Section FusedBands.

Context {F : Type} {ops : FloatOps F}.
Variable normpath : string -> string.
Variable store_None : result F.

(** Band [k] is written once in a log of this form, by the iteration
    [k - 1]. *)
Lemma written_once (nodata : option F) (band : nat -> Array2 F) (n : nat)
  (first : GdalOp F) (georef : list (GdalOp F)) (k : nat) (a : Array2 F) :
  (forall b x, first <> WriteArray b x) ->
  (forall b x, ~ In (WriteArray b x) georef) ->
  In (WriteArray k a)
     (first :: flat_map (fun i => nodata_tag nodata (i + 1)
                                  ++ [WriteArray (i + 1) (band i)]) (seq 0 n)
            ++ georef ++ [FlushCache]) ->
  exists i, i < n /\ k = i + 1 /\ a = band i.
Proof.
  intros Hfirst Hgeo [Heq|Hin]; [now apply Hfirst in Heq|].
  apply in_app_or in Hin. destruct Hin as [Hin|Hin].
  - apply in_flat_map in Hin. destruct Hin as [i [Hi Hin]].
    apply in_seq in Hi. apply in_app_or in Hin. destruct Hin as [Hin|Hin].
    + unfold nodata_tag in Hin. destruct nodata; simpl in Hin;
        [destruct Hin as [Hin|[]]; discriminate Hin | contradiction].
    + destruct Hin as [Hin|[]]. inversion Hin. exists i. split; [lia|auto].
  - apply in_app_or in Hin. destruct Hin as [Hin|Hin].
    + now apply Hgeo in Hin.
    + destruct Hin as [Hin|[]]. discriminate Hin.
Qed.

(** C1: in a run on two rasters of one size, the array written for MUL band
    [i] (output band [i + 1], written once) holds at every pixel [(r, c)] the
    value [mul[i,r,c] + (pan[0,r,c] - pan_highpass[0,r,c])] computed from the
    stacks the run has read and filtered, with the replacement value where
    this value is NaN.  Of the PAN stack and of the filtered PAN stack only
    band index 0 is used, and the value depends on the three cells at
    [(r, c)] only. *)
Theorem pansharpening_fused_band (fs : FileSystem F)
  (mul_resize pan outPath : string) (nodata : option F) (v : F)
  (pds mds : Dataset F) (g : GeoTransform F) :
  replacement store_None nodata = Ok v ->
  fs pan = Some pds -> fs mul_resize = Some mds ->
  RasterBands pds <> [] -> RasterBands mds <> [] ->
  GetGeoTransform pds = Some g ->
  RasterXSize mds = RasterXSize pds -> RasterYSize mds = RasterYSize pds ->
  0 < RasterYSize pds ->
  exists pan_arr pan_highpass mul_arr log,
    read_raster fs pan nodata = Ok (pan_arr, GetProjection pds, Some g)
    /\ high_pass_filter pan_arr = Ok pan_highpass
    /\ read_raster fs mul_resize None
       = Ok (mul_arr, GetProjection mds, GetGeoTransform mds)
    /\ pansharpening normpath store_None fs mul_resize pan outPath nodata
       = Ok log
    /\ forall i, i < RasterCount mds ->
         exists a,
           In (WriteArray (i + 1) a) log
           /\ (forall a', In (WriteArray (i + 1) a') log -> a' = a)
           /\ has_shape2 (RasterYSize mds) (RasterXSize mds) a
           /\ forall r c, r < RasterYSize mds -> c < RasterXSize mds ->
                at2 a nan r c
                = let fused :=
                    fadd (at3 mul_arr nan i r c)
                         (fsub (at3 pan_arr nan 0 r c)
                               (at3 pan_highpass nan 0 r c)) in
                  if isnan fused then v else fused.
Proof.
  intros Hv Hpan Hmul Hpb Hmb Hg HX HY Hpos.
  set (pan_arr := map (band_array pds nodata) (RasterBands pds)).
  set (mul_arr := map (band_array mds None) (RasterBands mds)).
  set (pan_highpass :=
         ndimage_convolve pan_arr (repeat highPassMatrix (length pan_arr)) nan).
  set (fused := fun i =>
         tabulate (RasterYSize mds) (fun r =>
           tabulate (RasterXSize mds) (fun c =>
             fadd (at3 mul_arr nan i r c)
                  (fsub (at3 pan_arr nan 0 r c)
                        (at3 pan_highpass nan 0 r c))))).
  exists pan_arr, pan_highpass, mul_arr. eexists.
  split; [rewrite (read_raster_ok fs pan pds nodata Hpan Hpb), Hg;
          reflexivity|].
  split; [apply high_pass_filter_ok; subst pan_arr;
          destruct (RasterBands pds); [congruence | discriminate]|].
  split; [exact (read_raster_ok fs mul_resize mds None Hmul Hmb)|].
  split; [exact (pansharpening_ok normpath store_None fs mul_resize pan
                   outPath nodata v pds mds g Hv Hpan Hmul Hpb Hmb Hg HX HY
                   Hpos)|].
  fold pan_arr mul_arr pan_highpass. cbv zeta. fold fused.
  intros i Hi. exists (nan_to v (fused i)).
  split; [|split; [|split]].
  - right. apply in_or_app. left. apply in_flat_map.
    exists i. split; [apply in_seq; lia|].
    apply in_or_app. right. left. reflexivity.
  - intros a' Hin.
    apply (written_once nodata (fun j => nan_to v (fused j))) in Hin.
    + destruct Hin as [j [_ [Hj ->]]].
      now replace j with i by lia.
    + discriminate.
    + intros b x. unfold attach_georef.
      destruct (GetProjection pds); simpl; intuition discriminate.
  - unfold nan_to. apply has_shape2_map. apply has_shape2_tabulate.
  - intros r c Hr Hc. unfold nan_to.
    rewrite (at2_map _ _ _ (RasterYSize mds) (RasterXSize mds))
      by (try apply has_shape2_tabulate; assumption).
    unfold fused. now rewrite at2_tabulate.
Qed.

End FusedBands.

Lemma pansharpening_fused_band_witness :
  exists pan_arr pan_highpass mul_arr log,
    read_raster (F := xQ) fs6 "pan.tif" (Some (XFin (-9999)))
    = Ok (pan_arr, Some "EPSG:32642"%string, Some north_up)
    /\ high_pass_filter pan_arr = Ok pan_highpass
    /\ read_raster fs6 "mul_resize.tif" None
       = Ok (mul_arr, Some "EPSG:4326"%string, Some south_up)
    /\ pansharpening (fun p => p) (Raise ValueError) fs6 "mul_resize.tif"
         "pan.tif" "out.tif" (Some (XFin (-9999)))
       = Ok log
    /\ forall i, i < 2 ->
         exists a,
           In (WriteArray (i + 1) a) log
           /\ (forall a', In (WriteArray (i + 1) a') log -> a' = a)
           /\ has_shape2 6 6 a
           /\ forall r c, r < 6 -> c < 6 ->
                at2 a XNaN r c
                = let fused :=
                    fadd (at3 mul_arr XNaN i r c)
                         (fsub (at3 pan_arr XNaN 0 r c)
                               (at3 pan_highpass XNaN 0 r c)) in
                  if isnan fused then XFin (-9999) else fused.
Proof.
  assert (Hpb : RasterBands (pan6 (F := xQ)) <> []) by discriminate.
  assert (Hmb : RasterBands (mul6 (F := xQ)) <> []) by discriminate.
  assert (Hpos : 0 < RasterYSize (pan6 (F := xQ))) by (simpl; lia).
  exact (pansharpening_fused_band (fun p => p) (Raise ValueError) fs6
           "mul_resize.tif" "pan.tif" "out.tif" (Some (XFin (-9999)))
           (XFin (-9999)) pan6 mul6 north_up
           eq_refl eq_refl eq_refl Hpb Hmb eq_refl eq_refl eq_refl Hpos).
Defined.

(** ** The output file *)

Section Writer.

Context {F : Type} `{FloatOps F}.
Variable normpath : string -> string.
Variable store_None : result F.

(** C9: the calls on the output file come in this order.  After the file is
    created, the bands are fused and written in the order 1..N; each band is
    tagged with the nodata value, when there is one, just before its pixels
    are written; the geotransform and the projection are set after the last
    band, and the flush comes last.  This holds of every run that returns,
    and on two rasters of one size the run does return, with the bands
    [pansharpen i], where [v] is the value put in place of NaN: the sentinel
    when there is one. *)
Theorem pansharpening_write_order (fs : FileSystem F)
  (mul_resize pan outPath : string) (nodata : option F) :
  (forall log,
     pansharpening normpath store_None fs mul_resize pan outPath nodata
     = Ok log ->
     exists xsize ysize arrays g projection,
       log = [Create (normpath outPath) xsize ysize (length arrays)
                "GDT_Float32" ["COMPRESS=DEFLATE"; "PREDICTOR=3"]%string]
             ++ flat_map (fun '(i, a) =>
                  match nodata with
                  | Some s => [SetNoDataValue (i + 1) s; WriteArray (i + 1) a]
                  | None => [WriteArray (i + 1) a]
                  end)
                  (combine (seq 0 (length arrays)) arrays)
             ++ [SetGeoTransform g]
             ++ match projection with
                | Some p => [SetProjection p]
                | None => []
                end
             ++ [FlushCache])
  /\ (forall (v : F) (pds mds : Dataset F) (g : GeoTransform F),
      replacement store_None nodata = Ok v ->
      fs pan = Some pds -> fs mul_resize = Some mds ->
      RasterBands pds <> [] -> RasterBands mds <> [] ->
      GetGeoTransform pds = Some g ->
      RasterXSize mds = RasterXSize pds -> RasterYSize mds = RasterYSize pds ->
      0 < RasterYSize pds ->
      let pan_arr := map (band_array pds nodata) (RasterBands pds) in
      let pan_spatial :=
        ndimage_convolve pan_arr (repeat highPassMatrix (length pan_arr)) nan in
      let mul_arr := map (band_array mds None) (RasterBands mds) in
      let pansharpen i :=
        nan_to v
          (tabulate (RasterYSize mds) (fun r =>
             tabulate (RasterXSize mds) (fun c =>
               fadd (at3 mul_arr nan i r c)
                    (fsub (at3 pan_arr nan 0 r c)
                          (at3 pan_spatial nan 0 r c))))) in
      pansharpening normpath store_None fs mul_resize pan outPath nodata
      = Ok ([Create (normpath outPath) (RasterXSize mds) (RasterYSize mds)
               (RasterCount mds) "GDT_Float32"
               ["COMPRESS=DEFLATE"; "PREDICTOR=3"]%string]
            ++ flat_map (fun i =>
                 match nodata with
                 | Some s =>
                     [SetNoDataValue (i + 1) s;
                      WriteArray (i + 1) (pansharpen i)]
                 | None => [WriteArray (i + 1) (pansharpen i)]
                 end)
                 (seq 0 (RasterCount mds))
            ++ [SetGeoTransform g]
            ++ match GetProjection pds with
               | Some p => [SetProjection p]
               | None => []
               end
            ++ [FlushCache])).
Proof.
  split.
  - intros log Hrun.
    destruct (pansharpening_log_shape normpath store_None fs mul_resize pan
                outPath nodata log Hrun)
      as [xsize [ysize [arrays [g [projection ->]]]]].
    exists xsize, ysize, arrays, g, projection.
    do 2 f_equal. apply flat_map_ext. intros [i a]. unfold nodata_tag.
    destruct nodata; reflexivity.
  - intros v pds mds g Hv Hpan Hmul Hpb Hmb Hg HX HY Hpos
           pan_arr pan_spatial mul_arr pansharpen.
    rewrite (pansharpening_ok normpath store_None fs mul_resize pan outPath
               nodata v pds mds g) by assumption.
    cbn [app]. do 2 f_equal. unfold attach_georef. cbn [app]. f_equal.
    apply flat_map_ext. intros i. unfold nodata_tag.
    destruct nodata; reflexivity.
Qed.

End Writer.

Lemma pansharpening_write_order_witness :
  let pan_arr := map (band_array pan5 (Some (XFin (-9999)))) (RasterBands pan5) in
  let pan_spatial :=
    ndimage_convolve pan_arr (repeat highPassMatrix (length pan_arr)) XNaN in
  let mul_arr := map (band_array mul5 None) (RasterBands mul5) in
  let pansharpen i :=
    nan_to (XFin (-9999))
      (tabulate 5 (fun r => tabulate 5 (fun c =>
         fadd (at3 mul_arr XNaN i r c)
              (fsub (at3 pan_arr XNaN 0 r c) (at3 pan_spatial XNaN 0 r c))))) in
  pansharpening (fun p => p) (Raise ValueError) sample_fs "mul_resize.tif"
    "pan.tif" "out.tif" (Some (XFin (-9999)))
  = Ok [ Create "out.tif" 5 5 1 "GDT_Float32"
           ["COMPRESS=DEFLATE"; "PREDICTOR=3"]%string;
         SetNoDataValue 1 (XFin (-9999));
         WriteArray 1 (pansharpen 0);
         SetGeoTransform north_up;
         SetProjection "EPSG:32642";
         FlushCache ].
Proof.
  assert (Hp : RasterBands (pan5 (F:=xQ)) <> []) by discriminate.
  assert (Hm : RasterBands (mul5 (F:=xQ)) <> []) by discriminate.
  assert (Hpos : 0 < RasterYSize (pan5 (F:=xQ))) by (simpl; lia).
  exact (proj2 (pansharpening_write_order (fun p => p) (Raise ValueError)
                  sample_fs "mul_resize.tif" "pan.tif" "out.tif"
                  (Some (XFin (-9999))))
           (XFin (-9999)) pan5 mul5 north_up
           eq_refl eq_refl eq_refl Hp Hm eq_refl eq_refl eq_refl Hpos).
Defined.

(** ** Exact arithmetic *)

#[export] Instance xQ_laws : FloatLaws xQ.
Proof.
  split; try reflexivity;
    try (intros [|x] [|y]; simpl; intros; congruence).
Qed.

Lemma at3z_inside {F} (a : Array3 F) (d : F) (b r c : Z) :
  (0 <= b)%Z -> (0 <= r)%Z -> (0 <= c)%Z ->
  at3z a d b r c = at3 a d (Z.to_nat b) (Z.to_nat r) (Z.to_nat c).
Proof.
  intros Hb Hr Hc. unfold at3z.
  destruct (Z.ltb_spec b 0); [lia|].
  destruct (Z.ltb_spec r 0); [lia|].
  destruct (Z.ltb_spec c 0); [lia|]. reflexivity.
Qed.

(** ** The filter on one band *)

(** Where every cell under the filter holds the same number [q0], the sum
    is [q0] times the total weight. *)
Lemma correlate_flat (input : Array3 xQ) (b r c : nat) (q0 : Q)
  (tp : list (Z * Z * Z * xQ)) :
  (forall db dr dc w, In (db, dr, dc, w) tp ->
     exists qw qv,
       w = XFin qw
       /\ at3z input XNaN (Z.of_nat b + db) (Z.of_nat r + dr) (Z.of_nat c + dc)
          = XFin qv
       /\ qv == q0) ->
  forall acc : Q,
  exists q : Q,
    fold_left
      (fun res '(db, dr, dc, w) =>
         fadd res (fmul w (at3z input XNaN (Z.of_nat b + db)
                                           (Z.of_nat r + dr)
                                           (Z.of_nat c + dc))))
      tp (XFin acc) = XFin q
    /\ q == acc + q0 * total_weight tp.
Proof.
  induction tp as [|[[[db dr] dc] w] tp IH]; intros Htaps acc.
  - exists acc. split; [reflexivity|]. unfold total_weight. simpl. ring.
  - destruct (Htaps db dr dc w (or_introl eq_refl)) as [qw [qv [-> [Hv Hq]]]].
    cbn [fold_left]. rewrite Hv. cbn [fadd fmul xQ_ops xlift2].
    destruct (IH (fun db' dr' dc' w' Hin =>
                    Htaps db' dr' dc' w' (or_intror Hin))
                 (acc + qw * qv)%Q) as [q [Hfold Hsum]].
    exists q. split; [exact Hfold|].
    rewrite Hsum, Hq. unfold total_weight. cbn [fold_right].
    fold (total_weight tp). unfold tap_weight at 1. cbn [snd]. ring.
Qed.

Section OneBand.

Context {F : Type} `{FloatOps F}.

(** On a stack of one band the filter stays in the band: its 25 elements
    reach from two cells before to two cells after the output cell in each
    direction, the centre one with weight 24/25 and the others with -1/25. *)
Lemma taps_one_band :
  taps (flip3 [highPassMatrix])
  = flat_map (fun dr =>
      map (fun dc =>
             (0%Z, dr, dc,
              if ((dr =? 0) && (dc =? 0))%Z
              then fdiv (of_int 24) (of_int 25)
              else fdiv (of_int (-1)) (of_int 25)))
          [-2; -1; 0; 1; 2]%Z)
      [-2; -1; 0; 1; 2]%Z.
Proof. reflexivity. Qed.

Lemma high_pass_filter_one_band (array : Array3 F) (nr nc : nat) :
  has_shape3 1 nr nc array -> 0 < nr ->
  high_pass_filter array
  = Ok [tabulate nr (fun r => tabulate nc (fun c =>
          correlate_cell array (taps (flip3 [highPassMatrix])) nan 0 r c))].
Proof.
  intros Hs Hnr.
  assert (Hlen : length array = 1) by apply Hs.
  rewrite high_pass_filter_ok by (destruct array; [discriminate | congruence]).
  unfold ndimage_convolve.
  rewrite (shape3_of_has_shape3 1 nr nc) by (assumption || lia).
  rewrite Hlen. reflexivity.
Qed.

End OneBand.

Lemma taps_one_band_in_window :
  forallb tap_in_window (taps (flip3 [@highPassMatrix xQ _])) = true.
Proof. vm_compute. reflexivity. Qed.

Lemma taps_one_band_total :
  total_weight (taps (flip3 [@highPassMatrix xQ _])) == 0.
Proof. vm_compute. reflexivity. Qed.

(** C2, as the code has it: the 24 weights of -1/25 and the centre weight
    of 24/25 sum to exactly 0, and the filter sends a cell of a one-band
    stack whose 5 x 5 neighbourhood holds one constant to 0, whatever the
    constant. *)
Theorem high_pass_flat_field (array : Array3 xQ) (nr nc r c : nat) (q0 : Q) :
  has_shape3 1 nr nc array ->
  2 <= r -> r + 2 < nr -> 2 <= c -> c + 2 < nc ->
  (forall i j, i < 5 -> j < 5 ->
     exists q, at3 array XNaN 0 (r + i - 2) (c + j - 2) = XFin q /\ q == q0) ->
  xeq kernel_sum (XFin 0)
  /\ exists convolve_image,
       high_pass_filter array = Ok convolve_image
       /\ xeq (at3 convolve_image XNaN 0 r c) (XFin 0).
Proof.
  intros Hs Hr1 Hr2 Hc1 Hc2 Hflat.
  split; [vm_compute; reflexivity|].
  eexists. split; [apply (high_pass_filter_one_band array nr nc Hs); lia|].
  unfold at3. cbn [nth]. rewrite at2_tabulate by lia.
  unfold correlate_cell.
  destruct (correlate_flat array 0 r c q0 (taps (flip3 [highPassMatrix])))
    with (acc := 0%Q) as [q [Hfold Hsum]].
  - intros db dr dc w Hin.
    pose proof taps_one_band_in_window as Hwin.
    rewrite forallb_forall in Hwin. specialize (Hwin _ Hin).
    unfold tap_in_window in Hwin.
    rewrite !andb_true_iff, negb_true_iff in Hwin.
    destruct Hwin as [[[[[Hdb Hdr1] Hdr2] Hdc1] Hdc2] Hw].
    apply Z.eqb_eq in Hdb. apply Z.leb_le in Hdr1, Hdr2, Hdc1, Hdc2.
    destruct w as [|qw]; [discriminate|].
    destruct (Hflat (Z.to_nat (dr + 2)) (Z.to_nat (dc + 2))) as [qv [Hv Hq]];
      [lia | lia |].
    exists qw, qv. split; [reflexivity|]. split; [|exact Hq].
    rewrite at3z_inside by lia. rewrite <- Hv. f_equal; lia.
  - change (of_int 0) with (XFin 0). change (@nan xQ xQ_ops) with XNaN.
    rewrite Hfold. cbn [xeq].
    rewrite Hsum, taps_one_band_total. ring.
Qed.

Lemma high_pass_flat_field_witness :
  xeq kernel_sum (XFin 0)
  /\ exists convolve_image,
       high_pass_filter flat7 = Ok convolve_image
       /\ xeq (at3 convolve_image XNaN 0 2 2) (XFin 0).
Proof.
  assert (Hs : has_shape3 1 5 5 flat7) by (repeat (split || constructor)).
  apply (high_pass_flat_field flat7 5 5 2 2 7 Hs); try lia.
  intros i j Hi Hj. exists 7%Q. split; [|reflexivity].
  do 5 (destruct i as [|i]; [do 5 (destruct j as [|j]; [reflexivity|]); lia|]).
  lia.
Defined.

(** C2 as the specification words it fails: the weights do not sum to 1,
    neither as rationals nor as doubles, and a flat field of 7 does not come
    out as 7. *)
Lemma kernel_sum_is_not_one :
  ~ xeq kernel_sum (XFin 1)
  /\ feqb (kernel_sum (F := b64)) (of_int 1) = false
  /\ exists convolve_image,
       high_pass_filter flat7 = Ok convolve_image
       /\ ~ xeq (at3 convolve_image XNaN 0 2 2) (XFin 7).
Proof.
  split; [vm_compute; discriminate|].
  split; [vm_compute; reflexivity|].
  eexists. split; [vm_compute; reflexivity|]. vm_compute. discriminate.
Qed.

(** ** The filter on several bands *)

(** C3 at a stack of two bands.  The output has the shape of the input, but
    the centre cell of band 0 is 24, the weighted sum over the window of band
    1, although band 0 is all 0 and filters to 0 alone; and the centre cell
    of band 1 is NaN, although all of band 1 is finite and it filters to 24
    alone. *)
Theorem high_pass_filter_mixes_bands :
  exists convolve_image alone0 alone1,
    high_pass_filter two_bands = Ok convolve_image
    /\ shape3 convolve_image = shape3 two_bands
    /\ high_pass_filter [zeros5] = Ok alone0
    /\ high_pass_filter [spike5] = Ok alone1
    /\ xeq (at3 alone0 XNaN 0 2 2) (XFin 0)
    /\ xeq (at3 alone1 XNaN 0 2 2) (XFin 24)
    /\ xeq (at3 convolve_image XNaN 0 2 2) (XFin 24)
    /\ at3 convolve_image XNaN 1 2 2 = XNaN.
Proof.
  do 3 eexists.
  split; [vm_compute; reflexivity|].
  split; [reflexivity|].
  split; [vm_compute; reflexivity|].
  split; [vm_compute; reflexivity|].
  repeat split; vm_compute; reflexivity.
Qed.

Section SeveralBands.

Context {F : Type} {ops : FloatOps F} {laws : FloatLaws F}.

Lemma fold_nan_acc (input : Array3 F) (cval : F) (b r c : nat)
  (tp : list (Z * Z * Z * F)) (acc : F) :
  isnan acc = true ->
  isnan (fold_left
           (fun res '(db, dr, dc, w) =>
              fadd res (fmul w (at3z input cval (Z.of_nat b + db)
                                                (Z.of_nat r + dr)
                                                (Z.of_nat c + dc))))
           tp acc) = true.
Proof.
  revert acc. induction tp as [|[[[db dr] dc] w] tp IH]; intros acc Hacc.
  - exact Hacc.
  - cbn [fold_left]. apply IH. now apply fadd_nan_l.
Qed.

Lemma fold_nan_tap (input : Array3 F) (cval : F) (b r c : nat)
  (tp : list (Z * Z * Z * F)) (db dr dc : Z) (w : F) :
  In (db, dr, dc, w) tp ->
  isnan (at3z input cval (Z.of_nat b + db) (Z.of_nat r + dr)
                         (Z.of_nat c + dc)) = true ->
  isnan (correlate_cell input tp cval b r c) = true.
Proof.
  unfold correlate_cell. generalize (of_int 0).
  induction tp as [|t tp IH]; intros acc Hin Hnan; [contradiction|].
  destruct Hin as [->|Hin].
  - cbn [fold_left]. apply fold_nan_acc. now apply fadd_nan_r, fmul_nan_r.
  - cbn [fold_left]. now apply IH.
Qed.

Lemma in_enumerate_repeat {A} (x : A) (n k : nat) :
  k < n -> In (k, x) (enumerate (repeat x n)).
Proof.
  intros Hk. unfold enumerate. rewrite repeat_length.
  assert (Hgen : forall s, In (s + k, x) (combine (seq s n) (repeat x n))).
  { revert k Hk. induction n as [|n IH]; intros k Hk s; [lia|].
    cbn [seq repeat combine]. destruct k as [|k].
    - left. now rewrite Nat.add_0_r.
    - right. replace (s + S k) with (S s + k) by lia. apply IH. lia. }
  exact (Hgen 0).
Qed.

Lemma filter_centre_bound (n : nat) :
  2 <= n -> (filter_centre n <= Z.of_nat n - 2)%Z.
Proof.
  intros Hn. unfold filter_centre.
  pose proof (Z.mul_div_le (Z.of_nat n) 2 eq_refl) as Hdiv.
  destruct (Nat.even n) eqn:Heven.
  - lia.
  - assert (n <> 2) by (intros ->; discriminate). lia.
Qed.

Lemma at3z_past_last_band (a : Array3 F) (d : F) (b r c : Z) :
  (Z.of_nat (length a) <= b)%Z -> at3z a d b r c = d.
Proof.
  intros Hb. unfold at3z.
  destruct ((b <? 0) || (r <? 0) || (c <? 0))%Z; [reflexivity|].
  unfold at3, at2. rewrite (nth_overflow a) by lia.
  destruct (Z.to_nat r); destruct (Z.to_nat c); reflexivity.
Qed.

Lemma last_kernel_copy_tap (n : nat) :
  2 <= n ->
  exists w : F,
    In ((Z.of_nat (n - 1) - filter_centre n)%Z, (-2)%Z, (-2)%Z, w)
       (taps (flip3 (repeat highPassMatrix n))).
Proof.
  intros Hn. unfold flip3. rewrite map_repeat, rev_repeat.
  set (m := rev (map (@rev F) highPassMatrix)).
  exists (nth 0 (nth 0 m []) nan).
  unfold taps.
  assert (Hshape : shape3 (repeat m n) = (n, 5, 5)).
  { unfold shape3. rewrite repeat_length.
    destruct n; [lia | reflexivity]. }
  rewrite Hshape. apply in_flat_map.
  exists (n - 1, m). split; [apply in_enumerate_repeat; lia|].
  apply in_flat_map. exists (0, nth 0 m []).
  split; [left; reflexivity|]. left. reflexivity.
Qed.

(** Over a stack of two or more bands the filter also spans the bands, and
    band [n - 1] of the output is NaN in every cell, whatever the input
    holds: the first element of the last kernel copy reads a band past the
    end of the stack, which is [cval]. *)
Lemma high_pass_filter_last_band (array : Array3 F) (n nr nc r c : nat) :
  has_shape3 n nr nc array -> 2 <= n -> r < nr -> c < nc ->
  exists convolve_image,
    high_pass_filter array = Ok convolve_image
    /\ isnan (at3 convolve_image nan (n - 1) r c) = true.
Proof.
  intros Hs Hn Hr Hc.
  assert (Hlen : length array = n) by apply Hs.
  eexists. split.
  - apply high_pass_filter_ok. destruct array; [simpl in Hlen; lia | discriminate].
  - unfold ndimage_convolve.
    rewrite (shape3_of_has_shape3 n nr nc) by (assumption || lia).
    cbv beta iota.
    unfold at3. rewrite nth_tabulate by lia.
    rewrite at2_tabulate by assumption. rewrite Hlen.
    destruct (last_kernel_copy_tap n Hn) as [w Hin].
    apply (fold_nan_tap _ _ _ _ _ _ _ _ _ _ Hin).
    rewrite at3z_past_last_band; [apply isnan_nan|].
    pose proof (filter_centre_bound n Hn). lia.
Qed.

End SeveralBands.

(** ** Nodata through the run *)

(** C4 at [pan5] and [mul5] with the sentinel -9999.  The MUL raster is read
    without the sentinel, so its centre cell stays -9999; the band computed by
    the fusion formula holds -9998 there, a number, and so does the band
    written to the file, which is tagged with -9999 as nodata. *)
Theorem mul_sentinel_not_restored :
  let nodata := Some (XFin (-9999)) in
  exists pan_arr pan_spatial mul_arr proj geo band pan_arr2d pan_spatial2d
         fused written,
    read_raster sample_fs "pan.tif" nodata = Ok (pan_arr, proj, geo)
    /\ high_pass_filter pan_arr = Ok pan_spatial
    /\ read_raster sample_fs "mul_resize.tif" None = Ok (mul_arr, proj, geo)
    /\ at3 mul_arr XNaN 0 2 2 = XFin (-9999)
    /\ getitem mul_arr 0 = Ok band
    /\ getitem pan_arr 0 = Ok pan_arr2d
    /\ getitem pan_spatial 0 = Ok pan_spatial2d
    /\ hpf band pan_arr2d pan_spatial2d = Ok fused
    /\ isnan (at2 fused XNaN 2 2) = false
    /\ xeq (at2 fused XNaN 2 2) (XFin (-9998))
    /\ pansharpening (fun p => p) (Raise ValueError) sample_fs
         "mul_resize.tif" "pan.tif" "out.tif" nodata
       = Ok [ Create "out.tif" 5 5 1 "GDT_Float32"
                ["COMPRESS=DEFLATE"; "PREDICTOR=3"]%string;
              SetNoDataValue 1 (XFin (-9999));
              WriteArray 1 written;
              SetGeoTransform north_up;
              SetProjection "EPSG:32642";
              FlushCache ]
    /\ xeq (at2 written XNaN 2 2) (XFin (-9998))
    /\ feqb (at2 written XNaN 2 2) (XFin (-9999)) = false.
Proof.
  intros nodata. do 10 eexists.
  repeat (split; [vm_compute; reflexivity|]).
  vm_compute. reflexivity.
Qed.

(** ** The script *)

Section Script.

Context {F : Type} `{FloatOps F}.
Variable normpath : string -> string.
Variable store_None : result F.
Variable gdalwarp : FileSystem F -> list F -> string -> string -> FileSystem F.

(** C7 at the script as shipped: it calls [pansharpening] with three
    arguments, one short of the four the function requires, so once the
    bounding box is computed the call raises [TypeError]; no run of the
    script returns. *)
Theorem main_script_raises (fs : FileSystem F) :
  main_script normpath store_None gdalwarp fs
  = match get_bbox fs pan_img with
    | Ok _ => Raise TypeError
    | Raise e => Raise e
    end.
Proof. unfold main_script. destruct (get_bbox fs pan_img); reflexivity. Qed.

(** A call with four arguments is bound to the four parameters. *)
Lemma call_with_four_arguments (fs : FileSystem F)
  (mul_resize pan outPath : string) :
  call_pansharpening normpath store_None fs
    [PyStr mul_resize; PyStr pan; PyStr outPath; PyNone]
  = pansharpening normpath store_None fs mul_resize pan outPath None.
Proof. reflexivity. Qed.

(** What the loop does with the NaN cells of a band when a sentinel was
    passed: the sentinel replaces them, and the other cells are kept. *)
Lemma setitem_isnan_sentinel (a : Array2 F) (s : F) (nr nc r c : nat) :
  has_shape2 nr nc a -> r < nr -> c < nc ->
  exists a',
    setitem_isnan store_None a (Some s) = Ok a'
    /\ at2 a' nan r c = if isnan (at2 a nan r c) then s else at2 a nan r c.
Proof.
  intros Hs Hr Hc. eexists. split; [reflexivity|].
  unfold nan_to. now rewrite (at2_map _ _ _ nr nc).
Qed.

(** With no sentinel the outcome is the array library's: where it stores NaN
    for [None] the band is kept as it is, NaN cells included; where it
    refuses, the run stops at the first band. *)
Lemma setitem_isnan_None (a : Array2 F) :
  setitem_isnan store_None a None
  = match store_None with
    | Ok v => Ok (nan_to v a)
    | Raise e => Raise e
    end.
Proof. unfold setitem_isnan, replacement. destruct store_None; reflexivity. Qed.

End Script.

(** ** A NaN sentinel *)

Section NanSentinel.

Context {F : Type} {ops : FloatOps F} {laws : FloatLaws F}.
Variable normpath : string -> string.
Variable store_None : result F.

Lemma for_each_ext {A S} (xs : list A) (body body' : A -> S -> result S) :
  (forall x s, body x s = body' x s) ->
  forall s, for_each xs body s = for_each xs body' s.
Proof.
  intros Hext. induction xs as [|x xs IH]; intros s; simpl; [reflexivity|].
  rewrite Hext. destruct (body' x s); simpl; auto.
Qed.

Lemma fill_nan_nan_sentinel (a : Array2 F) (s : F) :
  isnan s = true -> fill_nan a (Some s) = fill_nan a None.
Proof.
  intros Hs. unfold fill_nan. apply map_ext. intros row. apply map_ext.
  intros v. cbn [eq_nodata]. now rewrite feqb_nan_r.
Qed.

(** C8, as the code has it: a NaN sentinel is not detected.  The reader
    replaces nothing and returns what it returns without a sentinel, and a
    run on two rasters of one size returns normally. *)
Theorem nan_sentinel_not_detected (fs : FileSystem F)
  (mul_resize pan outPath : string) (s : F)
  (pds mds : Dataset F) (g : GeoTransform F) :
  isnan s = true ->
  fs pan = Some pds -> fs mul_resize = Some mds ->
  RasterBands pds <> [] -> RasterBands mds <> [] ->
  GetGeoTransform pds = Some g ->
  RasterXSize mds = RasterXSize pds -> RasterYSize mds = RasterYSize pds ->
  0 < RasterYSize pds ->
  (forall path, read_raster fs path (Some s) = read_raster fs path None)
  /\ exists log,
       pansharpening normpath store_None fs mul_resize pan outPath (Some s)
       = Ok log.
Proof.
  intros Hs Hpan Hmul Hpb Hmb Hg HX HY Hpos. split.
  - intros path. unfold read_raster.
    destruct (gdal_Open fs path) as [src_ds|e]; [|reflexivity]. cbn [bind].
    rewrite (for_each_ext _ _
               (fun band raw_image =>
                  ds <- ReadAsArray src_ds band ;;
                  Ok (raw_image ++ [fill_nan ds None]))); [reflexivity|].
    intros band raw_image.
    destruct (ReadAsArray src_ds band); [|reflexivity]. cbn [bind].
    now rewrite fill_nan_nan_sentinel.
  - eexists.
    apply (pansharpening_ok normpath store_None fs mul_resize pan outPath
             (Some s) s pds mds g); (assumption || reflexivity).
Qed.

End NanSentinel.

Lemma nan_sentinel_not_detected_witness :
  (forall path,
     read_raster sample_fs path (Some XNaN) = read_raster sample_fs path None)
  /\ exists log,
       pansharpening (fun p => p) (Raise ValueError) sample_fs
         "mul_resize.tif" "pan.tif" "out.tif" (Some XNaN) = Ok log.
Proof.
  assert (Hp : RasterBands (pan5 (F:=xQ)) <> []) by discriminate.
  assert (Hm : RasterBands (mul5 (F:=xQ)) <> []) by discriminate.
  assert (Hpos : 0 < RasterYSize (pan5 (F:=xQ))) by (simpl; lia).
  exact (nan_sentinel_not_detected (fun p => p) (Raise ValueError) sample_fs
           "mul_resize.tif" "pan.tif" "out.tif" XNaN pan5 mul5 north_up
           eq_refl eq_refl eq_refl Hp Hm eq_refl eq_refl eq_refl Hpos).
Defined.

(** C8 as the specification words it fails: with NaN as the sentinel the run
    on [pan5] and [mul5] is not aborted; it tags the band with NaN and writes
    the file. *)
Lemma nan_sentinel_run_completes :
  isnan XNaN = true
  /\ exists written,
       pansharpening (fun p => p) (Raise ValueError) sample_fs
         "mul_resize.tif" "pan.tif" "out.tif" (Some XNaN)
       = Ok [ Create "out.tif" 5 5 1 "GDT_Float32"
                ["COMPRESS=DEFLATE"; "PREDICTOR=3"]%string;
              SetNoDataValue 1 XNaN;
              WriteArray 1 written;
              SetGeoTransform north_up;
              SetProjection "EPSG:32642";
              FlushCache ].
Proof.
  split; [reflexivity|]. eexists. vm_compute. reflexivity.
Qed.

(** ** The same inputs in IEEE double precision *)

#[export] Instance b64_laws : FloatLaws b64.
Proof.
  split; try reflexivity;
    intros x y Hnan; destruct x, y; try discriminate Hnan; reflexivity.
Qed.

(** In doubles the 25 weights, added in row-major order, leave 1.75 * 2^-54:
    rounding residue, and not 1 either. *)
Lemma b64_kernel_sum :
  kernel_sum (F := b64) = S754_finite false 7881299347898368 (-106)
  /\ feqb (kernel_sum (F := b64)) (of_int 1) = false.
Proof. split; vm_compute; reflexivity. Qed.

Lemma b64_get_bbox :
  get_bbox (F := b64) sample_fs "raster10.tif"
  = Ok [of_int 0; of_int 0; of_int 10; of_int 10; of_int 1; of_int (-1)].
Proof. vm_compute. reflexivity. Qed.

Lemma b64_two_bands :
  exists convolve_image,
    high_pass_filter (F := b64) two_bands = Ok convolve_image
    /\ at3 convolve_image nan 0 2 2 = of_int 24
    /\ at3 convolve_image nan 1 2 2 = nan.
Proof. eexists. repeat split; vm_compute; reflexivity. Qed.

Lemma b64_mul_sentinel :
  exists written,
    pansharpening (F := b64) (fun p => p) (Raise ValueError) sample_fs
      "mul_resize.tif" "pan.tif" "out.tif" (Some (of_int (-9999)))
    = Ok [ Create "out.tif" 5 5 1 "GDT_Float32"
             ["COMPRESS=DEFLATE"; "PREDICTOR=3"]%string;
           SetNoDataValue 1 (of_int (-9999));
           WriteArray 1 written;
           SetGeoTransform north_up;
           SetProjection "EPSG:32642";
           FlushCache ]
    /\ at2 written nan 2 2 = of_int (-9998).
Proof. eexists. split; vm_compute; reflexivity. Qed.

(** * Further properties *)

(** ** Reading off the array *)

Section OffTheArray.

Context {F : Type} `{FloatOps F}.

(** A signed index before or past the end of any axis reads the constant. *)
Lemma at3z_off (a : Array3 F) (d : F) (nb nr nc : nat) (b r c : Z) :
  has_shape3 nb nr nc a ->
  (b < 0 \/ Z.of_nat nb <= b \/ r < 0 \/ Z.of_nat nr <= r
   \/ c < 0 \/ Z.of_nat nc <= c)%Z ->
  at3z a d b r c = d.
Proof.
  intros Hs Hoff. unfold at3z.
  destruct (Z.ltb_spec b 0); [reflexivity|].
  destruct (Z.ltb_spec r 0); [reflexivity|].
  destruct (Z.ltb_spec c 0); [reflexivity|]. cbn [orb].
  unfold at3, at2.
  destruct (Nat.lt_ge_cases (Z.to_nat b) nb) as [Hb|Hb].
  - pose proof (has_shape3_nth nb nr nc (Z.to_nat b) a Hs Hb) as Hband.
    destruct (Nat.lt_ge_cases (Z.to_nat r) nr) as [Hr|Hr].
    + pose proof (has_shape2_row nr nc _ (Z.to_nat r) Hband Hr) as Hrow.
      apply nth_overflow. lia.
    + rewrite (nth_overflow (nth (Z.to_nat b) a [])) by (destruct Hband; lia).
      destruct (Z.to_nat c); reflexivity.
  - rewrite (nth_overflow a) by (destruct Hs; lia).
    destruct (Z.to_nat r); destruct (Z.to_nat c); reflexivity.
Qed.

(** Every offset of the 5 x 5 window is an element of the one-band filter. *)
Lemma tap_of_offset (dr dc : Z) :
  (-2 <= dr <= 2)%Z -> (-2 <= dc <= 2)%Z ->
  exists w : F, In (0%Z, dr, dc, w) (taps (flip3 [highPassMatrix])).
Proof.
  intros Hdr Hdc. rewrite taps_one_band. eexists.
  apply in_flat_map. exists dr. split.
  - assert (dr = -2 \/ dr = -1 \/ dr = 0 \/ dr = 1 \/ dr = 2)%Z as Hcase by lia.
    simpl. intuition.
  - apply in_map_iff. exists dc. split; [reflexivity|].
    assert (dc = -2 \/ dc = -1 \/ dc = 0 \/ dc = 1 \/ dc = 2)%Z as Hcase by lia.
    simpl. intuition.
Qed.

(** Every kernel copy contributes an element at its own band offset. *)
Lemma kernel_copy_tap (n k : nat) :
  k < n ->
  exists w : F,
    In ((Z.of_nat k - filter_centre n)%Z, (-2)%Z, (-2)%Z, w)
       (taps (flip3 (repeat highPassMatrix n))).
Proof.
  intros Hk. unfold flip3. rewrite map_repeat, rev_repeat.
  set (m := rev (map (@rev F) highPassMatrix)).
  exists (nth 0 (nth 0 m []) nan).
  unfold taps.
  assert (Hshape : shape3 (repeat m n) = (n, 5, 5)).
  { unfold shape3. rewrite repeat_length.
    destruct n; [lia | reflexivity]. }
  rewrite Hshape. apply in_flat_map.
  exists (k, m). split; [now apply in_enumerate_repeat|].
  apply in_flat_map. exists (0, nth 0 m []).
  split; [left; reflexivity|]. left. reflexivity.
Qed.

End OffTheArray.

(** ** More on the filter *)

Section FilterEdges.

Context {F : Type} {ops : FloatOps F} {laws : FloatLaws F}.

Lemma one_band_cell (array : Array3 F) (nr nc r c : nat) :
  has_shape3 1 nr nc array -> r < nr -> c < nc ->
  exists convolve_image,
    high_pass_filter array = Ok convolve_image
    /\ at3 convolve_image nan 0 r c
       = correlate_cell array (taps (flip3 [highPassMatrix])) nan 0 r c.
Proof.
  intros Hs Hr Hc. eexists.
  split; [apply (high_pass_filter_one_band array nr nc Hs); lia|].
  unfold at3. cbn [nth]. now rewrite at2_tabulate.
Qed.

Lemma filter_border_nan (array : Array3 F) (nr nc r c : nat) :
  has_shape3 1 nr nc array -> r < nr -> c < nc ->
  r < 2 \/ nr <= r + 2 \/ c < 2 \/ nc <= c + 2 ->
  exists convolve_image,
    high_pass_filter array = Ok convolve_image
    /\ isnan (at3 convolve_image nan 0 r c) = true.
Proof.
  intros Hs Hr Hc Hedge.
  destruct (one_band_cell array nr nc r c Hs Hr Hc) as [out [Hrun Hcell]].
  exists out. split; [exact Hrun|]. rewrite Hcell.
  assert (Hreach : exists dr dc : Z,
             (-2 <= dr <= 2)%Z /\ (-2 <= dc <= 2)%Z
             /\ (Z.of_nat r + dr < 0 \/ Z.of_nat nr <= Z.of_nat r + dr
                 \/ Z.of_nat c + dc < 0 \/ Z.of_nat nc <= Z.of_nat c + dc)%Z).
  { destruct Hedge as [H|[H|[H|H]]].
    - exists (-2)%Z, 0%Z. lia.
    - exists 2%Z, 0%Z. lia.
    - exists 0%Z, (-2)%Z. lia.
    - exists 0%Z, 2%Z. lia. }
  destruct Hreach as [dr [dc [Hdr [Hdc Hoff]]]].
  destruct (tap_of_offset dr dc Hdr Hdc) as [w Hin].
  apply (fold_nan_tap _ _ _ _ _ _ _ _ _ _ Hin).
  rewrite (at3z_off array nan 1 nr nc) by (assumption || lia).
  apply isnan_nan.
Qed.

Lemma filter_spreads_nan (array : Array3 F)
  (nr nc r0 c0 r c : nat) :
  has_shape3 1 nr nc array -> r < nr -> c < nc ->
  isnan (at3 array nan 0 r0 c0) = true ->
  r <= r0 + 2 -> r0 <= r + 2 -> c <= c0 + 2 -> c0 <= c + 2 ->
  exists convolve_image,
    high_pass_filter array = Ok convolve_image
    /\ isnan (at3 convolve_image nan 0 r c) = true.
Proof.
  intros Hs Hr Hc Hnan Hr1 Hr2 Hc1 Hc2.
  destruct (one_band_cell array nr nc r c Hs Hr Hc) as [out [Hrun Hcell]].
  exists out. split; [exact Hrun|]. rewrite Hcell.
  destruct (tap_of_offset (F := F) (Z.of_nat r0 - Z.of_nat r)
              (Z.of_nat c0 - Z.of_nat c)) as [w Hin]; [lia | lia |].
  apply (fold_nan_tap _ _ _ _ _ _ _ _ _ _ Hin).
  rewrite at3z_inside by lia.
  replace (Z.to_nat (Z.of_nat 0 + 0)) with 0 by lia.
  replace (Z.to_nat (Z.of_nat r + (Z.of_nat r0 - Z.of_nat r))) with r0 by lia.
  replace (Z.to_nat (Z.of_nat c + (Z.of_nat c0 - Z.of_nat c))) with c0 by lia.
  exact Hnan.
Qed.

Lemma filter_off_centre_nan (array : Array3 F)
  (n nr nc b r c : nat) :
  has_shape3 n nr nc array -> b < n -> r < nr -> c < nc ->
  Z.of_nat b <> filter_centre n ->
  exists convolve_image,
    high_pass_filter array = Ok convolve_image
    /\ isnan (at3 convolve_image nan b r c) = true.
Proof.
  intros Hs Hb Hr Hc Hcentre.
  assert (Hlen : length array = n) by apply Hs.
  eexists. split.
  - apply high_pass_filter_ok.
    destruct array; [simpl in Hlen; lia | discriminate].
  - unfold ndimage_convolve.
    rewrite (shape3_of_has_shape3 n nr nc) by (assumption || lia).
    cbv beta iota.
    unfold at3. rewrite nth_tabulate by lia.
    rewrite at2_tabulate by assumption. rewrite Hlen.
    assert (Hk : exists k, k < n
               /\ (Z.of_nat b + (Z.of_nat k - filter_centre n) < 0
                   \/ Z.of_nat n
                      <= Z.of_nat b + (Z.of_nat k - filter_centre n))%Z).
    { destruct (Z.lt_ge_cases (Z.of_nat b) (filter_centre n)).
      - exists 0. lia.
      - exists (n - 1). lia. }
    destruct Hk as [k [Hkn Hoff]].
    destruct (kernel_copy_tap (F := F) n k Hkn) as [w Hin].
    apply (fold_nan_tap _ _ _ _ _ _ _ _ _ _ Hin).
    rewrite (at3z_off array nan n nr nc) by (assumption || lia).
    apply isnan_nan.
Qed.

(** X1: on a stack of one band, every output cell less than two cells from
    an edge of the raster is NaN, whatever the input holds. *)
Theorem high_pass_filter_border (array : Array3 F) (nr nc r c : nat) :
  has_shape3 1 nr nc array -> r < nr -> c < nc ->
  r < 2 \/ nr <= r + 2 \/ c < 2 \/ nc <= c + 2 ->
  exists convolve_image,
    high_pass_filter array = Ok convolve_image
    /\ isnan (at3 convolve_image nan 0 r c) = true.
Proof. exact (filter_border_nan array nr nc r c). Qed.

(** X2: on a stack of one band, a NaN input cell makes every output cell of
    the 5 x 5 block around it NaN. *)
Theorem high_pass_filter_spreads_nan (array : Array3 F)
  (nr nc r0 c0 r c : nat) :
  has_shape3 1 nr nc array -> r < nr -> c < nc ->
  isnan (at3 array nan 0 r0 c0) = true ->
  r <= r0 + 2 -> r0 <= r + 2 -> c <= c0 + 2 -> c0 <= c + 2 ->
  exists convolve_image,
    high_pass_filter array = Ok convolve_image
    /\ isnan (at3 convolve_image nan 0 r c) = true.
Proof. exact (filter_spreads_nan array nr nc r0 c0 r c). Qed.

(** X3: on a stack of [n] bands only the band at the filter's centre along
    the band axis can hold numbers: every cell of every other band of the
    output is NaN. *)
Theorem high_pass_filter_off_centre_band (array : Array3 F)
  (n nr nc b r c : nat) :
  has_shape3 n nr nc array -> b < n -> r < nr -> c < nc ->
  Z.of_nat b <> filter_centre n ->
  exists convolve_image,
    high_pass_filter array = Ok convolve_image
    /\ isnan (at3 convolve_image nan b r c) = true.
Proof. exact (filter_off_centre_nan array n nr nc b r c). Qed.

End FilterEdges.

Section FilterShape.

Context {F : Type} `{FloatOps F}.

(** X4: the filter returns a stack of the shape of its input, for any number
    of bands; an empty stack is refused. *)
Theorem high_pass_filter_keeps_shape (array : Array3 F) (n nr nc : nat) :
  has_shape3 n nr nc array -> 0 < n -> 0 < nr ->
  (exists convolve_image,
     high_pass_filter array = Ok convolve_image
     /\ has_shape3 n nr nc convolve_image)
  /\ high_pass_filter (@nil (Array2 F)) = Raise ValueError.
Proof.
  intros Hs Hn Hnr. split; [|reflexivity].
  eexists. split.
  - apply high_pass_filter_ok. destruct array; [|discriminate].
    destruct Hs as [Hlen _]. simpl in Hlen. lia.
  - now apply ndimage_convolve_shape.
Qed.

End FilterShape.

Lemma ramp_shape : has_shape3 1 6 7 (ramp (F := xQ)).
Proof.
  split; [reflexivity|].
  constructor; [apply has_shape2_tabulate | constructor].
Qed.

Lemma high_pass_filter_border_witness :
  exists convolve_image,
    high_pass_filter (ramp (F := xQ)) = Ok convolve_image
    /\ isnan (at3 convolve_image nan 0 1 3) = true.
Proof.
  apply (high_pass_filter_border ramp 6 7 1 3 ramp_shape); lia.
Defined.

Lemma high_pass_filter_spreads_nan_witness :
  exists convolve_image,
    high_pass_filter (ramp (F := xQ)) = Ok convolve_image
    /\ isnan (at3 convolve_image nan 0 2 3) = true.
Proof.
  apply (high_pass_filter_spreads_nan ramp 6 7 3 4 2 3 ramp_shape);
    (lia || reflexivity).
Defined.

Lemma high_pass_filter_off_centre_band_witness :
  exists convolve_image,
    high_pass_filter (three_bands (F := xQ)) = Ok convolve_image
    /\ isnan (at3 convolve_image nan 0 2 2) = true.
Proof.
  assert (Hs : has_shape3 3 5 5 (three_bands (F := xQ)))
    by (repeat (split || constructor)).
  apply (high_pass_filter_off_centre_band three_bands 3 5 5 0 2 2 Hs);
    try lia.
  discriminate.
Defined.

Lemma high_pass_filter_keeps_shape_witness :
  (exists convolve_image,
     high_pass_filter (ramp (F := xQ)) = Ok convolve_image
     /\ has_shape3 1 6 7 convolve_image)
  /\ high_pass_filter (@nil (Array2 xQ)) = Raise ValueError.
Proof.
  apply (high_pass_filter_keeps_shape ramp 1 6 7 ramp_shape); lia.
Defined.

(** ** The filter in the interior *)

(** Where every cell under the filter holds a number, the running sum is the
    weighted sum of these numbers. *)
Lemma correlate_values (input : Array3 xQ) (b r c : nat) (g : Z -> Z -> Q)
  (tp : list (Z * Z * Z * xQ)) :
  (forall db dr dc w, In (db, dr, dc, w) tp ->
     exists qw,
       w = XFin qw
       /\ at3z input XNaN (Z.of_nat b + db) (Z.of_nat r + dr) (Z.of_nat c + dc)
          = XFin (g dr dc)) ->
  forall acc : Q,
  exists q : Q,
    fold_left
      (fun res '(db, dr, dc, w) =>
         fadd res (fmul w (at3z input XNaN (Z.of_nat b + db)
                                           (Z.of_nat r + dr)
                                           (Z.of_nat c + dc))))
      tp (XFin acc) = XFin q
    /\ q == acc + weighted_sum g tp.
Proof.
  induction tp as [|[[[db dr] dc] w] tp IH]; intros Htaps acc.
  - exists acc. split; [reflexivity|]. unfold weighted_sum. simpl. ring.
  - destruct (Htaps db dr dc w (or_introl eq_refl)) as [qw [-> Hv]].
    cbn [fold_left]. rewrite Hv. cbn [fadd fmul xQ_ops xlift2].
    destruct (IH (fun db' dr' dc' w' Hin =>
                    Htaps db' dr' dc' w' (or_intror Hin))
                 (acc + qw * g dr dc)%Q) as [q [Hfold Hsum]].
    exists q. split; [exact Hfold|].
    rewrite Hsum. unfold weighted_sum. cbn [fold_right].
    fold (weighted_sum g tp). unfold tap_weight. cbn [snd]. ring.
Qed.

(** Over the one-band filter the weighted sum is the centre value minus the
    mean of the window. *)
Lemma weighted_sum_one_band (g : Z -> Z -> Q) :
  weighted_sum g (taps (flip3 [@highPassMatrix xQ _]))
  == g 0%Z 0%Z - window_sum g / 25.
Proof.
  rewrite taps_one_band. unfold weighted_sum, window_sum, offsets5, tap_weight.
  cbn [flat_map map app fold_right snd Z.eqb andb Pos.eqb
       fdiv of_int xQ_ops xdiv Qeq_bool inject_Z Qnum Qden
       Z.mul Pos.mul Z.compare Pos.compare Pos.compare_cont].
  field.
Qed.

Lemma filter_interior_value (array : Array3 xQ) (nr nc r c : nat)
  (g : Z -> Z -> Q) :
  has_shape3 1 nr nc array ->
  2 <= r -> r + 2 < nr -> 2 <= c -> c + 2 < nc ->
  (forall dr dc, (-2 <= dr <= 2)%Z -> (-2 <= dc <= 2)%Z ->
     at3 array XNaN 0 (Z.to_nat (Z.of_nat r + dr)) (Z.to_nat (Z.of_nat c + dc))
     = XFin (g dr dc)) ->
  exists convolve_image q,
    high_pass_filter array = Ok convolve_image
    /\ at3 convolve_image XNaN 0 r c = XFin q
    /\ q == g 0%Z 0%Z - window_sum g / 25.
Proof.
  intros Hs Hr1 Hr2 Hc1 Hc2 Hwin.
  destruct (one_band_cell array nr nc r c Hs) as [out [Hrun Hcell]];
    [lia | lia |].
  destruct (correlate_values array 0 r c g (taps (flip3 [highPassMatrix])))
    with (acc := 0%Q) as [q [Hfold Hsum]].
  - intros db dr dc w Hin.
    pose proof taps_one_band_in_window as Hall.
    rewrite forallb_forall in Hall. specialize (Hall _ Hin).
    unfold tap_in_window in Hall.
    rewrite !andb_true_iff, negb_true_iff in Hall.
    destruct Hall as [[[[[Hdb Hdr1] Hdr2] Hdc1] Hdc2] Hw].
    apply Z.eqb_eq in Hdb. apply Z.leb_le in Hdr1, Hdr2, Hdc1, Hdc2.
    destruct w as [|qw]; [discriminate|].
    exists qw. split; [reflexivity|].
    rewrite at3z_inside by lia. rewrite <- (Hwin dr dc) by lia.
    subst db. reflexivity.
  - exists out, q. split; [exact Hrun|]. split.
    + change (@nan xQ xQ_ops) with XNaN in Hcell.
      rewrite Hcell. unfold correlate_cell.
      change (of_int 0) with (XFin 0). exact Hfold.
    + rewrite Hsum, weighted_sum_one_band. ring.
Qed.

(** X5: on a stack of one band, an interior cell whose 5 x 5 window holds
    numbers only comes out as a number: its own value minus the mean of the
    25 values of the window. *)
Theorem high_pass_filter_interior (array : Array3 xQ) (nr nc r c : nat)
  (g : Z -> Z -> Q) :
  has_shape3 1 nr nc array ->
  2 <= r -> r + 2 < nr -> 2 <= c -> c + 2 < nc ->
  (forall dr dc, (-2 <= dr <= 2)%Z -> (-2 <= dc <= 2)%Z ->
     at3 array XNaN 0 (Z.to_nat (Z.of_nat r + dr)) (Z.to_nat (Z.of_nat c + dc))
     = XFin (g dr dc)) ->
  exists convolve_image q,
    high_pass_filter array = Ok convolve_image
    /\ at3 convolve_image XNaN 0 r c = XFin q
    /\ q == g 0%Z 0%Z - window_sum g / 25.
Proof. exact (filter_interior_value array nr nc r c g). Qed.

Lemma offsets5_cases (d : Z) :
  (-2 <= d <= 2)%Z -> (d = -2 \/ d = -1 \/ d = 0 \/ d = 1 \/ d = 2)%Z.
Proof. lia. Qed.

Lemma high_pass_filter_interior_witness :
  exists convolve_image q,
    high_pass_filter (slope (F := xQ)) = Ok convolve_image
    /\ at3 convolve_image XNaN 0 2 2 = XFin q
    /\ q == inject_Z 22
            - window_sum (fun dr dc => inject_Z (2 + dr + 10 * (2 + dc))) / 25.
Proof.
  assert (Hs : has_shape3 1 5 5 (slope (F := xQ))).
  { split; [reflexivity|].
    constructor; [apply has_shape2_tabulate | constructor]. }
  apply (high_pass_filter_interior slope 5 5 2 2
           (fun dr dc => inject_Z (2 + dr + 10 * (2 + dc))) Hs); try lia.
  intros dr dc Hdr Hdc.
  destruct (offsets5_cases dr Hdr) as [->|[->|[->|[->| ->]]]];
    destruct (offsets5_cases dc Hdc) as [->|[->|[->|[->| ->]]]];
    reflexivity.
Defined.

(** ** More on the reader *)

Section ReaderOutcome.

Context {F : Type} {ops : FloatOps F}.

(** The cell of a stack as read. *)
Lemma band_arrays_cell (ds : Dataset F) (nodata : option F) (b r c : nat)
  (px : nat -> nat -> F) :
  nth_error (RasterBands ds) b = Some px ->
  r < RasterYSize ds -> c < RasterXSize ds ->
  at3 (map (band_array ds nodata) (RasterBands ds)) nan b r c
  = if eq_nodata (px r c) nodata then nan else px r c.
Proof.
  intros Hb Hr Hc. unfold at3.
  rewrite (nth_error_nth _ _ [] (map_nth_error (band_array ds nodata) _ _ Hb)).
  unfold band_array, fill_nan.
  rewrite (at2_map _ _ _ (RasterYSize ds) (RasterXSize ds))
    by (try apply has_shape2_tabulate; assumption).
  now rewrite at2_tabulate.
Qed.

(** X6: [read_raster] raises [AttributeError] for a path that cannot be
    opened and [ValueError] for a raster without bands; otherwise it returns
    one array per band, in band order, with the projection and the
    geotransform of the raster. *)
Theorem read_raster_outcome (fs : FileSystem F) (path : string)
  (nodata : option F) :
  read_raster fs path nodata
  = match fs path with
    | None => Raise AttributeError
    | Some ds =>
        match RasterBands ds with
        | [] => Raise ValueError
        | _ :: _ =>
            Ok (map (fun px =>
                      map (map (fun v => if eq_nodata v nodata then nan else v))
                        (tabulate (RasterYSize ds) (fun r =>
                           tabulate (RasterXSize ds) (fun c => px r c))))
                    (RasterBands ds),
                GetProjection ds, GetGeoTransform ds)
        end
    end.
Proof.
  destruct (fs path) as [ds|] eqn:Hopen.
  - destruct (RasterBands ds) as [|px pxs] eqn:Hbands.
    + unfold read_raster, gdal_Open. rewrite Hopen. cbn [bind].
      unfold RasterCount. rewrite Hbands. reflexivity.
    + assert (Hne : RasterBands ds <> []) by congruence.
      rewrite (read_raster_ok fs path ds nodata Hopen Hne), Hbands.
      reflexivity.
  - unfold read_raster, gdal_Open. now rewrite Hopen.
Qed.

Context {laws : FloatLaws F}.

(** X7: after a read with a sentinel, no cell of the stack compares equal to
    the sentinel any more. *)
Theorem read_raster_no_sentinel_left (fs : FileSystem F) (path : string)
  (ds : Dataset F) (s : F) :
  fs path = Some ds -> RasterBands ds <> [] ->
  exists arr,
    read_raster fs path (Some s)
    = Ok (arr, GetProjection ds, GetGeoTransform ds)
    /\ forall b r c,
         b < RasterCount ds -> r < RasterYSize ds -> c < RasterXSize ds ->
         feqb (at3 arr nan b r c) s = false.
Proof.
  intros Hopen Hne. eexists. split; [now apply read_raster_ok|].
  intros b r c Hb Hr Hc.
  destruct (nth_error (RasterBands ds) b) as [px|] eqn:Hpx;
    [|apply nth_error_None in Hpx; unfold RasterCount in Hb; lia].
  rewrite (band_arrays_cell ds (Some s) b r c px Hpx Hr Hc).
  cbn [eq_nodata]. destruct (feqb (px r c) s) eqn:Heq; [|exact Heq].
  apply feqb_nan_l, isnan_nan.
Qed.

End ReaderOutcome.

Lemma read_raster_no_sentinel_left_witness :
  exists arr,
    read_raster (F := xQ) sample_fs "mul_resize.tif" (Some (XFin (-9999)))
    = Ok (arr, GetProjection mul5, GetGeoTransform mul5)
    /\ forall b r c,
         b < 1 -> r < 5 -> c < 5 ->
         feqb (at3 arr nan b r c) (XFin (-9999)) = false.
Proof.
  assert (Hne : RasterBands (mul5 (F:=xQ)) <> []) by discriminate.
  exact (read_raster_no_sentinel_left sample_fs "mul_resize.tif" mul5
           (XFin (-9999)) eq_refl Hne).
Defined.

(** ** More on the bounding box *)

Section BoxRotation.

Context {F : Type} {ops : FloatOps F}.

(** X8: the box does not depend on the rotation terms of the geotransform
    (nor on the bands or the projection): a raster of the same size whose
    geotransform differs in the rotation terms only has the same box. *)
Theorem get_bbox_ignores_rotation (fs fs' : FileSystem F)
  (path path' : string) (ds ds' : Dataset F) (g g' : GeoTransform F) :
  fs path = Some ds -> fs' path' = Some ds' ->
  GetGeoTransform ds = Some g -> GetGeoTransform ds' = Some g' ->
  RasterXSize ds' = RasterXSize ds -> RasterYSize ds' = RasterYSize ds ->
  gt0 g' = gt0 g -> gt1 g' = gt1 g -> gt3 g' = gt3 g -> gt5 g' = gt5 g ->
  get_bbox fs' path' = get_bbox fs path.
Proof.
  intros Hopen Hopen' Hg Hg' HX HY H0 H1 H3 H5.
  unfold get_bbox, gdal_Open. rewrite Hopen, Hopen'. cbn [bind].
  rewrite Hg, Hg'. cbn [bind subscript].
  now rewrite HX, HY, H0, H1, H3, H5.
Qed.

End BoxRotation.

Lemma get_bbox_ignores_rotation_witness :
  get_bbox (F := xQ) (fun _ => Some (raster10 rotated)) "rotated.tif"
  = get_bbox sample_fs "raster10.tif".
Proof.
  exact (get_bbox_ignores_rotation (F := xQ) sample_fs
           (fun _ => Some (raster10 rotated)) "raster10.tif" "rotated.tif"
           (raster10 north_up) (raster10 rotated) north_up rotated
           eq_refl eq_refl eq_refl eq_refl eq_refl eq_refl
           eq_refl eq_refl eq_refl eq_refl).
Defined.

(** X9: with finite origin and pixel size, the box is as wide as the columns
    times the pixel width and as high as the rows times the pixel height
    (sign changed); its x values are in (min, max) order exactly when the
    pixel width is positive. *)
Theorem get_bbox_extent (fs : FileSystem xQ) (path : string)
  (ds : Dataset xQ) (g : GeoTransform xQ) (ulx uly resX resY : Q) :
  fs path = Some ds -> GetGeoTransform ds = Some g ->
  gt0 g = XFin ulx -> gt1 g = XFin resX ->
  gt3 g = XFin uly -> gt5 g = XFin resY ->
  0 < RasterXSize ds ->
  exists minx miny maxx maxy : Q,
    get_bbox fs path
    = Ok [XFin minx; XFin miny; XFin maxx; XFin maxy; XFin resX; XFin resY]
    /\ maxx - minx == inject_Z (Z.of_nat (RasterXSize ds)) * resX
    /\ maxy - miny == - (inject_Z (Z.of_nat (RasterYSize ds)) * resY)
    /\ (minx < maxx <-> 0 < resX)%Q.
Proof.
  intros Hopen Hg H0 H1 H3 H5 Hcols.
  exists ulx, (uly + inject_Z (Z.of_nat (RasterYSize ds)) * resY)%Q,
         (ulx + inject_Z (Z.of_nat (RasterXSize ds)) * resX)%Q, uly.
  assert (Hn : (0 < inject_Z (Z.of_nat (RasterXSize ds)))%Q).
  { change 0%Q with (inject_Z 0). rewrite <- Zlt_Qlt. lia. }
  split; [|split; [ring | split; [ring|]]].
  - unfold get_bbox, gdal_Open. rewrite Hopen. cbn [bind]. rewrite Hg.
    cbn [bind subscript]. rewrite H0, H1, H3, H5. reflexivity.
  - split; intros Hlt; nra.
Qed.

Lemma get_bbox_extent_witness :
  exists minx miny maxx maxy : Q,
    get_bbox (F := xQ) sample_fs "raster10.tif"
    = Ok [XFin minx; XFin miny; XFin maxx; XFin maxy; XFin 1; XFin (-1)]
    /\ maxx - minx == inject_Z 10 * 1
    /\ maxy - miny == - (inject_Z 10 * -1)
    /\ (minx < maxx <-> 0 < 1)%Q.
Proof.
  assert (Hcols : 0 < RasterXSize (@raster10 xQ _ north_up)) by (simpl; lia).
  exact (get_bbox_extent sample_fs "raster10.tif" (raster10 north_up)
           north_up 0 10 1 (-1)
           eq_refl eq_refl eq_refl eq_refl eq_refl eq_refl Hcols).
Defined.

(** ** More on the run *)

Section WrittenCells.

Context {F : Type} {ops : FloatOps F}.
Variable normpath : string -> string.
Variable store_None : result F.

(** On two rasters of one size, with a sentinel: the run returns, band
    [i + 1] is written, and its cells are the fused values, with the
    sentinel where the fused value is NaN. *)
Lemma pansharpening_written (fs : FileSystem F)
  (mul_resize pan outPath : string) (s : F)
  (pds mds : Dataset F) (g : GeoTransform F) (i : nat)
  (mpx : nat -> nat -> F) :
  fs pan = Some pds -> fs mul_resize = Some mds ->
  RasterBands pds <> [] -> nth_error (RasterBands mds) i = Some mpx ->
  GetGeoTransform pds = Some g ->
  RasterXSize mds = RasterXSize pds -> RasterYSize mds = RasterYSize pds ->
  0 < RasterYSize pds ->
  let pan_arr := map (band_array pds (Some s)) (RasterBands pds) in
  exists log a pan_spatial,
    pansharpening normpath store_None fs mul_resize pan outPath (Some s)
    = Ok log
    /\ In (WriteArray (i + 1) a) log
    /\ high_pass_filter pan_arr = Ok pan_spatial
    /\ forall r c, r < RasterYSize pds -> c < RasterXSize pds ->
         at2 a nan r c
         = let x := fadd (mpx r c)
                      (fsub (at3 pan_arr nan 0 r c)
                            (at3 pan_spatial nan 0 r c)) in
           if isnan x then s else x.
Proof.
  intros Hpan Hmul Hpb Hmpx Hg HX HY Hpos pan_arr.
  assert (Hi : i < RasterCount mds)
    by (unfold RasterCount; apply nth_error_Some; congruence).
  assert (Hmb : RasterBands mds <> [])
    by (intros Hnil; rewrite Hnil in Hmpx; destruct i; discriminate).
  eexists. eexists. eexists.
  split; [apply (pansharpening_ok normpath store_None fs mul_resize pan
                   outPath (Some s) s pds mds g);
          (assumption || reflexivity)|].
  split.
  - right. apply in_or_app. left. apply in_flat_map.
    exists i. split; [apply in_seq; lia|].
    apply in_or_app. right. left. reflexivity.
  - split.
    + apply high_pass_filter_ok. subst pan_arr.
      destruct (RasterBands pds); [congruence | discriminate].
    + intros r c Hr Hc. unfold nan_to.
      rewrite (at2_map _ _ _ (RasterYSize mds) (RasterXSize mds))
        by (try apply has_shape2_tabulate; lia).
      rewrite at2_tabulate by lia.
      rewrite (band_arrays_cell mds None i r c mpx Hmpx) by lia.
      reflexivity.
Qed.

End WrittenCells.

Section NodataFrame.

Context {F : Type} {ops : FloatOps F} {laws : FloatLaws F}.
Variable normpath : string -> string.
Variable store_None : result F.

(** Where the filtered PAN cell is NaN, the written cell is the sentinel. *)
Lemma written_where_filter_nan (s m p h : F) :
  isnan h = true ->
  (let x := fadd m (fsub p h) in if isnan x then s else x) = s.
Proof.
  intros Hh. cbv zeta.
  now rewrite (fadd_nan_r m (fsub p h) (fsub_nan_r p h Hh)).
Qed.

Lemma filter_centre_from_three (n : nat) :
  3 <= n -> (1 <= filter_centre n)%Z.
Proof.
  intros Hn. unfold filter_centre.
  pose proof (Z.div_le_lower_bound (Z.of_nat n) 2 1 eq_refl) as Hone.
  destruct (Nat.even n) eqn:Heven.
  - assert (n <> 3) by (intros ->; discriminate).
    pose proof (Z.div_le_lower_bound (Z.of_nat n) 2 2 eq_refl). lia.
  - lia.
Qed.

(** X10: with a PAN raster of one band, every output band has a frame two
    cells wide that holds the sentinel, whatever the rasters hold. *)
Theorem pansharpening_border_is_nodata (fs : FileSystem F)
  (mul_resize pan outPath : string) (s : F)
  (pds mds : Dataset F) (g : GeoTransform F) (i r c : nat)
  (mpx : nat -> nat -> F) :
  fs pan = Some pds -> fs mul_resize = Some mds ->
  RasterCount pds = 1 -> nth_error (RasterBands mds) i = Some mpx ->
  GetGeoTransform pds = Some g ->
  RasterXSize mds = RasterXSize pds -> RasterYSize mds = RasterYSize pds ->
  r < RasterYSize pds -> c < RasterXSize pds ->
  r < 2 \/ RasterYSize pds <= r + 2 \/ c < 2 \/ RasterXSize pds <= c + 2 ->
  exists log a,
    pansharpening normpath store_None fs mul_resize pan outPath (Some s)
    = Ok log
    /\ In (WriteArray (i + 1) a) log
    /\ at2 a nan r c = s.
Proof.
  intros Hpan Hmul Hone Hmpx Hg HX HY Hr Hc Hedge.
  assert (Hpb : RasterBands pds <> [])
    by (unfold RasterCount in Hone; destruct (RasterBands pds); discriminate).
  destruct (pansharpening_written normpath store_None fs mul_resize pan
              outPath s pds mds g i mpx Hpan Hmul Hpb Hmpx Hg HX HY)
    as [log [a [pan_spatial [Hrun [Hin [Hhp Hcell]]]]]]; [lia|].
  exists log, a. split; [exact Hrun|]. split; [exact Hin|].
  rewrite (Hcell r c Hr Hc). apply written_where_filter_nan.
  pose proof (has_shape3_band_arrays pds (Some s)) as Hs. rewrite Hone in Hs.
  destruct (filter_border_nan _ _ _ r c Hs Hr Hc Hedge) as [out [Hout Hnan]].
  rewrite Hhp in Hout. now inversion Hout.
Qed.

(** X11: with a PAN raster of one band, a PAN cell equal to the sentinel
    puts the sentinel in the 5 x 5 block around it in every output band. *)
Theorem pansharpening_pan_nodata_block (fs : FileSystem F)
  (mul_resize pan outPath : string) (s : F)
  (pds mds : Dataset F) (g : GeoTransform F) (i r0 c0 r c : nat)
  (ppx mpx : nat -> nat -> F) :
  fs pan = Some pds -> fs mul_resize = Some mds ->
  RasterBands pds = [ppx] -> nth_error (RasterBands mds) i = Some mpx ->
  GetGeoTransform pds = Some g ->
  RasterXSize mds = RasterXSize pds -> RasterYSize mds = RasterYSize pds ->
  r0 < RasterYSize pds -> c0 < RasterXSize pds ->
  feqb (ppx r0 c0) s = true ->
  r < RasterYSize pds -> c < RasterXSize pds ->
  r <= r0 + 2 -> r0 <= r + 2 -> c <= c0 + 2 -> c0 <= c + 2 ->
  exists log a,
    pansharpening normpath store_None fs mul_resize pan outPath (Some s)
    = Ok log
    /\ In (WriteArray (i + 1) a) log
    /\ at2 a nan r c = s.
Proof.
  intros Hpan Hmul Hone Hmpx Hg HX HY Hr0 Hc0 Heq Hr Hc Hr1 Hr2 Hc1 Hc2.
  assert (Hpb : RasterBands pds <> []) by (rewrite Hone; discriminate).
  destruct (pansharpening_written normpath store_None fs mul_resize pan
              outPath s pds mds g i mpx Hpan Hmul Hpb Hmpx Hg HX HY)
    as [log [a [pan_spatial [Hrun [Hin [Hhp Hcell]]]]]]; [lia|].
  exists log, a. split; [exact Hrun|]. split; [exact Hin|].
  rewrite (Hcell r c Hr Hc). apply written_where_filter_nan.
  pose proof (has_shape3_band_arrays pds (Some s)) as Hs.
  unfold RasterCount in Hs. rewrite Hone in Hs. cbn [length] in Hs.
  rewrite <- Hone in Hs.
  assert (Hnan : isnan (at3 (map (band_array pds (Some s)) (RasterBands pds))
                          nan 0 r0 c0) = true).
  { rewrite (band_arrays_cell pds (Some s) 0 r0 c0 ppx)
      by (assumption || now rewrite Hone).
    cbn [eq_nodata]. rewrite Heq. apply isnan_nan. }
  destruct (filter_spreads_nan _ _ _ r0 c0 r c Hs Hr Hc Hnan Hr1 Hr2 Hc1 Hc2)
    as [out [Hout Hnanout]].
  rewrite Hhp in Hout. now inversion Hout.
Qed.

(** X12: with a PAN raster of three or more bands, every cell of every
    output band is the sentinel. *)
Theorem pansharpening_many_pan_bands (fs : FileSystem F)
  (mul_resize pan outPath : string) (s : F)
  (pds mds : Dataset F) (g : GeoTransform F) (i r c : nat)
  (mpx : nat -> nat -> F) :
  fs pan = Some pds -> fs mul_resize = Some mds ->
  3 <= RasterCount pds -> nth_error (RasterBands mds) i = Some mpx ->
  GetGeoTransform pds = Some g ->
  RasterXSize mds = RasterXSize pds -> RasterYSize mds = RasterYSize pds ->
  r < RasterYSize pds -> c < RasterXSize pds ->
  exists log a,
    pansharpening normpath store_None fs mul_resize pan outPath (Some s)
    = Ok log
    /\ In (WriteArray (i + 1) a) log
    /\ at2 a nan r c = s.
Proof.
  intros Hpan Hmul Hmany Hmpx Hg HX HY Hr Hc.
  assert (Hpb : RasterBands pds <> []).
  { unfold RasterCount in Hmany. destruct (RasterBands pds); [|discriminate].
    simpl in Hmany. lia. }
  destruct (pansharpening_written normpath store_None fs mul_resize pan
              outPath s pds mds g i mpx Hpan Hmul Hpb Hmpx Hg HX HY)
    as [log [a [pan_spatial [Hrun [Hin [Hhp Hcell]]]]]]; [lia|].
  exists log, a. split; [exact Hrun|]. split; [exact Hin|].
  rewrite (Hcell r c Hr Hc). apply written_where_filter_nan.
  pose proof (has_shape3_band_arrays pds (Some s)) as Hs.
  pose proof (filter_centre_from_three _ Hmany) as Hcentre.
  destruct (filter_off_centre_nan _ _ _ _ 0 r c Hs) as [out [Hout Hnan]];
    [lia | assumption | assumption | simpl; lia |].
  rewrite Hhp in Hout. now inversion Hout.
Qed.

End NodataFrame.

Lemma pansharpening_border_is_nodata_witness :
  exists log a,
    pansharpening (F := xQ) (fun p => p) (Raise ValueError) fs6
      "mul_resize.tif" "pan.tif" "out.tif" (Some (XFin (-9999)))
    = Ok log
    /\ In (WriteArray 2 a) log
    /\ at2 a nan 1 3 = XFin (-9999).
Proof.
  apply (pansharpening_border_is_nodata (fun p => p) (Raise ValueError) fs6
           "mul_resize.tif" "pan.tif" "out.tif" (XFin (-9999)) pan6 mul6
           north_up 1 1 3 (fun r c => of_int (200 + Z.of_nat r)));
    try reflexivity; simpl; lia.
Defined.

Lemma pansharpening_pan_nodata_block_witness :
  exists log a,
    pansharpening (F := xQ) (fun p => p) (Raise ValueError) fs6
      "mul_resize.tif" "pan.tif" "out.tif" (Some (XFin (-9999)))
    = Ok log
    /\ In (WriteArray 1 a) log
    /\ at2 a nan 2 2 = XFin (-9999).
Proof.
  apply (pansharpening_pan_nodata_block (fun p => p) (Raise ValueError) fs6
           "mul_resize.tif" "pan.tif" "out.tif" (XFin (-9999)) pan6 mul6
           north_up 0 0 0 2 2
           (fun r c => if (r =? 0) && (c =? 0) then of_int (-9999)
                       else of_int (Z.of_nat r + Z.of_nat c))
           (fun r c => of_int 100));
    try reflexivity; simpl; lia.
Defined.

Lemma pansharpening_many_pan_bands_witness :
  exists log a,
    pansharpening (F := xQ) (fun p => p) (Raise ValueError) fs6
      "mul_resize.tif" "pan3.tif" "out.tif" (Some (XFin (-9999)))
    = Ok log
    /\ In (WriteArray 1 a) log
    /\ at2 a nan 2 2 = XFin (-9999).
Proof.
  apply (pansharpening_many_pan_bands (fun p => p) (Raise ValueError) fs6
           "mul_resize.tif" "pan3.tif" "out.tif" (XFin (-9999)) pan6x3 mul6
           north_up 0 2 2 (fun r c => of_int 100));
    try reflexivity; simpl; lia.
Defined.

(** ** The run in the interior *)

Section Interior.

Variable normpath : string -> string.
Variable store_None : result xQ.

(** X13: with a PAN raster of one band, at an interior cell whose 5 x 5 PAN
    window holds numbers, none of them the sentinel, and whose MUL value is a
    number, the output holds the MUL value plus the mean of the PAN window. *)
Theorem pansharpening_adds_window_mean (fs : FileSystem xQ)
  (mul_resize pan outPath : string) (s : xQ)
  (pds mds : Dataset xQ) (g : GeoTransform xQ) (i r c : nat)
  (ppx mpx : nat -> nat -> xQ) (w : Z -> Z -> Q) (m : Q) :
  fs pan = Some pds -> fs mul_resize = Some mds ->
  RasterBands pds = [ppx] -> nth_error (RasterBands mds) i = Some mpx ->
  GetGeoTransform pds = Some g ->
  RasterXSize mds = RasterXSize pds -> RasterYSize mds = RasterYSize pds ->
  2 <= r -> r + 2 < RasterYSize pds -> 2 <= c -> c + 2 < RasterXSize pds ->
  (forall dr dc, (-2 <= dr <= 2)%Z -> (-2 <= dc <= 2)%Z ->
     ppx (Z.to_nat (Z.of_nat r + dr)) (Z.to_nat (Z.of_nat c + dc))
     = XFin (w dr dc)
     /\ feqb (XFin (w dr dc)) s = false) ->
  mpx r c = XFin m ->
  exists log a q,
    pansharpening normpath store_None fs mul_resize pan outPath (Some s)
    = Ok log
    /\ In (WriteArray (i + 1) a) log
    /\ at2 a XNaN r c = XFin q
    /\ q == m + window_sum w / 25.
Proof.
  intros Hpan Hmul Hone Hmpx Hg HX HY Hr1 Hr2 Hc1 Hc2 Hwin Hm.
  assert (Hpb : RasterBands pds <> []) by (rewrite Hone; discriminate).
  destruct (pansharpening_written normpath store_None fs mul_resize pan
              outPath s pds mds g i mpx Hpan Hmul Hpb Hmpx Hg HX HY)
    as [log [a [pan_spatial [Hrun [Hin [Hhp Hcell]]]]]]; [lia|].
  pose proof (has_shape3_band_arrays pds (Some s)) as Hs.
  unfold RasterCount in Hs. rewrite Hone in Hs. cbn [length] in Hs.
  rewrite <- Hone in Hs.
  assert (Hpancell : forall dr dc, (-2 <= dr <= 2)%Z -> (-2 <= dc <= 2)%Z ->
            at3 (map (band_array pds (Some s)) (RasterBands pds)) XNaN 0
                (Z.to_nat (Z.of_nat r + dr)) (Z.to_nat (Z.of_nat c + dc))
            = XFin (w dr dc)).
  { intros dr dc Hdr Hdc. destruct (Hwin dr dc Hdr Hdc) as [Hv Hns].
    change XNaN with (@nan xQ xQ_ops).
    rewrite (band_arrays_cell pds (Some s) 0 _ _ ppx)
      by (try lia; now rewrite Hone).
    cbn [eq_nodata]. rewrite Hv, Hns. reflexivity. }
  destruct (filter_interior_value _ _ _ r c w Hs Hr1 Hr2 Hc1 Hc2 Hpancell)
    as [out [qh [Hout [Hh Hqh]]]].
  rewrite Hhp in Hout. inversion Hout; subst out.
  exists log, a, (m + (w 0%Z 0%Z - qh))%Q.
  split; [exact Hrun|]. split; [exact Hin|]. split.
  - change XNaN with (@nan xQ xQ_ops). rewrite (Hcell r c) by lia.
    change (@nan xQ xQ_ops) with XNaN. rewrite Hh, Hm.
    pose proof (Hpancell 0%Z 0%Z) as Hcentre.
    replace (Z.to_nat (Z.of_nat r + 0)) with r in Hcentre by lia.
    replace (Z.to_nat (Z.of_nat c + 0)) with c in Hcentre by lia.
    rewrite Hcentre by lia. reflexivity.
  - rewrite Hqh. ring.
Qed.

End Interior.

Lemma pansharpening_adds_window_mean_witness :
  exists log a q,
    pansharpening (F := xQ) (fun p => p) (Raise ValueError) fs6
      "mul_resize.tif" "pan.tif" "out.tif" (Some (XFin (-9999)))
    = Ok log
    /\ In (WriteArray 1 a) log
    /\ at2 a XNaN 3 3 = XFin q
    /\ q == inject_Z 100
            + window_sum (fun dr dc => inject_Z (3 + dr + (3 + dc))) / 25.
Proof.
  apply (pansharpening_adds_window_mean (fun p => p) (Raise ValueError) fs6
           "mul_resize.tif" "pan.tif" "out.tif" (XFin (-9999)) pan6 mul6
           north_up 0 3 3
           (fun r c => if (r =? 0) && (c =? 0) then of_int (-9999)
                       else of_int (Z.of_nat r + Z.of_nat c))
           (fun r c => of_int 100)
           (fun dr dc => inject_Z (3 + dr + (3 + dc))) (inject_Z 100));
    try reflexivity; try (simpl; lia).
  intros dr dc Hdr Hdc.
  destruct (offsets5_cases dr Hdr) as [->|[->|[->|[->| ->]]]];
    destruct (offsets5_cases dc Hdc) as [->|[->|[->|[->| ->]]]];
    split; reflexivity.
Defined.

(** ** What a run writes *)

Section NoNaNWritten.

Context {F : Type} {ops : FloatOps F}.
Variable normpath : string -> string.
Variable store_None : result F.

Lemma for_each_append_inv_with {A B C} (P : C -> Prop) (xs : list A)
  (body : A -> list B -> result (list B)) (g : A -> C -> list B) :
  (forall x s s1, body x s = Ok s1 -> exists y, P y /\ s1 = s ++ g x y) ->
  forall s s', for_each xs body s = Ok s' ->
  exists ys, Forall P ys
    /\ s' = s ++ flat_map (fun '(x, y) => g x y) (combine xs ys).
Proof.
  intros Hbody. induction xs as [|x xs IH]; intros s s' Hrun; simpl in Hrun.
  - exists []. split; [constructor|]. inversion Hrun. simpl.
    now rewrite app_nil_r.
  - destruct (body x s) as [s1|e] eqn:Hx; [|discriminate]. simpl in Hrun.
    destruct (Hbody _ _ _ Hx) as [y [Hy ->]].
    destruct (IH _ _ Hrun) as [ys [Hall ->]].
    exists (y :: ys). split; [now constructor|].
    simpl. now rewrite <- app_assoc.
Qed.

(** Every array a run writes is a fused band with the sentinel put in place
    of NaN. *)
Lemma pansharpening_writes_replaced (fs : FileSystem F)
  (mul_resize pan outPath : string) (s : F) (log : list (GdalOp F))
  (k : nat) (a : Array2 F) :
  pansharpening normpath store_None fs mul_resize pan outPath (Some s)
  = Ok log ->
  In (WriteArray k a) log ->
  exists fused, a = nan_to s fused.
Proof.
  unfold pansharpening. intros Hrun Hin.
  destruct (read_raster fs pan (Some s))
    as [[[pan_arr projection] geoTrans]|e]; [|discriminate].
  cbn [bind] in Hrun.
  destruct (high_pass_filter pan_arr) as [pan_spatial|e]; [|discriminate].
  cbn [bind] in Hrun.
  destruct (read_raster fs mul_resize None) as [[[mul_arr ?] ?]|e];
    [|discriminate].
  cbn [bind] in Hrun.
  destruct (get_bbox fs pan) as [bbox|e]; [|discriminate].
  cbn [bind] in Hrun.
  destruct (shape3 mul_arr) as [[n_bands rows] columns].
  destruct (getitem pan_arr 0) as [pan_arr2d|e]; [|discriminate].
  cbn [bind] in Hrun.
  destruct (getitem pan_spatial 0) as [pan_spatial2d|e]; [|discriminate].
  cbn [bind] in Hrun.
  match type of Hrun with
  | bind (for_each ?xs ?body ?s0) _ = _ =>
      destruct (for_each xs body s0) as [out|e] eqn:Hloop; [|discriminate]
  end.
  cbn [bind] in Hrun.
  apply (for_each_append_inv_with
           (fun a => exists fused, a = nan_to s fused) _ _
           (fun i a => [SetNoDataValue (i + 1) s; WriteArray (i + 1) a]))
    in Hloop.
  - destruct Hloop as [arrays [Hall ->]].
    inversion Hrun as [Hlog]. clear Hrun. rewrite <- Hlog in Hin.
    assert (Hmid : In (WriteArray k a)
                     (flat_map (fun '(i, a0) =>
                        [SetNoDataValue (i + 1) s; WriteArray (i + 1) a0])
                        (combine (range 0 n_bands) arrays))).
    { destruct geoTrans, projection;
        repeat match goal with
               | H : In _ (_ ++ _) |- _ =>
                   apply in_app_or in H; destruct H as [H|H]
               | H : In _ (_ :: _) |- _ =>
                   destruct H as [H|H]; [discriminate H|]
               | H : In _ [] |- _ => contradiction H
               end;
        assumption. }
    apply in_flat_map in Hmid. destruct Hmid as [[i a0] [Hpair Hop]].
    destruct Hop as [Hop|[Hop|[]]]; [discriminate|].
    inversion Hop; subst. apply in_combine_r in Hpair.
    rewrite Forall_forall in Hall. exact (Hall _ Hpair).
  - intros i s0 s1 Hbody.
    destruct (getitem mul_arr i); [|discriminate]. cbn [bind] in Hbody.
    destruct (hpf _ _ _) as [fused|]; [|discriminate]. cbn [bind] in Hbody.
    unfold setitem_isnan in Hbody. cbn [replacement bind] in Hbody.
    unfold BandWriteArray in Hbody.
    destruct (shape2 (nan_to s fused)) as [ys xs].
    destruct ((xs <=? columns) && (ys <=? rows)); [|discriminate].
    inversion Hbody. exists (nan_to s fused).
    split; [now exists fused|]. now rewrite <- app_assoc.
Qed.

(** X14: with a sentinel that is a number, no run writes a NaN: every cell
    of every array written to the output is a number. *)
Theorem pansharpening_writes_no_nan (fs : FileSystem F)
  (mul_resize pan outPath : string) (s : F) (log : list (GdalOp F))
  (k : nat) (a : Array2 F) (row : list F) (x : F) :
  isnan s = false ->
  pansharpening normpath store_None fs mul_resize pan outPath (Some s)
  = Ok log ->
  In (WriteArray k a) log -> In row a -> In x row ->
  isnan x = false.
Proof.
  intros Hs Hrun Hin Hrow Hx.
  destruct (pansharpening_writes_replaced fs mul_resize pan outPath s log k a
              Hrun Hin) as [fused ->].
  unfold nan_to in Hrow. apply in_map_iff in Hrow.
  destruct Hrow as [row0 [<- _]]. apply in_map_iff in Hx.
  destruct Hx as [x0 [<- _]].
  destruct (isnan x0) eqn:Hx0; assumption.
Qed.

End NoNaNWritten.

Lemma pansharpening_writes_no_nan_witness :
  exists log a row x,
    pansharpening (F := xQ) (fun p => p) (Raise ValueError) sample_fs
      "mul_resize.tif" "pan.tif" "out.tif" (Some (XFin (-9999))) = Ok log
    /\ In (WriteArray 1 a) log /\ In row a /\ In x row
    /\ isnan x = false.
Proof.
  destruct (pansharpening (F := xQ) (fun p => p) (Raise ValueError) sample_fs
              "mul_resize.tif" "pan.tif" "out.tif" (Some (XFin (-9999))))
    as [log|e] eqn:Hrun; [|vm_compute in Hrun; discriminate Hrun].
  pose proof Hrun as Hlog. vm_compute in Hlog. injection Hlog as Hlog.
  subst log.
  lazymatch type of Hrun with
  | _ = Ok (?c :: ?t :: WriteArray ?k ((?x :: ?xs) :: ?rows) :: ?rest) =>
      exists (c :: t :: WriteArray k ((x :: xs) :: rows) :: rest),
             ((x :: xs) :: rows), (x :: xs), x;
      assert (Hin : In (WriteArray k ((x :: xs) :: rows))
                      (c :: t :: WriteArray k ((x :: xs) :: rows) :: rest))
        by (right; right; left; reflexivity);
      assert (Hrow : In (x :: xs) ((x :: xs) :: rows)) by (left; reflexivity);
      assert (Hx : In x (x :: xs)) by (left; reflexivity);
      split; [reflexivity|];
      split; [exact Hin|];
      split; [exact Hrow|];
      split; [exact Hx|];
      exact (pansharpening_writes_no_nan (fun p => p) (Raise ValueError)
               sample_fs "mul_resize.tif" "pan.tif" "out.tif" (XFin (-9999))
               _ k _ _ x eq_refl Hrun Hin Hrow Hx)
  end.
Defined.

(** ** Rasters of different sizes *)

Section SizeMismatch.

Context {F : Type} {ops : FloatOps F}.
Variable normpath : string -> string.
Variable store_None : result F.

Lemma broadcast_dim_raises (m n : nat) :
  m <> n -> m <> 1 -> n <> 1 -> broadcast_dim m n = Raise ValueError.
Proof.
  intros Hmn Hm Hn. unfold broadcast_dim.
  destruct (Nat.eqb_spec m n); [contradiction|].
  destruct (Nat.eqb_spec m 1); [contradiction|].
  destruct (Nat.eqb_spec n 1); [contradiction|]. reflexivity.
Qed.

Lemma broadcast_dim_error (m n : nat) (e : PyErr) :
  broadcast_dim m n = Raise e -> e = ValueError.
Proof.
  unfold broadcast_dim.
  destruct (m =? n); [discriminate|].
  destruct (m =? 1); [discriminate|].
  destruct (n =? 1); [discriminate|]. congruence.
Qed.

Lemma elementwise_incompatible (d : F) (op : F -> F -> F) (x y : Array2 F)
  (rx cx ry cy : nat) :
  shape2 x = (rx, cx) -> shape2 y = (ry, cy) ->
  (rx <> ry /\ rx <> 1 /\ ry <> 1) \/ (cx <> cy /\ cx <> 1 /\ cy <> 1) ->
  elementwise d op x y = Raise ValueError.
Proof.
  intros Hx Hy Hbad. unfold elementwise. rewrite Hx, Hy.
  destruct (broadcast_dim rx ry) as [nr|e] eqn:Hrows.
  - cbn [bind]. destruct Hbad as [[H1 [H2 H3]]|[H1 [H2 H3]]].
    + rewrite broadcast_dim_raises in Hrows by assumption. discriminate.
    + now rewrite broadcast_dim_raises.
  - cbn [bind]. now rewrite (broadcast_dim_error _ _ _ Hrows).
Qed.

(** When the MUL raster has not the rows or not the columns of the PAN
    raster (and neither count is 1), the run raises [ValueError]. *)
Lemma size_mismatch_raises (fs : FileSystem F)
  (mul_resize pan outPath : string) (nodata : option F)
  (pds mds : Dataset F) (g : GeoTransform F) :
  fs pan = Some pds -> fs mul_resize = Some mds ->
  RasterBands pds <> [] -> RasterBands mds <> [] ->
  GetGeoTransform pds = Some g ->
  0 < RasterYSize pds -> 0 < RasterYSize mds ->
  (RasterYSize mds <> RasterYSize pds
   /\ RasterYSize mds <> 1 /\ RasterYSize pds <> 1)
  \/ (RasterXSize mds <> RasterXSize pds
      /\ RasterXSize mds <> 1 /\ RasterXSize pds <> 1) ->
  pansharpening normpath store_None fs mul_resize pan outPath nodata
  = Raise ValueError.
Proof.
  intros Hpan Hmul Hpb Hmb Hg Hyp Hym Hbad.
  set (pan_arr := map (band_array pds nodata) (RasterBands pds)).
  set (mul_arr := map (band_array mds None) (RasterBands mds)).
  assert (Hnp : 0 < RasterCount pds)
    by (unfold RasterCount; destruct (RasterBands pds); [congruence|simpl; lia]).
  assert (Hnm : 0 < RasterCount mds)
    by (unfold RasterCount; destruct (RasterBands mds); [congruence|simpl; lia]).
  assert (Hsp : has_shape3 (RasterCount pds) (RasterYSize pds) (RasterXSize pds)
                  pan_arr) by apply has_shape3_band_arrays.
  assert (Hsm : has_shape3 (RasterCount mds) (RasterYSize mds) (RasterXSize mds)
                  mul_arr) by apply has_shape3_band_arrays.
  assert (Hss : has_shape3 (RasterCount pds) (RasterYSize pds) (RasterXSize pds)
                  (ndimage_convolve pan_arr
                     (repeat highPassMatrix (length pan_arr)) nan))
    by (now apply ndimage_convolve_shape).
  unfold pansharpening.
  rewrite (read_raster_ok fs pan pds nodata Hpan Hpb). cbn [bind].
  fold pan_arr.
  rewrite high_pass_filter_ok
    by (subst pan_arr; destruct (RasterBands pds); [congruence | discriminate]).
  cbn [bind].
  rewrite (read_raster_ok fs mul_resize mds None Hmul Hmb). cbn [bind].
  fold mul_arr.
  unfold get_bbox, gdal_Open. rewrite Hpan. cbn [bind]. rewrite Hg.
  cbn [bind subscript].
  rewrite (shape3_of_has_shape3 _ _ _ mul_arr Hsm) by lia.
  rewrite (getitem_ok _ _ _ 0 pan_arr Hsp Hnp). cbn [bind].
  rewrite (getitem_ok _ _ _ 0 _ Hss Hnp). cbn [bind].
  unfold range. rewrite Nat.sub_0_r.
  destruct (RasterCount mds) as [|n'] eqn:Hcount; [lia|].
  cbn [seq for_each].
  rewrite (getitem_ok _ _ _ 0 mul_arr Hsm) by lia. cbn [bind].
  unfold hpf.
  rewrite (elementwise_same_shape _ _ _ _ (RasterYSize pds) (RasterXSize pds));
    [ | now apply (has_shape3_nth (RasterCount pds))
      | now apply (has_shape3_nth (RasterCount pds)) | assumption ].
  cbn [bind].
  rewrite (elementwise_incompatible _ _ _ _
             (RasterYSize mds) (RasterXSize mds)
             (RasterYSize pds) (RasterXSize pds)).
  - reflexivity.
  - apply shape2_of_has_shape2; [|assumption].
    apply (has_shape3_nth (S n')); [assumption | lia].
  - apply shape2_of_has_shape2; [apply has_shape2_tabulate | assumption].
  - exact Hbad.
Qed.

(** X15: when the MUL raster has not the rows or not the columns of the PAN
    raster (and neither count is 1), the run raises [ValueError], and it is
    the fusion of the first band that raises: both rasters are read, the PAN
    stack is filtered, the box is taken and band 0 of the three stacks is
    taken without error. *)
Theorem pansharpening_size_mismatch (fs : FileSystem F)
  (mul_resize pan outPath : string) (nodata : option F)
  (pds mds : Dataset F) (g : GeoTransform F) :
  fs pan = Some pds -> fs mul_resize = Some mds ->
  RasterBands pds <> [] -> RasterBands mds <> [] ->
  GetGeoTransform pds = Some g ->
  0 < RasterYSize pds -> 0 < RasterYSize mds ->
  (RasterYSize mds <> RasterYSize pds
   /\ RasterYSize mds <> 1 /\ RasterYSize pds <> 1)
  \/ (RasterXSize mds <> RasterXSize pds
      /\ RasterXSize mds <> 1 /\ RasterXSize pds <> 1) ->
  exists pan_arr pan_spatial mul_arr bbox_pan pan_arr2d pan_spatial2d band,
    read_raster fs pan nodata = Ok (pan_arr, GetProjection pds, Some g)
    /\ high_pass_filter pan_arr = Ok pan_spatial
    /\ read_raster fs mul_resize None
       = Ok (mul_arr, GetProjection mds, GetGeoTransform mds)
    /\ get_bbox fs pan = Ok bbox_pan
    /\ getitem pan_arr 0 = Ok pan_arr2d
    /\ getitem pan_spatial 0 = Ok pan_spatial2d
    /\ getitem mul_arr 0 = Ok band
    /\ hpf band pan_arr2d pan_spatial2d = Raise ValueError
    /\ pansharpening normpath store_None fs mul_resize pan outPath nodata
       = Raise ValueError.
Proof.
  intros Hpan Hmul Hpb Hmb Hg Hyp Hym Hbad.
  set (pan_arr := map (band_array pds nodata) (RasterBands pds)).
  set (mul_arr := map (band_array mds None) (RasterBands mds)).
  set (pan_spatial :=
         ndimage_convolve pan_arr (repeat highPassMatrix (length pan_arr)) nan).
  assert (Hnp : 0 < RasterCount pds)
    by (unfold RasterCount; destruct (RasterBands pds); [congruence|simpl; lia]).
  assert (Hnm : 0 < RasterCount mds)
    by (unfold RasterCount; destruct (RasterBands mds); [congruence|simpl; lia]).
  assert (Hsp : has_shape3 (RasterCount pds) (RasterYSize pds) (RasterXSize pds)
                  pan_arr) by apply has_shape3_band_arrays.
  assert (Hsm : has_shape3 (RasterCount mds) (RasterYSize mds) (RasterXSize mds)
                  mul_arr) by apply has_shape3_band_arrays.
  assert (Hss : has_shape3 (RasterCount pds) (RasterYSize pds) (RasterXSize pds)
                  pan_spatial)
    by (now apply ndimage_convolve_shape).
  exists pan_arr, pan_spatial, mul_arr.
  exists [ gt0 g;
           fadd (gt3 g) (fmul (of_int (Z.of_nat (RasterYSize pds))) (gt5 g));
           fadd (gt0 g) (fmul (of_int (Z.of_nat (RasterXSize pds))) (gt1 g));
           gt3 g; gt1 g; gt5 g ].
  exists (nth 0 pan_arr []), (nth 0 pan_spatial []), (nth 0 mul_arr []).
  split; [rewrite (read_raster_ok fs pan pds nodata Hpan Hpb), Hg;
          reflexivity|].
  split; [apply high_pass_filter_ok; subst pan_arr;
          destruct (RasterBands pds); [congruence | discriminate]|].
  split; [exact (read_raster_ok fs mul_resize mds None Hmul Hmb)|].
  split; [unfold get_bbox, gdal_Open; rewrite Hpan; cbn [bind]; rewrite Hg;
          reflexivity|].
  split; [exact (getitem_ok _ _ _ 0 pan_arr Hsp Hnp)|].
  split; [exact (getitem_ok _ _ _ 0 pan_spatial Hss Hnp)|].
  split; [exact (getitem_ok _ _ _ 0 mul_arr Hsm Hnm)|].
  split.
  - unfold hpf.
    rewrite (elementwise_same_shape _ _ _ _ (RasterYSize pds) (RasterXSize pds));
      [ | now apply (has_shape3_nth (RasterCount pds))
        | now apply (has_shape3_nth (RasterCount pds)) | assumption ].
    cbn [bind].
    apply (elementwise_incompatible _ _ _ _
             (RasterYSize mds) (RasterXSize mds)
             (RasterYSize pds) (RasterXSize pds)).
    + apply shape2_of_has_shape2; [|assumption].
      now apply (has_shape3_nth (RasterCount mds)).
    + apply shape2_of_has_shape2; [apply has_shape2_tabulate | assumption].
    + exact Hbad.
  - now apply (size_mismatch_raises fs mul_resize pan outPath nodata pds mds g).
Qed.

End SizeMismatch.

Lemma pansharpening_size_mismatch_witness :
  exists pan_arr pan_spatial mul_arr bbox_pan pan_arr2d pan_spatial2d band,
    read_raster (F := xQ) fs6 "pan.tif" (Some (XFin (-9999)))
    = Ok (pan_arr, Some "EPSG:32642"%string, Some north_up)
    /\ high_pass_filter pan_arr = Ok pan_spatial
    /\ read_raster fs6 "mul4.tif" None
       = Ok (mul_arr, Some "EPSG:32642"%string, Some north_up)
    /\ get_bbox fs6 "pan.tif" = Ok bbox_pan
    /\ getitem pan_arr 0 = Ok pan_arr2d
    /\ getitem pan_spatial 0 = Ok pan_spatial2d
    /\ getitem mul_arr 0 = Ok band
    /\ hpf band pan_arr2d pan_spatial2d = Raise ValueError
    /\ pansharpening (fun p => p) (Raise ValueError) fs6
         "mul4.tif" "pan.tif" "out.tif" (Some (XFin (-9999)))
       = Raise ValueError.
Proof.
  assert (Hpb : RasterBands (pan6 (F := xQ)) <> []) by discriminate.
  assert (Hmb : RasterBands (mul4x6 (F := xQ)) <> []) by discriminate.
  assert (Hyp : 0 < RasterYSize (pan6 (F := xQ))) by (simpl; lia).
  assert (Hym : 0 < RasterYSize (mul4x6 (F := xQ))) by (simpl; lia).
  assert (Hbad :
    (RasterYSize (mul4x6 (F := xQ)) <> RasterYSize (pan6 (F := xQ))
     /\ RasterYSize (mul4x6 (F := xQ)) <> 1
     /\ RasterYSize (pan6 (F := xQ)) <> 1)
    \/ (RasterXSize (mul4x6 (F := xQ)) <> RasterXSize (pan6 (F := xQ))
        /\ RasterXSize (mul4x6 (F := xQ)) <> 1
        /\ RasterXSize (pan6 (F := xQ)) <> 1)).
  { right. simpl. lia. }
  exact (pansharpening_size_mismatch (fun p => p) (Raise ValueError) fs6
           "mul4.tif" "pan.tif" "out.tif" (Some (XFin (-9999)))
           pan6 mul4x6 north_up eq_refl eq_refl Hpb Hmb eq_refl Hyp Hym Hbad).
Defined.

(** ** One band at a time *)

Section BandByBand.

Context {F : Type} {ops : FloatOps F}.
Variable normpath : string -> string.
Variable store_None : result F.

(** X16: output band [i + 1] depends on the MUL raster through its band [i]
    and its size only: with another MUL raster of the same size and the same
    band [i] (other bands, band count, projection and geotransform may
    differ) the same array is written for it. *)
Theorem pansharpening_band_by_band (fs fs' : FileSystem F)
  (mul_resize pan outPath : string) (s : F)
  (pds mds mds' : Dataset F) (g : GeoTransform F) (i : nat)
  (mpx : nat -> nat -> F) :
  fs pan = Some pds -> fs' pan = Some pds ->
  fs mul_resize = Some mds -> fs' mul_resize = Some mds' ->
  RasterBands pds <> [] ->
  nth_error (RasterBands mds) i = Some mpx ->
  nth_error (RasterBands mds') i = Some mpx ->
  GetGeoTransform pds = Some g ->
  RasterXSize mds = RasterXSize pds -> RasterYSize mds = RasterYSize pds ->
  RasterXSize mds' = RasterXSize pds -> RasterYSize mds' = RasterYSize pds ->
  0 < RasterYSize pds ->
  exists log log' a,
    pansharpening normpath store_None fs mul_resize pan outPath (Some s)
    = Ok log
    /\ pansharpening normpath store_None fs' mul_resize pan outPath (Some s)
       = Ok log'
    /\ In (WriteArray (i + 1) a) log
    /\ In (WriteArray (i + 1) a) log'.
Proof.
  intros Hpan Hpan' Hmul Hmul' Hpb Hmpx Hmpx' Hg HX HY HX' HY' Hpos.
  assert (Hwritten : forall (fs0 : FileSystem F) (mds0 : Dataset F),
    fs0 pan = Some pds -> fs0 mul_resize = Some mds0 ->
    nth_error (RasterBands mds0) i = Some mpx ->
    RasterXSize mds0 = RasterXSize pds -> RasterYSize mds0 = RasterYSize pds ->
    exists log0,
      pansharpening normpath store_None fs0 mul_resize pan outPath (Some s)
      = Ok log0
      /\ In (WriteArray (i + 1)
               (nan_to s
                  (tabulate (RasterYSize pds) (fun r =>
                     tabulate (RasterXSize pds) (fun c =>
                       fadd (mpx r c)
                         (fsub
                            (at3 (map (band_array pds (Some s))
                                    (RasterBands pds)) nan 0 r c)
                            (at3 (ndimage_convolve
                                    (map (band_array pds (Some s))
                                       (RasterBands pds))
                                    (repeat highPassMatrix
                                       (length (map (band_array pds (Some s))
                                                  (RasterBands pds))))
                                    nan) nan 0 r c)))))))
            log0).
  { intros fs0 mds0 Hp0 Hm0 Hpx0 HX0 HY0.
    assert (Hi : i < RasterCount mds0)
      by (unfold RasterCount; apply nth_error_Some; congruence).
    assert (Hmb : RasterBands mds0 <> [])
      by (intros Hnil; rewrite Hnil in Hpx0; destruct i; discriminate).
    eexists.
    split; [apply (pansharpening_ok normpath store_None fs0 mul_resize pan
                     outPath (Some s) s pds mds0 g);
            (assumption || reflexivity)|].
    right. apply in_or_app. left. apply in_flat_map.
    exists i. split; [apply in_seq; lia|].
    apply in_or_app. right. left. do 2 f_equal.
    rewrite HX0, HY0.
    apply tabulate_ext. intros r Hr. apply tabulate_ext. intros c Hc.
    now rewrite (band_arrays_cell mds0 None i r c mpx Hpx0) by lia. }
  destruct (Hwritten fs mds Hpan Hmul Hmpx HX HY) as [log [Hrun Hin]].
  destruct (Hwritten fs' mds' Hpan' Hmul' Hmpx' HX' HY') as [log' [Hrun' Hin']].
  eexists log, log', _. repeat split; eassumption.
Qed.

End BandByBand.

Lemma pansharpening_band_by_band_witness :
  exists log log' a,
    pansharpening (F := xQ) (fun p => p) (Raise ValueError) fs6
      "mul_resize.tif" "pan.tif" "out.tif" (Some (XFin (-9999))) = Ok log
    /\ pansharpening (F := xQ) (fun p => p) (Raise ValueError) fs6b
         "mul_resize.tif" "pan.tif" "out.tif" (Some (XFin (-9999))) = Ok log'
    /\ In (WriteArray 1 a) log
    /\ In (WriteArray 1 a) log'.
Proof.
  apply (pansharpening_band_by_band (fun p => p) (Raise ValueError) fs6 fs6b
           "mul_resize.tif" "pan.tif" "out.tif" (XFin (-9999))
           pan6 mul6 mul6b north_up 0 (fun r c => of_int 100));
    try reflexivity; try discriminate; simpl; lia.
Defined.

(** ** The resized file *)

Lemma before_dot_stem (stem rest : string) :
  ~ In "."%char (list_ascii_of_string stem) ->
  before_dot (stem ++ String "." rest) = stem.
Proof.
  induction stem as [|ch stem IH]; intros Hnodot; simpl.
  - reflexivity.
  - destruct (Ascii.eqb_spec ch "."%char) as [->|Hne].
    + exfalso. apply Hnodot. now left.
    + f_equal. apply IH. intros Hin. apply Hnodot. now right.
Qed.

(** The script's resized file is named this way. *)
Lemma mul_img_resized_name :
  mul_img_resized = ("../test/" ++ resized_name "mul.tif")%string.
Proof. reflexivity. Qed.

(** X17: the name of the resized file is made of the part of the MUL file
    name before its first dot: two MUL files whose names agree up to the
    first dot get the same resized file name. *)
Theorem resized_name_up_to_first_dot (stem rest rest' : string) :
  ~ In "."%char (list_ascii_of_string stem) ->
  resized_name (stem ++ String "." rest)
  = (stem ++ "_resizePython.tif")%string
  /\ resized_name (stem ++ String "." rest)
     = resized_name (stem ++ String "." rest').
Proof.
  intros Hnodot. unfold resized_name.
  now rewrite !before_dot_stem.
Qed.

Lemma resized_name_up_to_first_dot_witness :
  resized_name "mul.2019.tif" = "mul_resizePython.tif"%string
  /\ resized_name "mul.2019.tif" = resized_name "mul.tif".
Proof.
  apply (resized_name_up_to_first_dot "mul" "2019.tif" "tif").
  simpl. intuition discriminate.
Defined.

(** * The reader in float32 *)

(** ** Comparing floats *)

(** Two floats that compare equal are the same float, or are both zeros. *)
Lemma SFeqb_true_inv (a b : spec_float) :
  SFeqb a b = true ->
  (a = b /\ b64_isnan a = false)
  \/ (exists s1 s2, a = S754_zero s1 /\ b = S754_zero s2).
Proof.
  unfold SFeqb.
  destruct a as [sa|sa| |sa ma ea], b as [sb|sb| |sb mb eb]; simpl;
    try discriminate; intros Heq;
    try (right; eexists; eexists; split; reflexivity);
    try (destruct sa; discriminate Heq);
    try (destruct sb; discriminate Heq).
  - destruct sa, sb; try discriminate Heq; left; auto.
  - destruct sa, sb; try discriminate Heq;
      destruct (Z.compare_spec ea eb); try discriminate Heq; subst;
      destruct (Pos.compare_cont Eq ma mb) eqn:Hm; try discriminate Heq;
      apply Pos.compare_eq in Hm; subst; left; auto.
Qed.

Lemma SFeqb_refl (a : spec_float) : b64_isnan a = false -> SFeqb a a = true.
Proof.
  unfold SFeqb. destruct a as [sa|sa| |sa ma ea]; simpl; try discriminate;
    intros _; try reflexivity.
  - destruct sa; reflexivity.
  - destruct sa; rewrite Z.compare_refl;
      change (Pos.compare_cont Eq ma ma) with (Pos.compare ma ma);
      now rewrite Pos.compare_refl.
Qed.

Lemma SFeqb_zeros (s1 s2 : bool) : SFeqb (S754_zero s1) (S754_zero s2) = true.
Proof. reflexivity. Qed.

Lemma SFeqb_not_nan_l (a b : spec_float) :
  SFeqb a b = true -> b64_isnan a = false.
Proof. destruct a; try reflexivity. discriminate. Qed.

Lemma SFeqb_sym (a b : spec_float) : SFeqb a b = true -> SFeqb b a = true.
Proof.
  intros Hab. destruct (SFeqb_true_inv a b Hab) as [[<- Hn]|[s1 [s2 [-> ->]]]].
  - exact Hab.
  - reflexivity.
Qed.

Lemma SFeqb_trans (a b c : spec_float) :
  SFeqb a b = true -> SFeqb b c = true -> SFeqb a c = true.
Proof.
  intros Hab Hbc.
  destruct (SFeqb_true_inv a b Hab) as [[<- Hn]|[s1 [s2 [-> ->]]]];
    [exact Hbc|].
  destruct (SFeqb_true_inv _ c Hbc) as [[<- Hn]|[s3 [s4 [_ ->]]]];
    reflexivity.
Qed.

(** ** Rounding never makes a NaN *)

Lemma iter_pos_invariant {A} (P : A -> Prop) (f : A -> A) (n : positive) :
  (forall x, P x -> P (f x)) -> forall x, P x -> P (iter_pos f n x).
Proof.
  intros Hf. induction n as [n IH|n IH|]; intros x Hx; simpl; auto.
Qed.

Lemma shr_1_nonneg (mrs : shr_record) :
  (0 <= shr_m mrs)%Z -> (0 <= shr_m (shr_1 mrs))%Z.
Proof.
  destruct mrs as [m r s]. simpl. intros Hm.
  destruct m as [|p|p]; [simpl; lia| |lia].
  destruct p; simpl; lia.
Qed.

Lemma shr_nonneg (mrs : shr_record) (e n : Z) :
  (0 <= shr_m mrs)%Z -> (0 <= shr_m (fst (shr mrs e n)))%Z.
Proof.
  intros Hm. unfold shr. destruct n; simpl; try assumption.
  now apply (iter_pos_invariant (fun x => (0 <= shr_m x)%Z) shr_1 p shr_1_nonneg).
Qed.

Lemma shr_record_of_loc_m (m : Z) (l : location) :
  shr_m (shr_record_of_loc m l) = m.
Proof. destruct l as [|[| |]]; reflexivity. Qed.

Lemma binary_round_aux_not_nan (prec emax : Z) (sx : bool) (mx ex : Z)
  (lx : location) :
  (0 <= mx)%Z -> b64_isnan (binary_round_aux prec emax sx mx ex lx) = false.
Proof.
  intros Hmx. unfold binary_round_aux, shr_fexp.
  pose proof (shr_nonneg (shr_record_of_loc mx lx) ex
                (fexp prec emax (Zdigits2 mx + ex) - ex)) as H1.
  rewrite shr_record_of_loc_m in H1. specialize (H1 Hmx).
  destruct (shr (shr_record_of_loc mx lx) ex _) as [mrs' e'].
  simpl in H1.
  set (m1 := round_nearest_even (shr_m mrs') (loc_of_shr_record mrs')).
  assert (Hm1 : (0 <= m1)%Z).
  { unfold m1, round_nearest_even.
    destruct (loc_of_shr_record mrs') as [|[| |]]; try lia.
    destruct (Z.even (shr_m mrs')); lia. }
  pose proof (shr_nonneg (shr_record_of_loc m1 loc_Exact) e'
                (fexp prec emax (Zdigits2 m1 + e') - e')) as H2.
  rewrite shr_record_of_loc_m in H2. specialize (H2 Hm1).
  destruct (shr (shr_record_of_loc m1 loc_Exact) e' _) as [mrs'' e''].
  simpl in H2.
  destruct (shr_m mrs'') as [|m|m]; [reflexivity| |lia].
  destruct (e'' <=? emax - prec)%Z; reflexivity.
Qed.

Lemma binary_round_not_nan (prec emax : Z) (s : bool) (m : positive) (e : Z) :
  b64_isnan (binary_round prec emax s m e) = false.
Proof.
  unfold binary_round. destruct (shl_align m e _) as [mz ez].
  apply binary_round_aux_not_nan. lia.
Qed.

Lemma astype_float32_not_nan (x : b64) :
  b64_isnan x = false -> b64_isnan (astype_float32 x) = false.
Proof.
  destruct x; simpl; try (intros; assumption || reflexivity).
  intros _. apply binary_round_not_nan.
Qed.

(** Equal doubles are equal as float32 values. *)
Lemma astype_float32_eq (x s : b64) :
  SFeqb x s = true -> SFeqb (astype_float32 x) (astype_float32 s) = true.
Proof.
  intros Heq.
  destruct (SFeqb_true_inv x s Heq) as [[<- Hn]|[s1 [s2 [-> ->]]]].
  - apply SFeqb_refl. now apply astype_float32_not_nan.
  - reflexivity.
Qed.

Lemma float64_of_float32_eq (x y : b32) :
  SFeqb x y = true -> b64_isnan (float64_of_float32 x) = false ->
  SFeqb (float64_of_float32 x) (float64_of_float32 y) = true.
Proof.
  intros Heq Hn.
  destruct (SFeqb_true_inv x y Heq) as [[<- _]|[s1 [s2 [-> ->]]]].
  - now apply SFeqb_refl.
  - reflexivity.
Qed.

(** Doubles that are float32 values are equal when their conversions are. *)
Lemma float32_exact_eq (x s : b64) :
  float32_exact x = true -> float32_exact s = true ->
  SFeqb (astype_float32 x) (astype_float32 s) = true ->
  SFeqb x s = true.
Proof.
  unfold float32_exact. intros Hx Hs Heq.
  apply (SFeqb_trans _ (float64_of_float32 (astype_float32 x))).
  - now apply SFeqb_sym.
  - apply (SFeqb_trans _ (float64_of_float32 (astype_float32 s)));
      [|assumption].
    apply float64_of_float32_eq; [assumption|].
    now apply (SFeqb_not_nan_l _ x).
Qed.

(** ** The reader *)

(** The float32 reader is the carrier-generic reader on the raster of the
    converted cells, with the converted sentinel. *)
Lemma read_raster_float32_generic (fs : FileSystem b64) (path : string)
  (nodata : option b64) :
  read_raster_float32 fs path nodata
  = read_raster (F := b64) (fun p => option_map astype_dataset (fs p)) path
      (option_map astype_float32 nodata).
Proof.
  unfold read_raster_float32, read_raster, gdal_Open.
  destruct (fs path) as [ds|]; [|reflexivity].
  cbn [option_map bind].
  assert (Hcount : @RasterCount b64 (astype_dataset ds) = RasterCount ds)
    by (unfold RasterCount, astype_dataset; cbn [RasterBands];
        apply length_map).
  rewrite Hcount.
  rewrite (for_each_ext _ _
             (fun band raw_image =>
                ds0 <- ReadAsArray (astype_dataset ds) band ;;
                Ok (raw_image
                    ++ [fill_nan ds0 (option_map astype_float32 nodata)])));
    [reflexivity|].
  intros band s. unfold ReadAsArray. destruct band as [|k]; [reflexivity|].
  cbn [astype_dataset RasterBands RasterXSize RasterYSize].
  rewrite nth_error_map.
  destruct (nth_error (RasterBands ds) k) as [px|]; [|reflexivity].
  cbn [option_map bind]. do 3 f_equal.
  unfold fill_nan_float32, fill_nan, tabulate. rewrite !map_map.
  apply map_ext. intros r. rewrite !map_map. apply map_ext. intros c.
  destruct nodata; reflexivity.
Qed.

(** The cell of the stack the float32 reader returns. *)
Lemma read_raster_float32_cell (fs : FileSystem b64) (path : string)
  (ds : Dataset b64) (nodata : option b64) (b r c : nat)
  (px : nat -> nat -> b64) :
  fs path = Some ds -> nth_error (RasterBands ds) b = Some px ->
  r < RasterYSize ds -> c < RasterXSize ds ->
  exists arr,
    read_raster_float32 fs path nodata
    = Ok (arr, GetProjection ds, GetGeoTransform ds)
    /\ has_shape3 (RasterCount ds) (RasterYSize ds) (RasterXSize ds) arr
    /\ at3 arr S754_nan b r c
       = if eq_nodata_float32 (astype_float32 (px r c)) nodata
         then S754_nan else astype_float32 (px r c).
Proof.
  intros Hopen Hpx Hr Hc.
  assert (Hne : RasterBands (astype_dataset ds) <> []).
  { cbn [astype_dataset RasterBands]. intros Hnil.
    apply map_eq_nil in Hnil. rewrite Hnil in Hpx.
    destruct b; discriminate. }
  eexists. split; [|split].
  - rewrite read_raster_float32_generic.
    rewrite (read_raster_ok (F := b64) _ path (astype_dataset ds));
      [reflexivity | now rewrite Hopen | exact Hne].
  - pose proof (has_shape3_band_arrays (F := b64) (astype_dataset ds)
                  (option_map astype_float32 nodata)) as Hs.
    unfold RasterCount in *. cbn [astype_dataset RasterBands RasterXSize
                                   RasterYSize] in Hs.
    rewrite length_map in Hs. exact Hs.
  - change S754_nan with (@nan b64 b64_ops).
    rewrite (band_arrays_cell (F := b64) (astype_dataset ds) _ b r c
               (fun r c => astype_float32 (px r c)));
      [ destruct nodata; reflexivity
      | cbn [astype_dataset RasterBands];
        now apply map_nth_error with (f := fun px r c => astype_float32 (px r c))
      | assumption | assumption ].
Qed.

(** C6: [read_raster] converts every cell to float32 and makes NaN the
    cells whose float32 value equals the float32 value of the sentinel; the
    other cells keep their float32 value.  So a cell equal to the sentinel
    always becomes NaN, and when the cell and the sentinel are float32 values
    the cell becomes NaN exactly when it equals the sentinel.  With no
    sentinel every cell is returned converted to float32. *)
Theorem read_raster_float32_nodata (fs : FileSystem b64) (path : string)
  (ds : Dataset b64) (b r c : nat) (px : nat -> nat -> b64) :
  fs path = Some ds -> nth_error (RasterBands ds) b = Some px ->
  r < RasterYSize ds -> c < RasterXSize ds ->
  (forall s : b64,
     exists arr,
       read_raster_float32 fs path (Some s)
       = Ok (arr, GetProjection ds, GetGeoTransform ds)
       /\ has_shape3 (RasterCount ds) (RasterYSize ds) (RasterXSize ds) arr
       /\ at3 arr S754_nan b r c
          = (if SFeqb (astype_float32 (px r c)) (astype_float32 s)
             then S754_nan else astype_float32 (px r c))
       /\ (SFeqb (px r c) s = true -> at3 arr S754_nan b r c = S754_nan)
       /\ (float32_exact (px r c) = true -> float32_exact s = true ->
           (at3 arr S754_nan b r c = S754_nan <-> SFeqb (px r c) s = true)))
  /\ exists arr,
       read_raster_float32 fs path None
       = Ok (arr, GetProjection ds, GetGeoTransform ds)
       /\ has_shape3 (RasterCount ds) (RasterYSize ds) (RasterXSize ds) arr
       /\ at3 arr S754_nan b r c = astype_float32 (px r c).
Proof.
  intros Hopen Hpx Hr Hc. split.
  - intros s.
    destruct (read_raster_float32_cell fs path ds (Some s) b r c px
                Hopen Hpx Hr Hc) as [arr [Hrun [Hshape Hcell]]].
    cbn [eq_nodata_float32] in Hcell.
    exists arr. split; [exact Hrun|]. split; [exact Hshape|].
    split; [exact Hcell|]. split.
    + intros Heq. rewrite Hcell. now rewrite (astype_float32_eq _ _ Heq).
    + intros Hx Hs. rewrite Hcell. split.
      * destruct (SFeqb (astype_float32 (px r c)) (astype_float32 s)) eqn:Heq.
        -- intros _. now apply float32_exact_eq.
        -- intros Hnan. unfold float32_exact in Hx. rewrite Hnan in Hx.
           discriminate Hx.
      * intros Heq. now rewrite (astype_float32_eq _ _ Heq).
  - destruct (read_raster_float32_cell fs path ds None b r c px
                Hopen Hpx Hr Hc) as [arr [Hrun [Hshape Hcell]]].
    exists arr. auto.
Qed.

Lemma read_raster_float32_nodata_witness :
  (forall s : b64,
     exists arr,
       read_raster_float32 typed_fs "int32.tif" (Some s)
       = Ok (arr, Some "EPSG:32642"%string, Some north_up)
       /\ has_shape3 1 1 4 arr
       /\ at3 arr S754_nan 0 0 3
          = (if SFeqb (astype_float32 (of_int (-9999))) (astype_float32 s)
             then S754_nan else astype_float32 (of_int (-9999)))
       /\ (SFeqb (of_int (-9999)) s = true -> at3 arr S754_nan 0 0 3 = S754_nan)
       /\ (float32_exact (of_int (-9999)) = true -> float32_exact s = true ->
           (at3 arr S754_nan 0 0 3 = S754_nan
            <-> SFeqb (of_int (-9999)) s = true)))
  /\ exists arr,
       read_raster_float32 typed_fs "int32.tif" None
       = Ok (arr, Some "EPSG:32642"%string, Some north_up)
       /\ has_shape3 1 1 4 arr
       /\ at3 arr S754_nan 0 0 3 = astype_float32 (of_int (-9999)).
Proof.
  assert (Hr : 0 < RasterYSize int32_raster) by (simpl; lia).
  assert (Hc : 3 < RasterXSize int32_raster) by (simpl; lia).
  exact (read_raster_float32_nodata typed_fs "int32.tif" int32_raster 0 0 3
           (fun r c => match c with
                       | 0 => of_int 16777217
                       | 1 => of_int 16777216
                       | 2 => of_int 3
                       | _ => of_int (-9999)
                       end)
           eq_refl eq_refl Hr Hc).
Defined.

(** C6 as the specification words it fails.  The cell 16777217 of an Int32
    raster is not the sentinel 16777216, and yet it is made NaN; so is the
    float32 nearest to 0.1 under the sentinel 0.1.  Read without a sentinel,
    the cell 0.1 of a Float64 raster does not come back as 0.1. *)
Lemma read_raster_replaces_unequal_cells :
  (exists arr,
     read_raster_float32 typed_fs "int32.tif" (Some (of_int 16777216))
     = Ok (arr, Some "EPSG:32642"%string, Some north_up)
     /\ SFeqb (of_int 16777217) (of_int 16777216) = false
     /\ at3 arr S754_nan 0 0 0 = S754_nan
     /\ at3 arr S754_nan 0 0 1 = S754_nan
     /\ at3 arr S754_nan 0 0 2 = astype_float32 (of_int 3))
  /\ (exists arr,
        read_raster_float32 typed_fs "float64.tif" (Some tenth)
        = Ok (arr, Some "EPSG:32642"%string, Some north_up)
        /\ SFeqb tenth_float32 tenth = false
        /\ at3 arr S754_nan 0 0 1 = S754_nan)
  /\ (exists arr,
        read_raster_float32 typed_fs "float64.tif" None
        = Ok (arr, Some "EPSG:32642"%string, Some north_up)
        /\ SFeqb (float64_of_float32 (at3 arr S754_nan 0 0 0)) tenth = false).
Proof.
  split; [|split]; eexists; repeat split; vm_compute; reflexivity.
Qed.
